(** * Flight Coach AI: the game engine and the trainer's data preparation

    A shallow embedding of [src/lib/game-engine.ts] and of the data
    preparation of [src/lib/ml-trainer.ts], with the properties of the
    recording pipeline, the feature pipeline, class balancing, the CSV
    interchange and the round life cycle.

    Conventions of the embedding.
    - A JavaScript number that lives in the simulation (positions, speeds,
      canvas size) is an exact rational [Q]: the frame step is modelled
      without binary64 rounding.  Counters and clock readings are [Z].
    - A number that can come out of [parseInt], [parseFloat] or a division
      is a [num]: a rational, [NaN] or an infinity.  Signed zero is not
      modelled.
    - Binary64 rounding is [JS.round64].  The numbers read from text
      ([parseInt], [parseFloat]), the numbers printed ([String(n)],
      [toFixed]) and the arithmetic of the trainer's class balancing are
      rounded with it; [JS.div], [JS.mul], [JS.add] and [JS.sub] themselves
      are exact.
    - A string is a [string] whose characters are code units below 256.
    - [Math.random()], [Date.now()] and [Math.sin] are inputs of the
      operations that call them.
    - Callbacks to the page and [alert] are recorded in the engine's
      [emitted] list; timers and promise continuations are recorded in its
      [tasks] list and run by [runTask]. *)

From Stdlib Require Import ZArith QArith Qround Qminmax Qabs Qpower Lqa String Ascii List Lia Bool Sorted.
From stdpp Require Import gmap strings list.

(** ** JavaScript numbers and strings *)

Module JS.

Inductive num : Type :=
| Fin (q : Q)
| NaN
| PInf
| NInf.

Definition Qltb (a b : Q) : bool := negb (Qle_bool b a).

Definition ofZ (z : Z) : num := Fin (inject_Z z).

(** [a / b] *)
Definition div (a b : num) : num :=
  match a, b with
  | NaN, _ | _, NaN => NaN
  | Fin x, Fin y =>
      if Qeq_bool y 0
      then (if Qeq_bool x 0 then NaN else if Qltb 0 x then PInf else NInf)
      else Fin (x / y)
  | Fin _, (PInf | NInf) => Fin 0
  | PInf, Fin y => if Qltb y 0 then NInf else PInf
  | NInf, Fin y => if Qltb y 0 then PInf else NInf
  | (PInf | NInf), (PInf | NInf) => NaN
  end.

(** [a + b] *)
Definition add (a b : num) : num :=
  match a, b with
  | NaN, _ | _, NaN => NaN
  | Fin x, Fin y => Fin (x + y)
  | PInf, NInf | NInf, PInf => NaN
  | PInf, _ | _, PInf => PInf
  | NInf, _ | _, NInf => NInf
  end.

(** [a - b] *)
Definition sub (a b : num) : num :=
  match a, b with
  | NaN, _ | _, NaN => NaN
  | Fin x, Fin y => Fin (x - y)
  | PInf, PInf | NInf, NInf => NaN
  | PInf, _ | _, NInf => PInf
  | NInf, _ | _, PInf => NInf
  end.

(** [a * b] *)
Definition mul (a b : num) : num :=
  match a, b with
  | NaN, _ | _, NaN => NaN
  | Fin x, Fin y => Fin (x * y)
  | Fin x, PInf | PInf, Fin x =>
      if Qeq_bool x 0 then NaN else if Qltb 0 x then PInf else NInf
  | Fin x, NInf | NInf, Fin x =>
      if Qeq_bool x 0 then NaN else if Qltb 0 x then NInf else PInf
  | PInf, PInf | NInf, NInf => PInf
  | PInf, NInf | NInf, PInf => NaN
  end.

(** [a < b] *)
Definition ltb (a b : num) : bool :=
  match a, b with
  | NaN, _ | _, NaN => false
  | Fin x, Fin y => Qltb x y
  | NInf, (Fin _ | PInf) => true
  | Fin _, PInf => true
  | _, _ => false
  end.

(** [a > b] *)
Definition gtb (a b : num) : bool := ltb b a.

(** [a === b] on numbers *)
Definition eqb (a b : num) : bool :=
  match a, b with
  | Fin x, Fin y => Qeq_bool x y
  | PInf, PInf | NInf, NInf => true
  | _, _ => false
  end.

(** Truthiness of a number: [0] and [NaN] are falsy. *)
Definition truthy (a : num) : bool :=
  match a with
  | Fin x => negb (Qeq_bool x 0)
  | NaN => false
  | PInf | NInf => true
  end.

(** [a || b] on numbers *)
Definition or (a b : num) : num := if truthy a then a else b.

(** [Math.min(a, b)] and [Math.max(a, b)] *)
Definition min (a b : num) : num :=
  match a, b with
  | NaN, _ | _, NaN => NaN
  | _, _ => if ltb b a then b else a
  end.

Definition max (a b : num) : num :=
  match a, b with
  | NaN, _ | _, NaN => NaN
  | _, _ => if ltb a b then b else a
  end.

(** [Math.floor(a)] *)
Definition floor (a : num) : num :=
  match a with
  | Fin x => ofZ (Qfloor x)
  | other => other
  end.

(** *** Binary64 *)

(** [2^e] and [10^e] *)
Definition pow2 (e : Z) : Q := (2 ^ e)%Q.
Definition pow10 (e : Z) : Q := (10 ^ e)%Q.

(** The binary exponent of [0 < a]: [2^(ilog2 a) <= a < 2^(ilog2 a + 1)]. *)
Definition ilog2 (a : Q) : Z :=
  let e := (Z.log2 (Qnum a) - Z.log2 (Z.pos (Qden a)))%Z in
  if Qle_bool (pow2 e) a then e else (e - 1)%Z.

(** The integer nearest to [x], the even one on a tie. *)
Definition nearestEven (x : Q) : Z :=
  let f := Qfloor x in
  let r := (x - inject_Z f)%Q in
  if Qltb r (1 # 2) then f
  else if Qltb (1 # 2) r then (f + 1)%Z
  else if Z.even f then f else (f + 1)%Z.

(** The Number value for [q]: the binary64 number nearest to [q], the one
    with the even significand on a tie.  A binary64 number is a multiple
    of [2^e] with a significand of at most 53 bits, [e] being at least
    -1074; what rounds to [2^1024] or more is an infinity. *)
Definition round64 (q : Q) : num :=
  if Qeq_bool q 0 then Fin 0
  else
    let a := Qabs q in
    let e := Z.max (ilog2 a - 52) (-1074) in
    let r := (inject_Z (nearestEven (a / pow2 e)) * pow2 e)%Q in
    if Qle_bool (pow2 1024) r then (if Qltb q 0 then NInf else PInf)
    else Fin (Qred (if Qltb q 0 then - r else r)).

(** The result of an arithmetic operation, rounded as the machine rounds
    it. *)
Definition fl (x : num) : num :=
  match x with
  | Fin q => round64 q
  | other => other
  end.

(** The same number: equal rationals, or the same special value. *)
Definition same (a b : num) : Prop :=
  match a, b with
  | Fin x, Fin y => Qeq x y
  | NaN, NaN | PInf, PInf | NInf, NInf => True
  | _, _ => False
  end.

(** *** Characters *)

Definition chars (s : string) : list ascii := list_ascii_of_string s.
Definition str (cs : list ascii) : string := string_of_list_ascii cs.

Definition code (c : ascii) : Z := Z.of_nat (nat_of_ascii c).

(** White space and line terminators among the code units below 256. *)
Definition isWhite (c : ascii) : bool :=
  let n := code c in
  ((9 <=? n) && (n <=? 13) || (n =? 32) || (n =? 160))%Z.

Definition isDigit (c : ascii) : bool :=
  let n := code c in ((48 <=? n) && (n <=? 57))%Z.

(** Value of a digit in radix 10 or 16, if it is one. *)
Definition digitValue (radix : Z) (c : ascii) : option Z :=
  let n := code c in
  if ((48 <=? n) && (n <=? 57))%Z then Some (n - 48)%Z
  else if (radix =? 16)%Z && ((97 <=? n) && (n <=? 102))%Z then Some (n - 87)%Z
  else if (radix =? 16)%Z && ((65 <=? n) && (n <=? 70))%Z then Some (n - 55)%Z
  else None.

Definition digitChar (d : Z) : ascii := ascii_of_nat (Z.to_nat (48 + d)).

Fixpoint dropWhile {A} (p : A -> bool) (l : list A) : list A :=
  match l with
  | [] => []
  | a :: t => if p a then dropWhile p t else l
  end.

Fixpoint span {A} (p : A -> bool) (l : list A) : list A * list A :=
  match l with
  | [] => ([], [])
  | a :: t => if p a then let '(y, n) := span p t in (a :: y, n) else ([], l)
  end.

Fixpoint isPrefix (p l : list ascii) : bool :=
  match p, l with
  | [], _ => true
  | a :: p', b :: l' => Ascii.eqb a b && isPrefix p' l'
  | _ :: _, [] => false
  end.

(** *** [String.prototype.split], [Array.prototype.join], [trim] *)

(** [s.split(sep)] for a one-character separator; the result is never
    empty. *)
Fixpoint splitChars (sep : ascii) (cs : list ascii) : list (list ascii) :=
  match cs with
  | [] => [[]]
  | c :: t =>
      if Ascii.eqb c sep then [] :: splitChars sep t
      else match splitChars sep t with
           | [] => [[c]]
           | h :: r => (c :: h) :: r
           end
  end.

Definition split (sep : ascii) (s : string) : list string :=
  map str (splitChars sep (chars s)).

Fixpoint join (sep : string) (l : list string) : string :=
  match l with
  | [] => EmptyString
  | [s] => s
  | s :: t => String.append s (String.append sep (join sep t))
  end.

Definition trim (s : string) : string :=
  str (rev (dropWhile isWhite (rev (dropWhile isWhite (chars s))))).

(** *** Decimal digits *)

(** Value of a digit sequence in a radix, most significant first. *)
Definition digitsValue (radix : Z) (ds : list ascii) : Z :=
  fold_left (fun acc c => (acc * radix + default 0 (digitValue radix c))%Z) ds 0%Z.

Fixpoint digitsFrom (fuel : nat) (n : Z) (acc : list ascii) : list ascii :=
  match fuel with
  | O => acc
  | S f =>
      let acc' := digitChar (n mod 10) :: acc in
      if (n / 10 =? 0)%Z then acc' else digitsFrom f (n / 10) acc'
  end.

(** The decimal digits of a natural number, ["0"] for zero. *)
Definition decimal (n : Z) : list ascii :=
  digitsFrom (S (Z.to_nat (Z.log2 n))) n [].

(** *** [parseInt(s)] without a radix

    The result is the Number value of the integer the digits denote.
    (Beyond 20 significant digits an implementation may read the further
    digits as zeros; the correctly rounded value is taken here.) *)

Definition takeSign (cs : list ascii) : bool * list ascii :=
  match cs with
  | c :: r =>
      if Ascii.eqb c "-" then (true, r)
      else if Ascii.eqb c "+" then (false, r)
      else (false, cs)
  | [] => (false, [])
  end.

Definition isRadixDigit (radix : Z) (c : ascii) : bool :=
  match digitValue radix c with Some _ => true | None => false end.

Definition parseInt (s : string) : num :=
  let '(neg, cs) := takeSign (dropWhile isWhite (chars s)) in
  let '(radix, cs) :=
    match cs with
    | z :: x :: r =>
        if Ascii.eqb z "0" && (Ascii.eqb x "x" || Ascii.eqb x "X")
        then (16%Z, r) else (10%Z, cs)
    | _ => (10%Z, cs)
    end in
  let '(ds, _) := span (isRadixDigit radix) cs in
  match ds with
  | [] => NaN
  | _ => let v := digitsValue radix ds in round64 (inject_Z (if neg then - v else v))
  end.

(** *** [parseFloat(s)]

    The result is the Number value of the decimal literal at the start of
    the text. *)

(** [m * 10^e] *)
Definition scale10 (m e : Z) : Q :=
  if (0 <=? e)%Z then inject_Z (m * 10 ^ e)
  else Qmake m (Z.to_pos (10 ^ (- e))).

Definition exponentPart (cs : list ascii) : Z :=
  match cs with
  | c :: r =>
      if Ascii.eqb c "e" || Ascii.eqb c "E" then
        let '(neg, r') := takeSign r in
        let '(ds, _) := span isDigit r' in
        match ds with
        | [] => 0%Z
        | _ => let v := digitsValue 10 ds in if neg then (- v)%Z else v
        end
      else 0%Z
  | [] => 0%Z
  end.

Definition parseFloat (s : string) : num :=
  let '(neg, cs) := takeSign (dropWhile isWhite (chars s)) in
  if isPrefix (chars "Infinity") cs then (if neg then NInf else PInf)
  else
    let '(ip, r1) := span isDigit cs in
    let '(fp, r2) :=
      match r1 with
      | c :: r => if Ascii.eqb c "." then span isDigit r else ([], r1)
      | [] => ([], r1)
      end in
    match ip ++ fp with
    | [] => NaN
    | ds =>
        let m := digitsValue 10 ds in
        let e := (exponentPart r2 - Z.of_nat (length fp))%Z in
        round64 (scale10 (if neg then - m else m) e)
    end.

(** *** [Number.prototype.toFixed(2)] and [String(n)] *)

(** The integer [n] for which [n / 100 - x] is closest to zero, the larger
    one on a tie, for [0 <= x]. *)
Definition nearestHundredth (x : Q) : Z := Qfloor (x * 100 + (1 # 2)).

Fixpoint padLeft (k : nat) (cs : list ascii) : list ascii :=
  match k with
  | O => cs
  | S k' => if (length cs <? k)%nat then "0"%char :: padLeft k' cs else cs
  end.

Definition fixed2 (x : Q) : list ascii :=
  let m := padLeft 3 (decimal (nearestHundredth x)) in
  let k := length m in
  take (k - 2) m ++ "."%char :: drop (k - 2) m.

Definition tenTo21 : Q := inject_Z (10 ^ 21).
Definition twoTo53 : Q := inject_Z (2 ^ 53).

Definition isInteger (q : Q) : bool := Qeq_bool q (inject_Z (Qfloor q)).

(** *** [String(n)]

    [Number::toString] takes the integers [n], [k] and [s] with
    [10^(k-1) <= s < 10^k] for which [s * 10^(n-k)] has the Number value
    [a], [k] as small as possible and then [s * 10^(n-k)] as close to [a]
    as possible (the even [s] on a tie). *)

(** The decimal exponent of [0 < a]: the [n] with [10^(n-1) <= a < 10^n],
    found next to [log10 2] times the binary exponent. *)
Definition magnitude10 (a : Q) : Z :=
  let est := (ilog2 a * 30103 / 100000)%Z in
  if Qle_bool (pow10 (est + 1)) a then (est + 2)%Z
  else if Qle_bool (pow10 est) a then (est + 1)%Z
  else est.

(** [(n, s)] when [s] has [k] digits and [s * 10^(n-k)] reads as [a]. *)
Definition candidate (a : Q) (k n s : Z) : option (Z * Z) :=
  if (10 ^ (k - 1) <=? s)%Z && (s <? 10 ^ k)%Z
     && eqb (round64 (inject_Z s * pow10 (n - k))) (Fin a)
  then Some (n, s) else None.

Definition closer (a : Q) (k : Z) (c1 c2 : Z * Z) : Z * Z :=
  let d (c : Z * Z) := Qabs (inject_Z (snd c) * pow10 (fst c - k) - a) in
  if Qltb (d c2) (d c1) then c2
  else if Qltb (d c1) (d c2) then c1
  else if Z.even (snd c1) then c1 else c2.

(** The best [(n, s)] with [k] digits, if there is one: the integers next
    to [a / 10^(n-k)] are the only ones that can be closest. *)
Definition shortestWith (a : Q) (k : Z) : option (Z * Z) :=
  let n0 := magnitude10 a in
  let around (n : Z) :=
    let s := Qfloor (a / pow10 (n - k)) in [(n, s); (n, (s + 1)%Z)] in
  fold_left (fun best c =>
               match candidate a k (fst c) (snd c), best with
               | None, _ => best
               | Some c', None => Some c'
               | Some c', Some b => Some (closer a k b c')
               end)
            (around n0 ++ around (n0 + 1)%Z) None.

(** The smallest [k] from [k0] on, among [fuel] values. *)
Fixpoint shortestFrom (fuel : nat) (a : Q) (k0 : Z) : option (Z * Z * Z) :=
  match fuel with
  | O => None
  | S fuel' =>
      match shortestWith a k0 with
      | Some (n, s) => Some (n, k0, s)
      | None => shortestFrom fuel' a (k0 + 1)%Z
      end
  end.

(** Seventeen digits tell every binary64 number from its neighbours; there
    is no result for a rational that is no binary64 number. *)
Definition shortest (a : Q) : option (Z * Z * Z) := shortestFrom 17 a 1.

(** The text for [n], [k], [s] (steps 6 to 11 of [Number::toString]). *)
Definition formatDigits (n k s : Z) : list ascii :=
  let ds := decimal s in
  if (k <=? n)%Z && (n <=? 21)%Z then ds ++ repeat "0"%char (Z.to_nat (n - k))
  else if (0 <? n)%Z && (n <=? 21)%Z
  then take (Z.to_nat n) ds ++ "."%char :: drop (Z.to_nat n) ds
  else if (-6 <? n)%Z && (n <=? 0)%Z
  then "0"%char :: "."%char :: repeat "0"%char (Z.to_nat (- n)) ++ ds
  else
    let e := (n - 1)%Z in
    let exponent :=
      "e"%char :: (if (e <? 0)%Z then "-"%char else "+"%char) :: decimal (Z.abs e) in
    if (k =? 1)%Z then ds ++ exponent
    else take 1 ds ++ "."%char :: drop 1 ds ++ exponent.

(** [String(x)].  An integer below [2^53] in magnitude is a binary64
    number and its text is its decimal numeral; the other numbers go
    through [shortest]. *)
Definition toString (x : num) : option string :=
  match x with
  | NaN => Some "NaN"%string
  | PInf => Some "Infinity"%string
  | NInf => Some "-Infinity"%string
  | Fin q =>
      let neg := Qltb q 0 in
      let a := if neg then Qopp q else q in
      let sign := if neg then ["-"%char] else [] in
      if isInteger q && Qltb a twoTo53
      then Some (str (sign ++ decimal (Qfloor a)))
      else match shortest a with
           | Some (n, k, s) => Some (str (sign ++ formatDigits n k s))
           | None => None
           end
  end.

(** [x.toFixed(2)]; from 1e21 on it is [String(x)]. *)
Definition toFixed2 (x : num) : option string :=
  match x with
  | NaN => Some "NaN"%string
  | PInf => Some "Infinity"%string
  | NInf => Some "-Infinity"%string
  | Fin q =>
      let neg := Qltb q 0 in
      let a := if neg then Qopp q else q in
      if Qltb a tenTo21
      then Some (str ((if neg then ["-"%char] else []) ++ fixed2 a))
      else toString x
  end.

End JS.

Notation "e ▹ f" := (f e) (at level 45, left associativity, only parsing).

(** ** Data model ([game-engine.ts], lines 3-72) *)

Module Bird.

(** [pos.x], [pos.y] and [vel.y] are flattened into the record; the colour
    is only read by [draw] and is left out. *)
Record t : Type := { pos_x : Q; pos_y : Q; vel_y : Q; radius : Q }.

Definition new : t := {| pos_x := 50; pos_y := 300; vel_y := 0; radius := 20 |}.

Definition reset (b : t) : t :=
  {| pos_x := 50; pos_y := 300; vel_y := 0; radius := radius b |}.

Definition set_pos_y (v : Q) (b : t) : t :=
  {| pos_x := pos_x b; pos_y := v; vel_y := vel_y b; radius := radius b |}.

Definition set_vel_y (v : Q) (b : t) : t :=
  {| pos_x := pos_x b; pos_y := pos_y b; vel_y := v; radius := radius b |}.

End Bird.

Module Pipe.

Record t : Type := { x : Q; width : Q; gapSize : Q; gapCenter : Q; passed : bool }.

(** [new Pipe(canvasHeight, x, fixedGapCenter?)]; [random] is the value
    [Math.random()] returns when it is called. *)
Definition new (canvasHeight x0 : Q) (fixedGapCenter : option Q) (random : Q) : t :=
  {| x := x0;
     width := 40;
     gapSize := 200;
     gapCenter := match fixedGapCenter with
                  | Some c => c
                  | None => random * (canvasHeight - 300) + 150
                  end;
     passed := false |}.

Definition top (p : t) : Q := gapCenter p - gapSize p / 2.
Definition bottom (p : t) : Q := gapCenter p + gapSize p / 2.

Definition set_x (v : Q) (p : t) : t :=
  {| x := v; width := width p; gapSize := gapSize p; gapCenter := gapCenter p;
     passed := passed p |}.

Definition set_passed (v : bool) (p : t) : t :=
  {| x := x p; width := width p; gapSize := gapSize p; gapCenter := gapCenter p;
     passed := v |}.

End Pipe.

Module GameData.

Record t : Type := {
  pressed : JS.num;
  y : JS.num;
  vel : JS.num;
  dist : JS.num;
  mid1 : JS.num;
  mid2 : JS.num
}.

Definition set_pressed (v : JS.num) (d : t) : t :=
  {| pressed := v; y := y d; vel := vel d; dist := dist d; mid1 := mid1 d; mid2 := mid2 d |}.

(** One data line of the CSV text, as both [uploadCSV] and the trainer's
    supplementary loader read it: blank lines and lines that do not split
    into six fields are skipped. *)
Definition ofLine (line : string) : option t :=
  if String.eqb (JS.trim line) "" then None
  else match JS.split "," line with
       | [v0; v1; v2; v3; v4; v5] =>
           Some {| pressed := JS.parseInt v0;
                   y := JS.parseFloat v1;
                   vel := JS.parseFloat v2;
                   dist := JS.parseFloat v3;
                   mid1 := JS.parseFloat v4;
                   mid2 := JS.parseFloat v5 |}
       | _ => None
       end.

(** The body of the loop [for (let i = 1; i < n; i++)] over data lines. *)
Definition ofLines (lines : list string) : list t := omap ofLine lines.

End GameData.

Record FeatureStats : Type := { means : list JS.num; stds : list JS.num }.

Inductive GameState : Type := Menu | Playing | Dead.

Inductive Level : Type := Finetuning | Underfitting | Overfitting.

Definition levelName (l : Level) : string :=
  match l with
  | Finetuning => "finetuning"
  | Underfitting => "underfitting"
  | Overfitting => "overfitting"
  end.

#[global] Instance GameState_eq_dec : EqDecision GameState.
Proof. solve_decision. Defined.

#[global] Instance Level_eq_dec : EqDecision Level.
Proof. solve_decision. Defined.

(** The trained classifier, an opaque function from a feature vector to the
    scalar [model.predict(xs).dataSync()[0]]. *)
Definition Model : Type := list JS.num -> JS.num.

(** ** The trainer's data preparation ([ml-trainer.ts], lines 46-148) *)

Module MLTrainer.

Inductive Error : Type :=
| NeedAtLeast50
| NoJumpActions.

Definition errorMessage (err : Error) : string :=
  match err with
  | NeedAtLeast50 => "Need at least 50 data points to train effectively!"
  | NoJumpActions => "No jump actions recorded! Please record some gameplay with jumps."
  end.

(** [d => [d.y / canvasHeight, d.vel / 10, d.dist / canvasWidth,
    d.mid1 / canvasHeight, d.mid2 / canvasHeight]] *)
Definition features (canvasHeight canvasWidth : Q) (d : GameData.t) : list JS.num :=
  [ JS.div (GameData.y d) (JS.Fin canvasHeight);
    JS.div (GameData.vel d) (JS.Fin 10);
    JS.div (GameData.dist d) (JS.Fin canvasWidth);
    JS.div (GameData.mid1 d) (JS.Fin canvasHeight);
    JS.div (GameData.mid2 d) (JS.Fin canvasHeight) ].

(** Lines 62-95: the supplementary rows of the finetuning level.  [fetched]
    is the text of [/existing_game_play.csv], or [None] when the fetch
    throws. *)
Definition finalDataset (dataset : list GameData.t) (currentLevel : string)
    (fetched : option string) : list GameData.t :=
  if String.eqb currentLevel "finetuning" then
    match fetched with
    | Some csvText =>
        let lines := JS.split "010" csvText in
        dataset ++ GameData.ofLines (take (Nat.min 501 (length lines) - 1) (drop 1 lines))
    | None => dataset
    end
  else dataset.

(** An array index from a number, when it is one. *)
Definition index (i : JS.num) : option nat :=
  match i with
  | JS.Fin q => if JS.isInteger q && Qle_bool 0 q then Some (Z.to_nat (Qfloor q)) else None
  | _ => None
  end.

(** Lines 123-128: [for (let i = 0; i < class0.length; i += step)], taking
    [class0[i]] while fewer than [sampleSize] rows were taken.  The loop is
    run on [fuel] iterations; [None] when they do not suffice. *)
Fixpoint sampleLoop (fuel : nat) (class0 : list GameData.t) (sampleSize : JS.num)
    (step : JS.num) (i : JS.num) (sampledClass0 : list GameData.t)
    : option (list GameData.t) :=
  if JS.ltb i (JS.ofZ (Z.of_nat (length class0))) then
    match fuel with
    | O => None
    | S fuel' =>
        let sampled :=
          if JS.ltb (JS.ofZ (Z.of_nat (length sampledClass0))) sampleSize
          then match index i ≫= (class0 !!.) with
               | Some d => sampledClass0 ++ [d]
               | None => sampledClass0
               end
          else sampledClass0 in
        sampleLoop fuel' class0 sampleSize step (JS.fl (JS.add i step)) sampled
    end
  else Some sampledClass0.

Record Balanced : Type := {
  sampledClass0 : list GameData.t;
  class1 : list GameData.t;
  balancedFeatures : list (list JS.num);
  balancedLabels : list (list JS.num)
}.

(** Lines 111-148: class balancing.  The result is what the shuffle
    receives.  The quotient, the product and the sum of the loop are
    binary64 operations: each is rounded. *)
Definition balance (fuel : nat) (finalDataset : list GameData.t)
    (canvasHeight canvasWidth : Q) : option (Error + Balanced) :=
  let class0 := filter (fun d => JS.eqb (GameData.pressed d) (JS.Fin 0) = true) finalDataset in
  let class1 := filter (fun d => JS.eqb (GameData.pressed d) (JS.Fin 1) = true) finalDataset in
  let n0 := JS.ofZ (Z.of_nat (length class0)) in
  let n1 := JS.ofZ (Z.of_nat (length class1)) in
  if (0 <? length class1)%nat then
    let ratio := JS.min (JS.Fin 2) (JS.fl (JS.div n0 n1)) in
    let sampleSize := JS.floor (JS.fl (JS.mul n1 ratio)) in
    let step := JS.floor (JS.fl (JS.div n0 sampleSize)) in
    match sampleLoop fuel class0 sampleSize step (JS.Fin 0) [] with
    | Some sampled =>
        Some (inr {| sampledClass0 := sampled;
                     class1 := class1;
                     balancedFeatures :=
                       map (features canvasHeight canvasWidth) sampled ++
                       map (features canvasHeight canvasWidth) class1;
                     balancedLabels :=
                       map (fun _ => [JS.Fin 0]) sampled ++ map (fun _ => [JS.Fin 1]) class1 |})
    | None => None
    end
  else Some (inl NoJumpActions).

(** Lines 54-148 of [trainModel]: the size check, the supplementary rows and
    the balancing.  The shuffle, the split and the fit that follow are not
    modelled. *)
Definition prepare (fuel : nat) (dataset : list GameData.t) (canvasHeight canvasWidth : Q)
    (currentLevel : string) (fetched : option string) : option (Error + Balanced) :=
  if (length dataset <? 50)%nat then Some (inl NeedAtLeast50)
  else balance fuel (finalDataset dataset currentLevel fetched) canvasHeight canvasWidth.

(** What [trainModel] resolves to (line 276): the fitted model and no
    feature statistics. *)
Record Result : Type := { model : Model; featureStats : option FeatureStats }.

Definition result (m : Model) : Result := {| model := m; featureStats := None |}.

(** Lines 4-21, [preprocessFeatures(rawFeatures, featureStats)]: the
    trainer's copy of the engine's method, the statistics being an
    argument. *)
Definition preprocessFeatures (rawFeatures : list JS.num) (featureStats : option FeatureStats)
    : list JS.num :=
  let normalizedFeatures := map (fun i => default JS.NaN (rawFeatures !! i)) (seq 0 5) in
  match featureStats with
  | None => normalizedFeatures
  | Some stats =>
      imap (fun i val =>
              let standardized :=
                JS.div (JS.sub val (default JS.NaN (means stats !! i)))
                       (JS.or (default JS.NaN (stds stats !! i)) (JS.Fin 1)) in
              JS.max (JS.Fin (-3)) (JS.min (JS.Fin 3) standardized))
           normalizedFeatures
  end.

(** Lines 23-44, [computeStats(features)].  [sqrt] is [Math.sqrt]; an
    entry missing from a row reads as [undefined], [NaN] in arithmetic. *)
Definition computeStats (sqrt : JS.num -> JS.num) (features : list (list JS.num))
    : FeatureStats :=
  let n := JS.ofZ (Z.of_nat (length features)) in
  let means :=
    fold_left (fun means row =>
                 imap (fun j m => JS.add m (JS.div (default JS.NaN (row !! j)) n)) means)
              features (replicate 5 (JS.Fin 0)) in
  let stds :=
    fold_left (fun stds row =>
                 imap (fun j s =>
                         let d := JS.sub (default JS.NaN (row !! j))
                                         (default JS.NaN (means !! j)) in
                         JS.add s (JS.div (JS.mul d d) n))
                      stds)
              features (replicate 5 (JS.Fin 0)) in
  {| means := means; stds := map (fun s => JS.or (sqrt s) (JS.Fin 1)) stds |}.

(** Lines 150-154: the shuffle.  [indices] is the array the sort with the
    random comparator leaves; [indices.map((i) => rows[i])] has a hole
    where an index is out of range, which is [None] here. *)
Definition shuffle {A} (indices : list nat) (rows : list A) : option (list A) :=
  mapM (fun i => rows !! i) indices.

(** Lines 159-163: the train-test split of the features or of the
    labels. *)
Definition trainSize (balancedLength : nat) : nat :=
  Z.to_nat (Qfloor (0.8 * inject_Z (Z.of_nat balancedLength))).

Definition trainTestSplit {A} (trainSize : nat) (rows : list A) : list A * list A :=
  (take trainSize rows, drop trainSize rows).

(** Lines 224-244: the confusion counts of the test predictions and the
    four metrics. *)
Record Confusion : Type := { tp : Z; fp : Z; fn : Z; tn : Z }.

Definition countOne (predsTest truesTest : list JS.num) (c : Confusion) (i : nat)
    : Confusion :=
  let pred := if JS.gtb (default JS.NaN (predsTest !! i)) (JS.Fin 0.5) then 1%Z else 0%Z in
  let true_val := default JS.NaN (truesTest !! i) in
  if (pred =? 1)%Z && JS.eqb true_val (JS.Fin 1)
  then {| tp := tp c + 1; fp := fp c; fn := fn c; tn := tn c |}
  else if (pred =? 1)%Z && JS.eqb true_val (JS.Fin 0)
  then {| tp := tp c; fp := fp c + 1; fn := fn c; tn := tn c |}
  else if (pred =? 0)%Z && JS.eqb true_val (JS.Fin 1)
  then {| tp := tp c; fp := fp c; fn := fn c + 1; tn := tn c |}
  else {| tp := tp c; fp := fp c; fn := fn c; tn := tn c + 1 |}.

Definition confusion (predsTest truesTest : list JS.num) : Confusion :=
  fold_left (countOne predsTest truesTest) (seq 0 (length predsTest))
            {| tp := 0; fp := 0; fn := 0; tn := 0 |}.

Record Metrics : Type := {
  precision : JS.num;
  recall : JS.num;
  f1 : JS.num;
  accuracy : JS.num
}.

Definition metrics (c : Confusion) : Metrics :=
  let precision := JS.or (JS.div (JS.ofZ (tp c)) (JS.ofZ (tp c + fp c))) (JS.Fin 0) in
  let recall := JS.or (JS.div (JS.ofZ (tp c)) (JS.ofZ (tp c + fn c))) (JS.Fin 0) in
  {| precision := precision;
     recall := recall;
     f1 := JS.or (JS.div (JS.mul (JS.mul (JS.Fin 2) precision) recall)
                         (JS.add precision recall))
                 (JS.Fin 0);
     accuracy := JS.div (JS.ofZ (tp c + tn c)) (JS.ofZ (tp c + tn c + fp c + fn c)) |}.

End MLTrainer.

(** ** The engine ([game-engine.ts], lines 74-710) *)

Module GameEngine.

Record Canvas : Type := { width : Q; height : Q }.

Record PausedState : Type := {
  paused_gameState : GameState;
  paused_gameStarted : bool;
  paused_hoverOffset : Q
}.

(** What the engine tells the page: the optional callbacks and [alert]. *)
Inductive Notification : Type :=
| ScoreUpdate (score : Z)
| DataCountUpdate (count : nat)
| GameStateChange (state : GameState)
| TrainingStatusUpdate (status : string)
| ProgressUpdate (percent : Q) (text : string)
| HighScoreUpdate (highScore : Z)
| Alert (message : string).

(** Work the engine has handed to the event loop: the restart timer of
    [endGame] and the continuation of the dynamic import in
    [makeAIPrediction], which holds the features computed at the tick. *)
Inductive Task : Type :=
| RestartTimer (delay : Z)
| PredictionThen (features : list JS.num).

Record t : Type := {
  canvas : Canvas;
  bird : Bird.t;
  pipes : list Pipe.t;
  score : Z;
  highScore : Z;
  state : GameState;
  keys : gmap string bool;
  gravity : Q;
  jumpStrength : Q;
  pipeSpeed : Q;
  pipeInterval : Q;
  nextPipeDist : Q;
  prevSpace : bool;
  isRecording : bool;
  isAI : bool;
  dataset : list GameData.t;
  model : option Model;
  featureStats : option FeatureStats;
  aiPredictionCount : Z;
  jumpScheduled : bool;
  dataBuffer : option GameData.t;
  framesSinceLastJump : Z;
  gameOverTime : Z;
  gameOverDelay : Z;
  gameStarted : bool;
  hoverOffset : Q;
  currentLevel : Level;
  fixedGapCenter : Q;
  isPaused : bool;
  pausedState : option PausedState;
  tasks : list Task;
  emitted : list Notification
}.

(** Field assignment, [this.f = v]. *)
Definition set_bird (v : Bird.t) (e : t) : t :=
  {| canvas := canvas e; bird := v; pipes := pipes e; score := score e; highScore := highScore e;
     state := state e; keys := keys e; gravity := gravity e; jumpStrength := jumpStrength e;
     pipeSpeed := pipeSpeed e; pipeInterval := pipeInterval e; nextPipeDist := nextPipeDist e;
     prevSpace := prevSpace e; isRecording := isRecording e; isAI := isAI e;
     dataset := dataset e; model := model e; featureStats := featureStats e;
     aiPredictionCount := aiPredictionCount e; jumpScheduled := jumpScheduled e;
     dataBuffer := dataBuffer e; framesSinceLastJump := framesSinceLastJump e;
     gameOverTime := gameOverTime e; gameOverDelay := gameOverDelay e;
     gameStarted := gameStarted e; hoverOffset := hoverOffset e; currentLevel := currentLevel e;
     fixedGapCenter := fixedGapCenter e; isPaused := isPaused e; pausedState := pausedState e;
     tasks := tasks e; emitted := emitted e |}.
Definition set_pipes (v : list Pipe.t) (e : t) : t :=
  {| canvas := canvas e; bird := bird e; pipes := v; score := score e; highScore := highScore e;
     state := state e; keys := keys e; gravity := gravity e; jumpStrength := jumpStrength e;
     pipeSpeed := pipeSpeed e; pipeInterval := pipeInterval e; nextPipeDist := nextPipeDist e;
     prevSpace := prevSpace e; isRecording := isRecording e; isAI := isAI e;
     dataset := dataset e; model := model e; featureStats := featureStats e;
     aiPredictionCount := aiPredictionCount e; jumpScheduled := jumpScheduled e;
     dataBuffer := dataBuffer e; framesSinceLastJump := framesSinceLastJump e;
     gameOverTime := gameOverTime e; gameOverDelay := gameOverDelay e;
     gameStarted := gameStarted e; hoverOffset := hoverOffset e; currentLevel := currentLevel e;
     fixedGapCenter := fixedGapCenter e; isPaused := isPaused e; pausedState := pausedState e;
     tasks := tasks e; emitted := emitted e |}.
Definition set_score (v : Z) (e : t) : t :=
  {| canvas := canvas e; bird := bird e; pipes := pipes e; score := v; highScore := highScore e;
     state := state e; keys := keys e; gravity := gravity e; jumpStrength := jumpStrength e;
     pipeSpeed := pipeSpeed e; pipeInterval := pipeInterval e; nextPipeDist := nextPipeDist e;
     prevSpace := prevSpace e; isRecording := isRecording e; isAI := isAI e;
     dataset := dataset e; model := model e; featureStats := featureStats e;
     aiPredictionCount := aiPredictionCount e; jumpScheduled := jumpScheduled e;
     dataBuffer := dataBuffer e; framesSinceLastJump := framesSinceLastJump e;
     gameOverTime := gameOverTime e; gameOverDelay := gameOverDelay e;
     gameStarted := gameStarted e; hoverOffset := hoverOffset e; currentLevel := currentLevel e;
     fixedGapCenter := fixedGapCenter e; isPaused := isPaused e; pausedState := pausedState e;
     tasks := tasks e; emitted := emitted e |}.
Definition set_highScore (v : Z) (e : t) : t :=
  {| canvas := canvas e; bird := bird e; pipes := pipes e; score := score e; highScore := v;
     state := state e; keys := keys e; gravity := gravity e; jumpStrength := jumpStrength e;
     pipeSpeed := pipeSpeed e; pipeInterval := pipeInterval e; nextPipeDist := nextPipeDist e;
     prevSpace := prevSpace e; isRecording := isRecording e; isAI := isAI e;
     dataset := dataset e; model := model e; featureStats := featureStats e;
     aiPredictionCount := aiPredictionCount e; jumpScheduled := jumpScheduled e;
     dataBuffer := dataBuffer e; framesSinceLastJump := framesSinceLastJump e;
     gameOverTime := gameOverTime e; gameOverDelay := gameOverDelay e;
     gameStarted := gameStarted e; hoverOffset := hoverOffset e; currentLevel := currentLevel e;
     fixedGapCenter := fixedGapCenter e; isPaused := isPaused e; pausedState := pausedState e;
     tasks := tasks e; emitted := emitted e |}.
Definition set_state (v : GameState) (e : t) : t :=
  {| canvas := canvas e; bird := bird e; pipes := pipes e; score := score e;
     highScore := highScore e; state := v; keys := keys e; gravity := gravity e;
     jumpStrength := jumpStrength e; pipeSpeed := pipeSpeed e; pipeInterval := pipeInterval e;
     nextPipeDist := nextPipeDist e; prevSpace := prevSpace e; isRecording := isRecording e;
     isAI := isAI e; dataset := dataset e; model := model e; featureStats := featureStats e;
     aiPredictionCount := aiPredictionCount e; jumpScheduled := jumpScheduled e;
     dataBuffer := dataBuffer e; framesSinceLastJump := framesSinceLastJump e;
     gameOverTime := gameOverTime e; gameOverDelay := gameOverDelay e;
     gameStarted := gameStarted e; hoverOffset := hoverOffset e; currentLevel := currentLevel e;
     fixedGapCenter := fixedGapCenter e; isPaused := isPaused e; pausedState := pausedState e;
     tasks := tasks e; emitted := emitted e |}.
Definition set_keys (v : gmap string bool) (e : t) : t :=
  {| canvas := canvas e; bird := bird e; pipes := pipes e; score := score e;
     highScore := highScore e; state := state e; keys := v; gravity := gravity e;
     jumpStrength := jumpStrength e; pipeSpeed := pipeSpeed e; pipeInterval := pipeInterval e;
     nextPipeDist := nextPipeDist e; prevSpace := prevSpace e; isRecording := isRecording e;
     isAI := isAI e; dataset := dataset e; model := model e; featureStats := featureStats e;
     aiPredictionCount := aiPredictionCount e; jumpScheduled := jumpScheduled e;
     dataBuffer := dataBuffer e; framesSinceLastJump := framesSinceLastJump e;
     gameOverTime := gameOverTime e; gameOverDelay := gameOverDelay e;
     gameStarted := gameStarted e; hoverOffset := hoverOffset e; currentLevel := currentLevel e;
     fixedGapCenter := fixedGapCenter e; isPaused := isPaused e; pausedState := pausedState e;
     tasks := tasks e; emitted := emitted e |}.
Definition set_nextPipeDist (v : Q) (e : t) : t :=
  {| canvas := canvas e; bird := bird e; pipes := pipes e; score := score e;
     highScore := highScore e; state := state e; keys := keys e; gravity := gravity e;
     jumpStrength := jumpStrength e; pipeSpeed := pipeSpeed e; pipeInterval := pipeInterval e;
     nextPipeDist := v; prevSpace := prevSpace e; isRecording := isRecording e; isAI := isAI e;
     dataset := dataset e; model := model e; featureStats := featureStats e;
     aiPredictionCount := aiPredictionCount e; jumpScheduled := jumpScheduled e;
     dataBuffer := dataBuffer e; framesSinceLastJump := framesSinceLastJump e;
     gameOverTime := gameOverTime e; gameOverDelay := gameOverDelay e;
     gameStarted := gameStarted e; hoverOffset := hoverOffset e; currentLevel := currentLevel e;
     fixedGapCenter := fixedGapCenter e; isPaused := isPaused e; pausedState := pausedState e;
     tasks := tasks e; emitted := emitted e |}.
Definition set_prevSpace (v : bool) (e : t) : t :=
  {| canvas := canvas e; bird := bird e; pipes := pipes e; score := score e;
     highScore := highScore e; state := state e; keys := keys e; gravity := gravity e;
     jumpStrength := jumpStrength e; pipeSpeed := pipeSpeed e; pipeInterval := pipeInterval e;
     nextPipeDist := nextPipeDist e; prevSpace := v; isRecording := isRecording e;
     isAI := isAI e; dataset := dataset e; model := model e; featureStats := featureStats e;
     aiPredictionCount := aiPredictionCount e; jumpScheduled := jumpScheduled e;
     dataBuffer := dataBuffer e; framesSinceLastJump := framesSinceLastJump e;
     gameOverTime := gameOverTime e; gameOverDelay := gameOverDelay e;
     gameStarted := gameStarted e; hoverOffset := hoverOffset e; currentLevel := currentLevel e;
     fixedGapCenter := fixedGapCenter e; isPaused := isPaused e; pausedState := pausedState e;
     tasks := tasks e; emitted := emitted e |}.
Definition set_isRecording (v : bool) (e : t) : t :=
  {| canvas := canvas e; bird := bird e; pipes := pipes e; score := score e;
     highScore := highScore e; state := state e; keys := keys e; gravity := gravity e;
     jumpStrength := jumpStrength e; pipeSpeed := pipeSpeed e; pipeInterval := pipeInterval e;
     nextPipeDist := nextPipeDist e; prevSpace := prevSpace e; isRecording := v; isAI := isAI e;
     dataset := dataset e; model := model e; featureStats := featureStats e;
     aiPredictionCount := aiPredictionCount e; jumpScheduled := jumpScheduled e;
     dataBuffer := dataBuffer e; framesSinceLastJump := framesSinceLastJump e;
     gameOverTime := gameOverTime e; gameOverDelay := gameOverDelay e;
     gameStarted := gameStarted e; hoverOffset := hoverOffset e; currentLevel := currentLevel e;
     fixedGapCenter := fixedGapCenter e; isPaused := isPaused e; pausedState := pausedState e;
     tasks := tasks e; emitted := emitted e |}.
Definition set_isAI (v : bool) (e : t) : t :=
  {| canvas := canvas e; bird := bird e; pipes := pipes e; score := score e;
     highScore := highScore e; state := state e; keys := keys e; gravity := gravity e;
     jumpStrength := jumpStrength e; pipeSpeed := pipeSpeed e; pipeInterval := pipeInterval e;
     nextPipeDist := nextPipeDist e; prevSpace := prevSpace e; isRecording := isRecording e;
     isAI := v; dataset := dataset e; model := model e; featureStats := featureStats e;
     aiPredictionCount := aiPredictionCount e; jumpScheduled := jumpScheduled e;
     dataBuffer := dataBuffer e; framesSinceLastJump := framesSinceLastJump e;
     gameOverTime := gameOverTime e; gameOverDelay := gameOverDelay e;
     gameStarted := gameStarted e; hoverOffset := hoverOffset e; currentLevel := currentLevel e;
     fixedGapCenter := fixedGapCenter e; isPaused := isPaused e; pausedState := pausedState e;
     tasks := tasks e; emitted := emitted e |}.
Definition set_dataset (v : list GameData.t) (e : t) : t :=
  {| canvas := canvas e; bird := bird e; pipes := pipes e; score := score e;
     highScore := highScore e; state := state e; keys := keys e; gravity := gravity e;
     jumpStrength := jumpStrength e; pipeSpeed := pipeSpeed e; pipeInterval := pipeInterval e;
     nextPipeDist := nextPipeDist e; prevSpace := prevSpace e; isRecording := isRecording e;
     isAI := isAI e; dataset := v; model := model e; featureStats := featureStats e;
     aiPredictionCount := aiPredictionCount e; jumpScheduled := jumpScheduled e;
     dataBuffer := dataBuffer e; framesSinceLastJump := framesSinceLastJump e;
     gameOverTime := gameOverTime e; gameOverDelay := gameOverDelay e;
     gameStarted := gameStarted e; hoverOffset := hoverOffset e; currentLevel := currentLevel e;
     fixedGapCenter := fixedGapCenter e; isPaused := isPaused e; pausedState := pausedState e;
     tasks := tasks e; emitted := emitted e |}.
Definition set_model (v : option Model) (e : t) : t :=
  {| canvas := canvas e; bird := bird e; pipes := pipes e; score := score e;
     highScore := highScore e; state := state e; keys := keys e; gravity := gravity e;
     jumpStrength := jumpStrength e; pipeSpeed := pipeSpeed e; pipeInterval := pipeInterval e;
     nextPipeDist := nextPipeDist e; prevSpace := prevSpace e; isRecording := isRecording e;
     isAI := isAI e; dataset := dataset e; model := v; featureStats := featureStats e;
     aiPredictionCount := aiPredictionCount e; jumpScheduled := jumpScheduled e;
     dataBuffer := dataBuffer e; framesSinceLastJump := framesSinceLastJump e;
     gameOverTime := gameOverTime e; gameOverDelay := gameOverDelay e;
     gameStarted := gameStarted e; hoverOffset := hoverOffset e; currentLevel := currentLevel e;
     fixedGapCenter := fixedGapCenter e; isPaused := isPaused e; pausedState := pausedState e;
     tasks := tasks e; emitted := emitted e |}.
Definition set_featureStats (v : option FeatureStats) (e : t) : t :=
  {| canvas := canvas e; bird := bird e; pipes := pipes e; score := score e;
     highScore := highScore e; state := state e; keys := keys e; gravity := gravity e;
     jumpStrength := jumpStrength e; pipeSpeed := pipeSpeed e; pipeInterval := pipeInterval e;
     nextPipeDist := nextPipeDist e; prevSpace := prevSpace e; isRecording := isRecording e;
     isAI := isAI e; dataset := dataset e; model := model e; featureStats := v;
     aiPredictionCount := aiPredictionCount e; jumpScheduled := jumpScheduled e;
     dataBuffer := dataBuffer e; framesSinceLastJump := framesSinceLastJump e;
     gameOverTime := gameOverTime e; gameOverDelay := gameOverDelay e;
     gameStarted := gameStarted e; hoverOffset := hoverOffset e; currentLevel := currentLevel e;
     fixedGapCenter := fixedGapCenter e; isPaused := isPaused e; pausedState := pausedState e;
     tasks := tasks e; emitted := emitted e |}.
Definition set_aiPredictionCount (v : Z) (e : t) : t :=
  {| canvas := canvas e; bird := bird e; pipes := pipes e; score := score e;
     highScore := highScore e; state := state e; keys := keys e; gravity := gravity e;
     jumpStrength := jumpStrength e; pipeSpeed := pipeSpeed e; pipeInterval := pipeInterval e;
     nextPipeDist := nextPipeDist e; prevSpace := prevSpace e; isRecording := isRecording e;
     isAI := isAI e; dataset := dataset e; model := model e; featureStats := featureStats e;
     aiPredictionCount := v; jumpScheduled := jumpScheduled e; dataBuffer := dataBuffer e;
     framesSinceLastJump := framesSinceLastJump e; gameOverTime := gameOverTime e;
     gameOverDelay := gameOverDelay e; gameStarted := gameStarted e;
     hoverOffset := hoverOffset e; currentLevel := currentLevel e;
     fixedGapCenter := fixedGapCenter e; isPaused := isPaused e; pausedState := pausedState e;
     tasks := tasks e; emitted := emitted e |}.
Definition set_jumpScheduled (v : bool) (e : t) : t :=
  {| canvas := canvas e; bird := bird e; pipes := pipes e; score := score e;
     highScore := highScore e; state := state e; keys := keys e; gravity := gravity e;
     jumpStrength := jumpStrength e; pipeSpeed := pipeSpeed e; pipeInterval := pipeInterval e;
     nextPipeDist := nextPipeDist e; prevSpace := prevSpace e; isRecording := isRecording e;
     isAI := isAI e; dataset := dataset e; model := model e; featureStats := featureStats e;
     aiPredictionCount := aiPredictionCount e; jumpScheduled := v; dataBuffer := dataBuffer e;
     framesSinceLastJump := framesSinceLastJump e; gameOverTime := gameOverTime e;
     gameOverDelay := gameOverDelay e; gameStarted := gameStarted e;
     hoverOffset := hoverOffset e; currentLevel := currentLevel e;
     fixedGapCenter := fixedGapCenter e; isPaused := isPaused e; pausedState := pausedState e;
     tasks := tasks e; emitted := emitted e |}.
Definition set_dataBuffer (v : option GameData.t) (e : t) : t :=
  {| canvas := canvas e; bird := bird e; pipes := pipes e; score := score e;
     highScore := highScore e; state := state e; keys := keys e; gravity := gravity e;
     jumpStrength := jumpStrength e; pipeSpeed := pipeSpeed e; pipeInterval := pipeInterval e;
     nextPipeDist := nextPipeDist e; prevSpace := prevSpace e; isRecording := isRecording e;
     isAI := isAI e; dataset := dataset e; model := model e; featureStats := featureStats e;
     aiPredictionCount := aiPredictionCount e; jumpScheduled := jumpScheduled e; dataBuffer := v;
     framesSinceLastJump := framesSinceLastJump e; gameOverTime := gameOverTime e;
     gameOverDelay := gameOverDelay e; gameStarted := gameStarted e;
     hoverOffset := hoverOffset e; currentLevel := currentLevel e;
     fixedGapCenter := fixedGapCenter e; isPaused := isPaused e; pausedState := pausedState e;
     tasks := tasks e; emitted := emitted e |}.
Definition set_framesSinceLastJump (v : Z) (e : t) : t :=
  {| canvas := canvas e; bird := bird e; pipes := pipes e; score := score e;
     highScore := highScore e; state := state e; keys := keys e; gravity := gravity e;
     jumpStrength := jumpStrength e; pipeSpeed := pipeSpeed e; pipeInterval := pipeInterval e;
     nextPipeDist := nextPipeDist e; prevSpace := prevSpace e; isRecording := isRecording e;
     isAI := isAI e; dataset := dataset e; model := model e; featureStats := featureStats e;
     aiPredictionCount := aiPredictionCount e; jumpScheduled := jumpScheduled e;
     dataBuffer := dataBuffer e; framesSinceLastJump := v; gameOverTime := gameOverTime e;
     gameOverDelay := gameOverDelay e; gameStarted := gameStarted e;
     hoverOffset := hoverOffset e; currentLevel := currentLevel e;
     fixedGapCenter := fixedGapCenter e; isPaused := isPaused e; pausedState := pausedState e;
     tasks := tasks e; emitted := emitted e |}.
Definition set_gameOverTime (v : Z) (e : t) : t :=
  {| canvas := canvas e; bird := bird e; pipes := pipes e; score := score e;
     highScore := highScore e; state := state e; keys := keys e; gravity := gravity e;
     jumpStrength := jumpStrength e; pipeSpeed := pipeSpeed e; pipeInterval := pipeInterval e;
     nextPipeDist := nextPipeDist e; prevSpace := prevSpace e; isRecording := isRecording e;
     isAI := isAI e; dataset := dataset e; model := model e; featureStats := featureStats e;
     aiPredictionCount := aiPredictionCount e; jumpScheduled := jumpScheduled e;
     dataBuffer := dataBuffer e; framesSinceLastJump := framesSinceLastJump e; gameOverTime := v;
     gameOverDelay := gameOverDelay e; gameStarted := gameStarted e;
     hoverOffset := hoverOffset e; currentLevel := currentLevel e;
     fixedGapCenter := fixedGapCenter e; isPaused := isPaused e; pausedState := pausedState e;
     tasks := tasks e; emitted := emitted e |}.
Definition set_gameStarted (v : bool) (e : t) : t :=
  {| canvas := canvas e; bird := bird e; pipes := pipes e; score := score e;
     highScore := highScore e; state := state e; keys := keys e; gravity := gravity e;
     jumpStrength := jumpStrength e; pipeSpeed := pipeSpeed e; pipeInterval := pipeInterval e;
     nextPipeDist := nextPipeDist e; prevSpace := prevSpace e; isRecording := isRecording e;
     isAI := isAI e; dataset := dataset e; model := model e; featureStats := featureStats e;
     aiPredictionCount := aiPredictionCount e; jumpScheduled := jumpScheduled e;
     dataBuffer := dataBuffer e; framesSinceLastJump := framesSinceLastJump e;
     gameOverTime := gameOverTime e; gameOverDelay := gameOverDelay e; gameStarted := v;
     hoverOffset := hoverOffset e; currentLevel := currentLevel e;
     fixedGapCenter := fixedGapCenter e; isPaused := isPaused e; pausedState := pausedState e;
     tasks := tasks e; emitted := emitted e |}.
Definition set_hoverOffset (v : Q) (e : t) : t :=
  {| canvas := canvas e; bird := bird e; pipes := pipes e; score := score e;
     highScore := highScore e; state := state e; keys := keys e; gravity := gravity e;
     jumpStrength := jumpStrength e; pipeSpeed := pipeSpeed e; pipeInterval := pipeInterval e;
     nextPipeDist := nextPipeDist e; prevSpace := prevSpace e; isRecording := isRecording e;
     isAI := isAI e; dataset := dataset e; model := model e; featureStats := featureStats e;
     aiPredictionCount := aiPredictionCount e; jumpScheduled := jumpScheduled e;
     dataBuffer := dataBuffer e; framesSinceLastJump := framesSinceLastJump e;
     gameOverTime := gameOverTime e; gameOverDelay := gameOverDelay e;
     gameStarted := gameStarted e; hoverOffset := v; currentLevel := currentLevel e;
     fixedGapCenter := fixedGapCenter e; isPaused := isPaused e; pausedState := pausedState e;
     tasks := tasks e; emitted := emitted e |}.
Definition set_currentLevel (v : Level) (e : t) : t :=
  {| canvas := canvas e; bird := bird e; pipes := pipes e; score := score e;
     highScore := highScore e; state := state e; keys := keys e; gravity := gravity e;
     jumpStrength := jumpStrength e; pipeSpeed := pipeSpeed e; pipeInterval := pipeInterval e;
     nextPipeDist := nextPipeDist e; prevSpace := prevSpace e; isRecording := isRecording e;
     isAI := isAI e; dataset := dataset e; model := model e; featureStats := featureStats e;
     aiPredictionCount := aiPredictionCount e; jumpScheduled := jumpScheduled e;
     dataBuffer := dataBuffer e; framesSinceLastJump := framesSinceLastJump e;
     gameOverTime := gameOverTime e; gameOverDelay := gameOverDelay e;
     gameStarted := gameStarted e; hoverOffset := hoverOffset e; currentLevel := v;
     fixedGapCenter := fixedGapCenter e; isPaused := isPaused e; pausedState := pausedState e;
     tasks := tasks e; emitted := emitted e |}.
Definition set_fixedGapCenter (v : Q) (e : t) : t :=
  {| canvas := canvas e; bird := bird e; pipes := pipes e; score := score e;
     highScore := highScore e; state := state e; keys := keys e; gravity := gravity e;
     jumpStrength := jumpStrength e; pipeSpeed := pipeSpeed e; pipeInterval := pipeInterval e;
     nextPipeDist := nextPipeDist e; prevSpace := prevSpace e; isRecording := isRecording e;
     isAI := isAI e; dataset := dataset e; model := model e; featureStats := featureStats e;
     aiPredictionCount := aiPredictionCount e; jumpScheduled := jumpScheduled e;
     dataBuffer := dataBuffer e; framesSinceLastJump := framesSinceLastJump e;
     gameOverTime := gameOverTime e; gameOverDelay := gameOverDelay e;
     gameStarted := gameStarted e; hoverOffset := hoverOffset e; currentLevel := currentLevel e;
     fixedGapCenter := v; isPaused := isPaused e; pausedState := pausedState e; tasks := tasks e;
     emitted := emitted e |}.
Definition set_isPaused (v : bool) (e : t) : t :=
  {| canvas := canvas e; bird := bird e; pipes := pipes e; score := score e;
     highScore := highScore e; state := state e; keys := keys e; gravity := gravity e;
     jumpStrength := jumpStrength e; pipeSpeed := pipeSpeed e; pipeInterval := pipeInterval e;
     nextPipeDist := nextPipeDist e; prevSpace := prevSpace e; isRecording := isRecording e;
     isAI := isAI e; dataset := dataset e; model := model e; featureStats := featureStats e;
     aiPredictionCount := aiPredictionCount e; jumpScheduled := jumpScheduled e;
     dataBuffer := dataBuffer e; framesSinceLastJump := framesSinceLastJump e;
     gameOverTime := gameOverTime e; gameOverDelay := gameOverDelay e;
     gameStarted := gameStarted e; hoverOffset := hoverOffset e; currentLevel := currentLevel e;
     fixedGapCenter := fixedGapCenter e; isPaused := v; pausedState := pausedState e;
     tasks := tasks e; emitted := emitted e |}.
Definition set_pausedState (v : option PausedState) (e : t) : t :=
  {| canvas := canvas e; bird := bird e; pipes := pipes e; score := score e;
     highScore := highScore e; state := state e; keys := keys e; gravity := gravity e;
     jumpStrength := jumpStrength e; pipeSpeed := pipeSpeed e; pipeInterval := pipeInterval e;
     nextPipeDist := nextPipeDist e; prevSpace := prevSpace e; isRecording := isRecording e;
     isAI := isAI e; dataset := dataset e; model := model e; featureStats := featureStats e;
     aiPredictionCount := aiPredictionCount e; jumpScheduled := jumpScheduled e;
     dataBuffer := dataBuffer e; framesSinceLastJump := framesSinceLastJump e;
     gameOverTime := gameOverTime e; gameOverDelay := gameOverDelay e;
     gameStarted := gameStarted e; hoverOffset := hoverOffset e; currentLevel := currentLevel e;
     fixedGapCenter := fixedGapCenter e; isPaused := isPaused e; pausedState := v;
     tasks := tasks e; emitted := emitted e |}.
Definition set_tasks (v : list Task) (e : t) : t :=
  {| canvas := canvas e; bird := bird e; pipes := pipes e; score := score e;
     highScore := highScore e; state := state e; keys := keys e; gravity := gravity e;
     jumpStrength := jumpStrength e; pipeSpeed := pipeSpeed e; pipeInterval := pipeInterval e;
     nextPipeDist := nextPipeDist e; prevSpace := prevSpace e; isRecording := isRecording e;
     isAI := isAI e; dataset := dataset e; model := model e; featureStats := featureStats e;
     aiPredictionCount := aiPredictionCount e; jumpScheduled := jumpScheduled e;
     dataBuffer := dataBuffer e; framesSinceLastJump := framesSinceLastJump e;
     gameOverTime := gameOverTime e; gameOverDelay := gameOverDelay e;
     gameStarted := gameStarted e; hoverOffset := hoverOffset e; currentLevel := currentLevel e;
     fixedGapCenter := fixedGapCenter e; isPaused := isPaused e; pausedState := pausedState e;
     tasks := v; emitted := emitted e |}.
Definition set_emitted (v : list Notification) (e : t) : t :=
  {| canvas := canvas e; bird := bird e; pipes := pipes e; score := score e;
     highScore := highScore e; state := state e; keys := keys e; gravity := gravity e;
     jumpStrength := jumpStrength e; pipeSpeed := pipeSpeed e; pipeInterval := pipeInterval e;
     nextPipeDist := nextPipeDist e; prevSpace := prevSpace e; isRecording := isRecording e;
     isAI := isAI e; dataset := dataset e; model := model e; featureStats := featureStats e;
     aiPredictionCount := aiPredictionCount e; jumpScheduled := jumpScheduled e;
     dataBuffer := dataBuffer e; framesSinceLastJump := framesSinceLastJump e;
     gameOverTime := gameOverTime e; gameOverDelay := gameOverDelay e;
     gameStarted := gameStarted e; hoverOffset := hoverOffset e; currentLevel := currentLevel e;
     fixedGapCenter := fixedGapCenter e; isPaused := isPaused e; pausedState := pausedState e;
     tasks := tasks e; emitted := v |}.

Definition emit (n : Notification) (e : t) : t := set_emitted (emitted e ++ [n]) e.

Definition schedule (k : Task) (e : t) : t := set_tasks (tasks e ++ [k]) e.

(** Lines 119-158: the state the constructor builds. *)
Definition new (c : Canvas) : t :=
  {| canvas := c; bird := Bird.new; pipes := []; score := 0; highScore := 0; state := Menu;
     keys := ∅; gravity := 0.2; jumpStrength := -5; pipeSpeed := 2; pipeInterval := 250;
     nextPipeDist := 0; prevSpace := false; isRecording := false; isAI := false;
     dataset := []; model := None; featureStats := None; aiPredictionCount := 0;
     jumpScheduled := false; dataBuffer := None; framesSinceLastJump := 0; gameOverTime := 0;
     gameOverDelay := 1000; gameStarted := false; hoverOffset := 0;
     currentLevel := Finetuning; fixedGapCenter := height c / 2; isPaused := false;
     pausedState := None; tasks := []; emitted := [] |}.

(** Lines 160-166 *)
Definition setLevel (level : Level) (e : t) : t :=
  e ▹ set_currentLevel level
    ▹ set_fixedGapCenter (height (canvas e) / 2)
    ▹ set_isRecording false.

(** *** The upcoming pipes and the features (lines 287-297, 481-499) *)

(** Stable insertion by [a.x - b.x], as [Array.prototype.sort] orders. *)
Fixpoint insertByX (p : Pipe.t) (l : list Pipe.t) : list Pipe.t :=
  match l with
  | [] => [p]
  | q :: r => if JS.Qltb (Pipe.x q) (Pipe.x p) then q :: insertByX p r else p :: l
  end.

Definition sortByX (l : list Pipe.t) : list Pipe.t := foldr insertByX [] l.

Definition getNextPipe (offset : nat) (e : t) : option Pipe.t :=
  let upcoming :=
    sortByX (filter (fun pipe => JS.Qltb (Bird.pos_x (bird e) - Bird.radius (bird e))
                                         (Pipe.x pipe + Pipe.width pipe) = true)
                    (pipes e)) in
  upcoming !! offset.

Definition getRawFeatures (e : t) : list JS.num :=
  let next := getNextPipe 0 e in
  let nextNext := getNextPipe 1 e in
  let y := JS.div (JS.Fin (Bird.pos_y (bird e))) (JS.Fin (height (canvas e))) in
  [ y;
    JS.div (JS.Fin (Bird.vel_y (bird e))) (JS.Fin 10);
    match next with
    | Some p => JS.div (JS.Fin (Pipe.x p - Bird.pos_x (bird e))) (JS.Fin (width (canvas e)))
    | None => JS.Fin 1
    end;
    match next with
    | Some p => JS.div (JS.Fin (Pipe.gapCenter p)) (JS.Fin (height (canvas e)))
    | None => y
    end;
    match nextNext with
    | Some p => JS.div (JS.Fin (Pipe.gapCenter p)) (JS.Fin (height (canvas e)))
    | None => y
    end ].

(** Lines 299-316.  An entry missing from an array reads as [undefined],
    which is [NaN] in arithmetic and falsy under [||]. *)
Definition preprocessFeatures (rawFeatures : list JS.num) (e : t) : list JS.num :=
  let normalizedFeatures := map (fun i => default JS.NaN (rawFeatures !! i)) (seq 0 5) in
  match featureStats e with
  | None => normalizedFeatures
  | Some stats =>
      imap (fun i val =>
              let standardized :=
                JS.div (JS.sub val (default JS.NaN (means stats !! i)))
                       (JS.or (default JS.NaN (stds stats !! i)) (JS.Fin 1)) in
              JS.max (JS.Fin (-3)) (JS.min (JS.Fin 3) standardized))
           normalizedFeatures
  end.

Definition getCurrentData (e : t) : GameData.t :=
  let next := getNextPipe 0 e in
  let nextNext := getNextPipe 1 e in
  {| GameData.pressed := JS.Fin 0;
     GameData.y := JS.Fin (Bird.pos_y (bird e));
     GameData.vel := JS.Fin (Bird.vel_y (bird e));
     GameData.dist := match next with
                      | Some p => JS.Fin (Pipe.x p - Bird.pos_x (bird e))
                      | None => JS.Fin (width (canvas e))
                      end;
     GameData.mid1 := match next with
                      | Some p => JS.Fin (Pipe.gapCenter p)
                      | None => JS.Fin (height (canvas e) / 2)
                      end;
     GameData.mid2 := match nextNext with
                      | Some p => JS.Fin (Pipe.gapCenter p)
                      | None => JS.Fin (height (canvas e) / 2)
                      end |}.

(** *** Rounds (lines 341-362, 435-447) *)

Definition startGame (random : Q) (e : t) : t :=
  let pipe :=
    if decide (currentLevel e = Overfitting)
    then Pipe.new (height (canvas e)) (width (canvas e)) (Some (fixedGapCenter e)) random
    else Pipe.new (height (canvas e)) (width (canvas e)) None random in
  e ▹ set_bird (Bird.reset (bird e))
    ▹ set_pipes [pipe]
    ▹ set_nextPipeDist (pipeInterval e)
    ▹ set_score 0
    ▹ set_state Playing
    ▹ set_prevSpace false
    ▹ set_keys (<[" " := false]> (keys e))
    ▹ set_aiPredictionCount 0
    ▹ set_framesSinceLastJump 0
    ▹ set_dataBuffer None
    ▹ set_jumpScheduled false
    ▹ set_gameStarted false
    ▹ set_hoverOffset 0
    ▹ emit (ScoreUpdate 0)
    ▹ emit (GameStateChange Playing).

Definition endGame (now : Z) (e : t) : t :=
  let e1 := e ▹ set_state Dead ▹ set_gameOverTime now in
  let e2 :=
    if (highScore e1 <? score e1)%Z
    then e1 ▹ set_highScore (score e1) ▹ emit (HighScoreUpdate (score e1))
    else e1 in
  let e3 := e2 ▹ emit (GameStateChange Dead) in
  if isAI e3 then e3 ▹ schedule (RestartTimer 1000) else e3.

(** *** Input listeners (lines 168-214) *)

Definition canStart (now : Z) (e : t) : bool :=
  (bool_decide (state e = Menu)
   || bool_decide (state e = Dead) && (gameOverDelay e <? now - gameOverTime e)%Z)
  && negb (isAI e).

Definition onKeyDown (key : string) (now : Z) (random : Q) (e : t) : t :=
  if isPaused e then e
  else
    let e1 := e ▹ set_keys (<[key := true]> (keys e)) in
    if String.eqb key " " && canStart now e1 then startGame random e1 else e1.

Definition onKeyUp (key : string) (e : t) : t :=
  if isPaused e then e
  else
    let e1 := e ▹ set_keys (<[key := false]> (keys e)) in
    if String.eqb key " " then e1 ▹ set_prevSpace false else e1.

Definition onClick (now : Z) (random : Q) (e : t) : t :=
  if isPaused e then e
  else if bool_decide (state e = Playing) && negb (isAI e) then
    e ▹ set_bird (Bird.set_vel_y (jumpStrength e) (bird e))
      ▹ set_jumpScheduled true
      ▹ set_gameStarted true
  else if canStart now e then startGame random e
  else e.

(** *** Recording controls (lines 535-555) *)

Definition startRecording (e : t) : t := e ▹ set_isRecording true ▹ set_dataBuffer None.
Definition pauseRecording (e : t) : t := e ▹ set_isRecording false.
Definition resumeRecording (e : t) : t := e ▹ set_isRecording true.
Definition clearDataset (e : t) : t := e ▹ set_dataset [] ▹ emit (DataCountUpdate 0).

(** *** The 100 ms tick (lines 216-285) *)

(** The synchronous part of [makeAIPrediction]: the features are computed
    at the tick and handed to the continuation of the import. *)
Definition makeAIPrediction (e : t) : t :=
  let e1 := e ▹ set_aiPredictionCount (aiPredictionCount e + 1) in
  let rawFeatures := getRawFeatures e1 in
  let features := preprocessFeatures rawFeatures e1 in
  e1 ▹ schedule (PredictionThen features).

(** The continuation (lines 258-281).  Without a model the call of
    [predict] throws and the [catch] handler only logs. *)
Definition predictionThen (features : list JS.num) (e : t) : t :=
  match model e with
  | None => e
  | Some m =>
      let pred := m features in
      let baseThreshold := JS.Fin 0.5 in
      let adjustedThreshold :=
        if (framesSinceLastJump e <? 10)%Z then JS.Fin 0.7 else baseThreshold in
      let shouldJump := JS.gtb pred adjustedThreshold in
      if shouldJump then
        e ▹ set_bird (Bird.set_vel_y (jumpStrength e) (bird e))
          ▹ set_framesSinceLastJump 0
      else
        e ▹ set_framesSinceLastJump (framesSinceLastJump e + 1)
  end.

(** The callback [setupDataCollection] gives to [setInterval]. *)
Definition dataCollectionTick (e : t) : t :=
  if isPaused e || negb (bool_decide (state e = Playing)) then e
  else
    let e1 :=
      if isRecording e && gameStarted e then
        let maxDataPoints :=
          if decide (currentLevel e = Underfitting) then Some 50%nat else None in
        if match maxDataPoints with
           | Some cap => (cap <=? length (dataset e))%nat
           | None => false
           end
        then pauseRecording e
        else
          let e' :=
            match dataBuffer e with
            | Some buffer =>
                let row :=
                  GameData.set_pressed (if jumpScheduled e then JS.Fin 1 else JS.Fin 0) buffer in
                e ▹ set_dataset (dataset e ++ [row])
                  ▹ emit (DataCountUpdate (length (dataset e ++ [row])))
            | None => e
            end in
          e' ▹ set_dataBuffer (Some (getCurrentData e')) ▹ set_jumpScheduled false
      else e in
    if isAI e1 && bool_decide (is_Some (model e1)) then makeAIPrediction e1 else e1.

(** *** The frame step (lines 364-433) *)

Definition collides (b : Bird.t) (pipe : Pipe.t) : bool :=
  JS.Qltb (Pipe.x pipe) (Bird.pos_x b + Bird.radius b)
  && JS.Qltb (Bird.pos_x b - Bird.radius b) (Pipe.x pipe + Pipe.width pipe)
  && (JS.Qltb (Bird.pos_y b - Bird.radius b) (Pipe.top pipe)
      || JS.Qltb (Pipe.bottom pipe) (Bird.pos_y b + Bird.radius b)).

(** The loop [for (const pipe of this.pipes)] on the pipes still to visit,
    given those already moved.  [inl] is the state at the [return] after a
    collision, [inr] the state after the last pipe. *)
Fixpoint movePipes (now : Z) (moved todo : list Pipe.t) (e : t) : t + t :=
  match todo with
  | [] => inr (e ▹ set_pipes moved)
  | pipe :: rest =>
      let pipe1 := Pipe.set_x (Pipe.x pipe - pipeSpeed e) pipe in
      if collides (bird e) pipe1
      then inl (e ▹ set_pipes (moved ++ pipe1 :: rest) ▹ endGame now)
      else if JS.Qltb (Pipe.x pipe1 + Pipe.width pipe1) (Bird.pos_x (bird e))
              && negb (Pipe.passed pipe1)
      then movePipes now (moved ++ [Pipe.set_passed true pipe1]) rest
             (e ▹ set_score (score e + 1) ▹ emit (ScoreUpdate (score e + 1)))
      else movePipes now (moved ++ [pipe1]) rest e
  end.

Definition outOfBounds (e : t) : bool :=
  JS.Qltb (height (canvas e)) (Bird.pos_y (bird e) + Bird.radius (bird e))
  || JS.Qltb (Bird.pos_y (bird e) - Bird.radius (bird e)) 0.

Section Frame.

(** [Math.sin] *)
Variable sin : Q -> Q.

Definition update (now : Z) (random : Q) (e : t) : t :=
  if isPaused e || negb (bool_decide (state e = Playing)) then e
  else
    let moved : t + t :=
      if gameStarted e || isAI e then
        let vel := (Bird.vel_y (bird e) + gravity e)%Q in
        let e1 := e ▹ set_bird (bird e ▹ Bird.set_vel_y vel
                                       ▹ Bird.set_pos_y (Bird.pos_y (bird e) + vel)) in
        let e2 := e1 ▹ set_nextPipeDist (nextPipeDist e1 - pipeSpeed e1) in
        let e3 :=
          if Qle_bool (nextPipeDist e2) 0 then
            let pipe :=
              if decide (currentLevel e2 = Overfitting) then
                if isAI e2
                then Pipe.new (height (canvas e2)) (width (canvas e2)) None random
                else Pipe.new (height (canvas e2)) (width (canvas e2))
                              (Some (fixedGapCenter e2)) random
              else Pipe.new (height (canvas e2)) (width (canvas e2)) None random in
            e2 ▹ set_pipes (pipes e2 ++ [pipe]) ▹ set_nextPipeDist (pipeInterval e2)
          else e2 in
        let kept :=
          filter (fun pipe => JS.Qltb 0 (Pipe.x pipe + Pipe.width pipe) = true) (pipes e3) in
        movePipes now [] kept e3
      else
        let offset := (hoverOffset e + 0.05)%Q in
        let vibrationAmount := (sin offset * 2)%Q in
        inr (e ▹ set_hoverOffset offset
               ▹ set_bird (Bird.set_pos_y (300 + vibrationAmount) (bird e))) in
    match moved with
    | inl ended => ended
    | inr e4 =>
        let e5 :=
          if negb (isAI e4) && default false (keys e4 !! " ") && negb (prevSpace e4) then
            e4 ▹ set_bird (Bird.set_vel_y (jumpStrength e4) (bird e4))
               ▹ set_prevSpace true
               ▹ set_jumpScheduled true
               ▹ set_gameStarted true
          else e4 in
        if (gameStarted e5 || isAI e5) && outOfBounds e5 then endGame now e5 else e5
    end.

End Frame.

(** *** Training (lines 501-532) *)

Definition minRequired (l : Level) : nat :=
  match l with
  | Finetuning => 400
  | Underfitting => 50
  | Overfitting => 200
  end.

(** The part of [trainModel] before the [await]: whether the trainer is
    called at all. *)
Definition trainModel (e : t) : t * bool :=
  if (length (dataset e) <? minRequired (currentLevel e))%nat then
    (e ▹ emit (Alert (String.append "Need at least "
                       (String.append (JS.str (JS.decimal (Z.of_nat (minRequired (currentLevel e)))))
                       (String.append " data points to train effectively for "
                       (String.append (levelName (currentLevel e)) " level!"))))),
     false)
  else (e ▹ emit (ProgressUpdate 10 "Preparing dataset..."), true).

(** The part after the [await], when the trainer has resolved. *)
Definition trainModelResolved (r : MLTrainer.Result) (e : t) : t :=
  e ▹ set_model (Some (MLTrainer.model r))
    ▹ set_featureStats (MLTrainer.featureStats r).

(** *** CSV export and import (lines 557-625) *)

Definition csvHeader : string := "pressed,y,vel,dist,mid1,mid2".

Definition csvRow (row : GameData.t) : option string :=
  p ← JS.toString (GameData.pressed row);
  y ← JS.toFixed2 (GameData.y row);
  vel ← JS.toFixed2 (GameData.vel row);
  dist ← JS.toFixed2 (GameData.dist row);
  mid1 ← JS.toFixed2 (GameData.mid1 row);
  mid2 ← JS.toFixed2 (GameData.mid2 row);
  Some (JS.join "," [p; y; vel; dist; mid1; mid2]).

Inductive Download : Type :=
| NoData
| File (csv : string)
| Unprintable.

(** [downloadCSV]: the text handed to the browser.  [Unprintable] stands
    for a dataset with a number whose text [JS.toFixed2] or [JS.toString]
    does not give. *)
Definition downloadCSV (e : t) : t * Download :=
  if (length (dataset e) =? 0)%nat then (e ▹ emit (Alert "No data to download!"), NoData)
  else match mapM csvRow (dataset e) with
       | Some rows =>
           (e, File (String.append csvHeader (String.append (JS.str ["010"%char])
                                                            (JS.join (JS.str ["010"%char]) rows))))
       | None => (e, Unprintable)
       end.

Inductive Upload : Type :=
| Resolved
| Rejected (message : string).

(** [uploadCSV], from the text the file reader delivers. *)
Definition uploadCSV (text : string) (e : t) : t * Upload :=
  let lines := JS.split "010" text in
  let headers := JS.split "," (default "" (lines !! 0%nat)) in
  if negb (String.eqb (JS.join "," headers) csvHeader) then
    (e ▹ emit (Alert "Invalid CSV format! Headers must be: pressed,y,vel,dist,mid1,mid2"),
     Rejected "Invalid CSV format")
  else
    let newData := GameData.ofLines (drop 1 lines) in
    if (0 <? length newData)%nat then
      let e1 := e ▹ set_dataset (dataset e ++ newData) in
      (e1 ▹ emit (DataCountUpdate (length (dataset e1)))
          ▹ emit (Alert (String.append "Successfully loaded "
                           (String.append (JS.str (JS.decimal (Z.of_nat (length newData))))
                                          " data points!"))),
       Resolved)
    else (e ▹ emit (Alert "No valid data found in CSV!"), Rejected "No valid data found").

(** *** AI play, reset and pause (lines 627-709) *)

Definition startAI (random : Q) (e : t) : t :=
  match model e with
  | None => e ▹ emit (Alert "Train the model first!")
  | Some _ =>
      let e1 := e ▹ set_isAI true in
      if bool_decide (state e1 = Menu) || bool_decide (state e1 = Dead)
      then startGame random e1 else e1
  end.

Definition stopAI (now : Z) (e : t) : t :=
  let e1 := e ▹ set_isAI false in
  if bool_decide (state e1 = Playing) then endGame now e1 else e1.

Definition restart (e : t) : t :=
  e ▹ set_bird (Bird.reset (bird e))
    ▹ set_pipes []
    ▹ set_score 0
    ▹ set_state Menu
    ▹ set_keys ∅
    ▹ set_prevSpace false
    ▹ set_aiPredictionCount 0
    ▹ set_framesSinceLastJump 0
    ▹ set_dataBuffer None
    ▹ set_jumpScheduled false
    ▹ set_gameStarted false
    ▹ set_hoverOffset 0
    ▹ set_gameOverTime 0
    ▹ set_dataset []
    ▹ set_isRecording false
    ▹ set_isAI false
    ▹ set_model None
    ▹ set_featureStats None
    ▹ emit (ScoreUpdate 0)
    ▹ emit (DataCountUpdate 0)
    ▹ emit (GameStateChange Menu)
    ▹ emit (TrainingStatusUpdate
             (String.append "No Model (" (String.append (levelName (currentLevel e)) ")"))).

Definition pause (e : t) : t :=
  if isPaused e then e
  else e ▹ set_isPaused true
         ▹ set_pausedState (Some {| paused_gameState := state e;
                                    paused_gameStarted := gameStarted e;
                                    paused_hoverOffset := hoverOffset e |}).

Definition resume (e : t) : t :=
  if negb (isPaused e) then e
  else
    let e1 := e ▹ set_isPaused false in
    match pausedState e1 with
    | Some _ => e1 ▹ set_pausedState None
    | None => e1
    end.

(** *** The event loop *)

(** One thing that happens to the engine: a browser event, a timer, a
    continuation, or a command of the page (lines 390-397 of [page.tsx]
    for the level switch). *)
Inductive Event : Type :=
| KeyDown (key : string)
| KeyUp (key : string)
| Click
| AnimationFrame
| IntervalTick
| RunTask (i : nat)
| SetLevel (level : Level)
| SwitchLevel (level : Level)
| StartRecording
| PauseRecording
| ResumeRecording
| ClearDataset
| DownloadCSV
| UploadCSV (text : string)
| TrainModel
| TrainingResolved (r : MLTrainer.Result)
| StartAI
| StopAI
| Restart
| Pause
| Resume.

(** What the host answers during one event: [Date.now()], [Math.random()]
    and whether the dynamic import of the tensor library resolves. *)
Record Host : Type := { now : Z; random : Q; imports : bool }.

(** The task at position [i] leaves the list and runs. *)
Definition runTask (i : nat) (h : Host) (e : t) : t :=
  match tasks e !! i with
  | None => e
  | Some k =>
      let e1 := e ▹ set_tasks (delete i (tasks e)) in
      match k with
      | RestartTimer _ => startGame (random h) e1
      | PredictionThen features => if imports h then predictionThen features e1 else e1
      end
  end.

(** [handleLevelChange] of the page: [clearDataset(); setLevel(level);
    restart()]. *)
Definition switchLevel (level : Level) (e : t) : t :=
  e ▹ clearDataset ▹ setLevel level ▹ restart.

Definition step (sin : Q -> Q) (h : Host) (ev : Event) (e : t) : t :=
  match ev with
  | KeyDown key => onKeyDown key (now h) (random h) e
  | KeyUp key => onKeyUp key e
  | Click => onClick (now h) (random h) e
  | AnimationFrame => update sin (now h) (random h) e
  | IntervalTick => dataCollectionTick e
  | RunTask i => runTask i h e
  | SetLevel level => setLevel level e
  | SwitchLevel level => switchLevel level e
  | StartRecording => startRecording e
  | PauseRecording => pauseRecording e
  | ResumeRecording => resumeRecording e
  | ClearDataset => clearDataset e
  | DownloadCSV => fst (downloadCSV e)
  | UploadCSV text => fst (uploadCSV text e)
  | TrainModel => fst (trainModel e)
  | TrainingResolved r => trainModelResolved r e
  | StartAI => startAI (random h) e
  | StopAI => stopAI (now h) e
  | Restart => restart e
  | Pause => pause e
  | Resume => resume e
  end.

Definition run (sin : Q -> Q) (evs : list (Host * Event)) (e : t) : t :=
  fold_left (fun acc he => step sin (fst he) (snd he) acc) evs e.

(** Lines 318-339, [computeStats]: the same text as the trainer's. *)
Definition computeStats (sqrt : JS.num -> JS.num) (features : list (list JS.num))
    : FeatureStats :=
  MLTrainer.computeStats sqrt features.

End GameEngine.

(** ** The page and the control panel ([page.tsx], [control-panel.tsx]) *)

Module ControlPanel.

(** [levelRequirements[level].min] (lines 32-36). *)
Definition minRequired (l : Level) : nat :=
  match l with
  | Finetuning => 450
  | Underfitting => 50
  | Overfitting => 200
  end.

Inductive RecordingState : Type := Idle | Recording | Paused.

(** The panel: its recording state, the level the page passes down, and
    the engine. *)
Record t : Type := {
  recordingState : RecordingState;
  currentLevel : Level;
  gameEngine : GameEngine.t
}.

(** [handleStartRecording] and [handlePauseRecording] (lines 82-99). *)
Definition handleStartRecording (p : t) : t :=
  match recordingState p with
  | Idle =>
      {| recordingState := Recording; currentLevel := currentLevel p;
         gameEngine := GameEngine.startRecording (gameEngine p) |}
  | Paused =>
      {| recordingState := Recording; currentLevel := currentLevel p;
         gameEngine := GameEngine.resumeRecording (gameEngine p) |}
  | Recording => p
  end.

Definition handlePauseRecording (p : t) : t :=
  match recordingState p with
  | Recording =>
      {| recordingState := Paused; currentLevel := currentLevel p;
         gameEngine := GameEngine.pauseRecording (gameEngine p) |}
  | Paused =>
      {| recordingState := Recording; currentLevel := currentLevel p;
         gameEngine := GameEngine.resumeRecording (gameEngine p) |}
  | Idle => p
  end.

(** [handleTrainModel] up to the [await] (lines 133-164): the panel's own
    size check, the pause of a running recording, then the engine's
    [trainModel].  The flag tells whether the trainer is called. *)
Definition handleTrainModel (p : t) : t * bool :=
  if (length (GameEngine.dataset (gameEngine p)) <? minRequired (currentLevel p))%nat
  then (p, false)
  else
    let p1 :=
      match recordingState p with
      | Recording =>
          {| recordingState := Paused; currentLevel := currentLevel p;
             gameEngine := GameEngine.pauseRecording (gameEngine p) |}
      | _ => p
      end in
    let '(e, called) := GameEngine.trainModel (gameEngine p1) in
    ({| recordingState := recordingState p1; currentLevel := currentLevel p1;
        gameEngine := e |}, called).

End ControlPanel.

Module Page.

Record Progress : Type := {
  dataPointsAchieved : bool;
  modelTrained : bool;
  aiStarted : bool
}.

(** [levelProgress], a record with one entry per level. *)
Definition LevelProgress : Type := Level -> Progress.

(** The coins of [page.tsx], lines 226-233: five for each step achieved,
    summed over [Object.values(levelProgress)]. *)
Definition totalCoins (levelProgress : LevelProgress) : Z :=
  fold_left (fun total progress =>
               (total + (if dataPointsAchieved progress then 5 else 0)
                + (if modelTrained progress then 5 else 0)
                + (if aiStarted progress then 5 else 0))%Z)
            (map levelProgress [Finetuning; Underfitting; Overfitting]) 0%Z.

Definition requiredCoins (level : Level) : Z :=
  match level with
  | Underfitting => 15
  | Overfitting => 30
  | Finetuning => 0
  end.

(** [handleLevelChange] (lines 363-411), as far as the engine goes: the
    coin check, then [clearDataset], [setLevel] and [restart]. *)
Definition handleLevelChange (coins : Z) (level : Level) (e : GameEngine.t) : GameEngine.t :=
  if (coins <? requiredCoins level)%Z then e
  else GameEngine.switchLevel level e.

End Page.

(** * Vocabulary of the properties *)

Import GameEngine.

(** A playfield of the size the page gives the canvas. *)
Definition playfield : Canvas := {| width := 400; height := 600 |}.

(** A classifier that always answers [p]. *)
Definition constantModel (p : Q) : Model := fun _ => JS.Fin p.

(** The host of the examples: the clock reads [t], [Math.random()] returns
    one half and imports resolve. *)
Definition hostAt (t : Z) : Host := {| now := t; random := 1 # 2; imports := true |}.

(** [Math.sin] of the examples: the bird hovers without moving. *)
Definition flatSin (q : Q) : Q := 0.

(** The fields the round machinery ([startGame] apart) never assigns. *)
Definition keeps (e e' : t) : Prop :=
  model e' = model e /\ featureStats e' = featureStats e /\ dataset e' = dataset e
  /\ dataBuffer e' = dataBuffer e /\ isRecording e' = isRecording e /\ isAI e' = isAI e
  /\ currentLevel e' = currentLevel e /\ fixedGapCenter e' = fixedGapCenter e
  /\ isPaused e' = isPaused e /\ canvas e' = canvas e.

Definition isTrainingResolved (ev : Event) : bool :=
  match ev with TrainingResolved _ => true | _ => false end.

(** An engine that has a trained model. *)
Definition trainedEngine : t := set_model (Some (constantModel 0.6)) (new playfield).

(** Two feature vectors hold the same numbers. *)
Definition sameFeatures (u v : list JS.num) : Prop := Forall2 JS.same u v.

(** The features the trainer derives from the row recorded in state [e]. *)
Definition recordedFeatures (e : t) : list JS.num :=
  MLTrainer.features (height (canvas e)) (width (canvas e)) (getCurrentData e).

(** A human round, two frames after the first jump: the bird has left the
    middle of the playfield and a single pipe is ahead. *)
Definition afterFirstJump : t :=
  run flatSin [(hostAt 0, KeyDown " "); (hostAt 0, KeyUp " "); (hostAt 500, KeyDown " ");
               (hostAt 516, AnimationFrame); (hostAt 533, AnimationFrame)]
      (new playfield).

(** The model plays the overfitting level from the menu. *)
Definition aiStartsOverfitting : t :=
  startAI (1 # 4) (setLevel Overfitting trainedEngine).

(** Events under which the engine stays in the underfitting level and no
    file is imported. *)
Definition staysUnderfitting (ev : Event) : bool :=
  match ev with
  | UploadCSV _ => false
  | SetLevel level | SwitchLevel level => bool_decide (level = Underfitting)
  | _ => true
  end.

(** An engine in the underfitting level that holds 50 rows and is recording
    a started round. *)
Definition atCap : t :=
  new playfield ▹ setLevel Underfitting
                ▹ set_dataset (replicate 50 (getCurrentData (new playfield)))
                ▹ startGame (1 # 2) ▹ startRecording ▹ set_gameStarted true.

(** *** Recording sessions (C1) *)

(** Events of the player and of the frame loop. *)
Definition isInput (ev : Event) : bool :=
  match ev with
  | KeyDown _ | KeyUp _ | Click | AnimationFrame => true
  | _ => false
  end.

(** Whether the event, arriving in state [e] of a round that goes on,
    schedules a jump: a click on the playfield, or a frame that finds the
    space key newly down, while a human plays. *)
Definition schedulesJump (ev : Event) (e : t) : bool :=
  negb (isPaused e) && bool_decide (state e = Playing) && negb (isAI e)
  && match ev with
     | Click => true
     | AnimationFrame => default false (keys e !! " ") && negb (prevSpace e)
     | _ => false
     end.

(** Whether a jump was scheduled during a stretch of events. *)
Fixpoint jumped (sin : Q -> Q) (evs : list (Host * Event)) (e : t) : bool :=
  match evs with
  | [] => false
  | (h, ev) :: rest => schedulesJump ev e || jumped sin rest (step sin h ev e)
  end.

(** The stretch between two ticks holds inputs and frames only, and the
    round is on at every moment of it. *)
Fixpoint steady (sin : Q -> Q) (evs : list (Host * Event)) (e : t) : bool :=
  bool_decide (state e = Playing)
  && match evs with
     | [] => true
     | (h, ev) :: rest => isInput ev && steady sin rest (step sin h ev e)
     end.

(** The tick in state [e] is a recording tick: the engine is not paused,
    the round is on and has started, recording is active and the
    underfitting cap is not reached. *)
Definition recordingTick (e : t) : bool :=
  negb (isPaused e) && bool_decide (state e = Playing) && isRecording e && gameStarted e
  && negb (bool_decide (currentLevel e = Underfitting) && (50 <=? length (dataset e))%nat).

(** A session: stretches of events, each closed by a tick. *)
Fixpoint session (sin : Q -> Q) (segs : list (list (Host * Event))) (e : t) : t :=
  match segs with
  | [] => e
  | seg :: rest => session sin rest (dataCollectionTick (run sin seg e))
  end.

Fixpoint recordingSession (sin : Q -> Q) (segs : list (list (Host * Event))) (e : t) : bool :=
  match segs with
  | [] => true
  | seg :: rest =>
      steady sin seg e && recordingTick (run sin seg e)
      && recordingSession sin rest (dataCollectionTick (run sin seg e))
  end.

(** The row a tick must buffer, from the data model: the bird's height and
    speed, the distance from the bird to the nearest pipe ahead, and the
    gap centres of that pipe and of the one after it; the width of the
    playfield stands in for the distance, and half its height for a gap
    centre, when the pipe is missing.  The label is not set yet. *)
Definition snapshotOf (e : t) : GameData.t :=
  {| GameData.pressed := JS.Fin 0;
     GameData.y := JS.Fin (Bird.pos_y (bird e));
     GameData.vel := JS.Fin (Bird.vel_y (bird e));
     GameData.dist :=
       JS.Fin (from_option (fun p => Pipe.x p - Bird.pos_x (bird e))%Q (width (canvas e))
                           (getNextPipe 0 e));
     GameData.mid1 :=
       JS.Fin (from_option Pipe.gapCenter (height (canvas e) / 2)%Q (getNextPipe 0 e));
     GameData.mid2 :=
       JS.Fin (from_option Pipe.gapCenter (height (canvas e) / 2)%Q (getNextPipe 1 e)) |}.

(** The rows a session must add: at each tick the snapshot taken at the
    tick before, labelled with whether a jump was scheduled since. *)
Fixpoint laggedRows (sin : Q -> Q) (segs : list (list (Host * Event))) (e : t)
    (buffered : option GameData.t) : list GameData.t :=
  match segs with
  | [] => []
  | seg :: rest =>
      let atTick := run sin seg e in
      match buffered with
      | Some snapshot =>
          [GameData.set_pressed (if jumped sin seg e then JS.Fin 1 else JS.Fin 0) snapshot]
      | None => []
      end
      ++ laggedRows sin rest (dataCollectionTick atTick) (Some (snapshotOf atTick))
  end.

(** A scripted session on a fresh round with recording on: the player
    starts the round with a jump, lets a tick pass, and clicks before the
    third tick. *)
Definition readyToRecord : t :=
  run flatSin [(hostAt 0, KeyDown " "); (hostAt 0, KeyUp " "); (hostAt 10, StartRecording)]
      (new playfield).


(** A recording that is paused and resumed.  [firstTick] is the round of
    [readyToRecord] when its first tick is due: the player has jumped
    once. *)
Definition firstTick : t :=
  run flatSin [(hostAt 20, KeyDown " "); (hostAt 33, AnimationFrame); (hostAt 40, KeyUp " ")]
      readyToRecord.

(** That tick records; the panel then pauses the recording, and during
    the pause two more ticks pass and the player clicks once.
    [previousTick] is the engine when the last tick of the pause is
    due. *)
Definition previousTick : t :=
  run flatSin [(hostAt 100, IntervalTick); (hostAt 110, PauseRecording);
               (hostAt 116, AnimationFrame); (hostAt 200, IntervalTick);
               (hostAt 220, Click); (hostAt 233, AnimationFrame);
               (hostAt 300, IntervalTick); (hostAt 316, AnimationFrame)]
      firstTick.

(** After that tick the panel resumes the recording. *)
Definition resumedRecording : t :=
  run flatSin [(hostAt 400, IntervalTick); (hostAt 410, ResumeRecording)] previousTick.

(** One frame passes before the next tick. *)
Definition afterResume : list (Host * Event) := [(hostAt 416, AnimationFrame)].

(** *** CSV texts (C8, C9) *)

(** The first line of a text, [text.split("\n")[0]]. *)
Definition headerLine (text : string) : string :=
  default "" (JS.split "010" text !! 0%nat).

(** The lines after the first. *)
Definition dataLines (text : string) : list string := drop 1 (JS.split "010" text).

(** A data line the import accepts: not blank, six comma-separated
    fields. *)
Definition wellFormed (line : string) : Prop :=
  JS.trim line <> "" /\ length (JS.split "," line) = 6%nat.

(** A file with a good header, a good line, a blank line, a short line and
    a line of six fields that are no numbers. *)
Definition mixedFile : string :=
  "pressed,y,vel,dist,mid1,mid2
1,295.20,-4.80,348.00,300.00,300.00

0,1,2
a,b,c,d,e,f".

(** *** Class balancing (C3) *)

Definition negatives (rows : list GameData.t) : list GameData.t :=
  filter (fun d => JS.eqb (GameData.pressed d) (JS.Fin 0) = true) rows.

Definition positives (rows : list GameData.t) : list GameData.t :=
  filter (fun d => JS.eqb (GameData.pressed d) (JS.Fin 1) = true) rows.

(** [floor(count1 * min(2, count0 / count1))] *)
Definition sampleSizeOf (count0 count1 : nat) : Z :=
  Qfloor (inject_Z (Z.of_nat count1)
          * Qmin 2 (inject_Z (Z.of_nat count0) / inject_Z (Z.of_nat count1))).

(** A row with the given label and height, the other fields zero. *)
Definition rowOf (label : Z) (height : Z) : GameData.t :=
  {| GameData.pressed := JS.ofZ label; GameData.y := JS.ofZ height;
     GameData.vel := JS.Fin 0; GameData.dist := JS.Fin 0;
     GameData.mid1 := JS.Fin 0; GameData.mid2 := JS.Fin 0 |}.

(** Two jumps among thirteen rows, numbered by their height. *)
Definition thirteenRows : list GameData.t :=
  imap (fun i label => rowOf label (Z.of_nat i)) [0; 0; 0; 1; 0; 0; 0; 0; 0; 1; 0; 0; 0]%Z.

(** [count0] rows without a jump, numbered by their height, then
    [count1] rows with one. *)
Definition classes (count0 count1 : nat) : list GameData.t :=
  map (fun i => rowOf 0 (Z.of_nat i)) (seq 0 count0) ++ replicate count1 (rowOf 1 0).

(** The rows at the indices [i], [i + step], [i + 2 step], ... of [l], at
    most [n] of them. *)
Fixpoint strideFrom {A} (n step i : nat) (l : list A) : list A :=
  match n with
  | O => []
  | S n' =>
      match l !! i with
      | Some a => a :: strideFrom n' step (i + step) l
      | None => []
      end
  end.

(** *** The export and import round trip (C9) *)

Definition absQ (q : Q) : Q := if JS.Qltb q 0 then Qopp q else q.

(** [q] rounded to two decimals, halves away from zero. *)
Definition round2 (q : Q) : Q :=
  let n := JS.nearestHundredth (absQ q) in
  Qmake (if JS.Qltb q 0 then (- n)%Z else n) 100.

(** Two to the power -53, the relative error of a rounding to
    binary64. *)
Definition halfUlp : Q := 1 # 9007199254740992.








(** A label the engine can hold: an integer, or from a file [NaN] or an
    infinity. *)
Definition isLabel (x : JS.num) : bool :=
  match x with
  | JS.Fin q => JS.isInteger q
  | _ => true
  end.


(** *** The spawn policy (C5) *)

(** The gap centre the policy of the levels gives a pipe spawned in state
    [e]: the fixed centre while a human plays the overfitting level, the
    random one otherwise. *)
Definition policyCenter (e : t) (random : Q) : Q :=
  if bool_decide (currentLevel e = Overfitting) && negb (isAI e)
  then fixedGapCenter e
  else (random * (height (canvas e) - 300) + 150)%Q.

(** ** Vocabulary of the further properties *)

(** The pipe is not yet behind the bird: the filter of [getNextPipe]. *)
Definition ahead (e : t) (pipe : Pipe.t) : bool :=
  JS.Qltb (Bird.pos_x (bird e) - Bird.radius (bird e)) (Pipe.x pipe + Pipe.width pipe).

(** A playfield with a pipe in the middle and one entering on the right,
    listed out of order. *)
Definition twoPipes : t :=
  set_pipes [Pipe.new 600 400 None (1 # 2); Pipe.new 600 150 None (1 # 4)] (new playfield).

(** The stages of [update], named: the physics and the spawn, the pipes
    kept on screen, the idle oscillation, the player's input and the
    bounds check. *)
Definition physics (random : Q) (e : t) : t :=
  let vel := (Bird.vel_y (bird e) + gravity e)%Q in
  let e1 := e ▹ set_bird (bird e ▹ Bird.set_vel_y vel
                                 ▹ Bird.set_pos_y (Bird.pos_y (bird e) + vel)) in
  let e2 := e1 ▹ set_nextPipeDist (nextPipeDist e1 - pipeSpeed e1) in
  if Qle_bool (nextPipeDist e2) 0 then
    let pipe :=
      if decide (currentLevel e2 = Overfitting) then
        if isAI e2
        then Pipe.new (height (canvas e2)) (width (canvas e2)) None random
        else Pipe.new (height (canvas e2)) (width (canvas e2)) (Some (fixedGapCenter e2)) random
      else Pipe.new (height (canvas e2)) (width (canvas e2)) None random in
    e2 ▹ set_pipes (pipes e2 ++ [pipe]) ▹ set_nextPipeDist (pipeInterval e2)
  else e2.

Definition onScreen (l : list Pipe.t) : list Pipe.t :=
  filter (fun pipe => JS.Qltb 0 (Pipe.x pipe + Pipe.width pipe) = true) l.

Definition hover (sin : Q -> Q) (e : t) : t :=
  e ▹ set_hoverOffset (hoverOffset e + 0.05)
    ▹ set_bird (Bird.set_pos_y (300 + sin (hoverOffset e + 0.05)%Q * 2) (bird e)).

Definition handleInput (e : t) : t :=
  if negb (isAI e) && default false (keys e !! " ") && negb (prevSpace e) then
    e ▹ set_bird (Bird.set_vel_y (jumpStrength e) (bird e))
      ▹ set_prevSpace true
      ▹ set_jumpScheduled true
      ▹ set_gameStarted true
  else e.

Definition checkBounds (now : Z) (e : t) : t :=
  if (gameStarted e || isAI e) && outOfBounds e then endGame now e else e.

(** The pipes not yet counted in the score. *)
Definition unpassed (l : list Pipe.t) : Z :=
  Z.of_nat (length (filter (fun p => Pipe.passed p = false) l)).

(** A number between the two bounds, or [NaN]. *)
Definition clamped (x : JS.num) : Prop :=
  match x with
  | JS.Fin q => (-3 <= q <= 3)%Q
  | JS.NaN => True
  | _ => False
  end.

(** A metric is a rational between 0 and 1. *)
Definition isRate (x : JS.num) : Prop :=
  match x with
  | JS.Fin q => (0 <= q <= 1)%Q
  | _ => False
  end.

(** A square root for the examples: exact on 0 and 1, [NaN] elsewhere. *)
Definition sqrtStub (x : JS.num) : JS.num :=
  match x with
  | JS.Fin q => if Qeq_bool q 0 then JS.Fin 0 else if Qeq_bool q 1 then JS.Fin 1 else JS.NaN
  | other => other
  end.

(** A training result as the trainer returns it: without statistics. *)
Definition fromTrainer (ev : Event) : bool :=
  match ev with
  | TrainingResolved r =>
      match MLTrainer.featureStats r with None => true | Some _ => false end
  | _ => true
  end.

(** Frames, one per host answer. *)
Definition frames (hs : list Host) : list (Host * Event) :=
  map (fun h => (h, AnimationFrame)) hs.

(** The round of [afterFirstJump] with the space key still down. *)
Definition keyHeld : t :=
  run flatSin [(hostAt 0, KeyDown " "); (hostAt 0, KeyUp " "); (hostAt 500, KeyDown " ");
               (hostAt 516, AnimationFrame)]
      (new playfield).

(** A fresh human round, before the first jump. *)
Definition freshRound : t := startGame (1 # 2) (new playfield).

(** The panel shows a running recording exactly when the engine
    records. *)
Definition inSync (p : ControlPanel.t) : Prop :=
  ControlPanel.recordingState p = ControlPanel.Recording
  <-> isRecording (ControlPanel.gameEngine p) = true.

(** The pipe's right edge is less than a frame's travel past the left
    border. *)
Definition inSight (speed : Q) (pipe : Pipe.t) : Prop :=
  (- speed < Pipe.x pipe + Pipe.width pipe)%Q.

(** A panel over a fresh engine. *)
Definition freshPanel : ControlPanel.t :=
  {| ControlPanel.recordingState := ControlPanel.Idle;
     ControlPanel.currentLevel := Finetuning;
     ControlPanel.gameEngine := new playfield |}.

(** Events that neither record, import, clear nor reset. *)
Definition leavesDataset (ev : Event) : bool :=
  match ev with
  | IntervalTick | UploadCSV _ | ClearDataset | Restart | SwitchLevel _ => false
  | _ => true
  end.

(** All three steps of a level achieved. *)
Definition allAchieved : Page.Progress :=
  {| Page.dataPointsAchieved := true; Page.modelTrained := true; Page.aiStarted := true |}.

Definition noneAchieved : Page.Progress :=
  {| Page.dataPointsAchieved := false; Page.modelTrained := false; Page.aiStarted := false |}.

(** An engine holding [n] copies of a row, in the given level. *)
Definition withRows (n : nat) (level : Level) : t :=
  new playfield ▹ setLevel level ▹ set_dataset (replicate n (rowOf 1 0)).

(** * Properties *)

(** ** Binary64 rounding *)

Lemma pow2_pos e : (0 < JS.pow2 e)%Q.
Proof. unfold JS.pow2. apply Qpower_0_lt. reflexivity. Qed.

Lemma pow2_nonneg_exp e : (0 <= e)%Z -> (JS.pow2 e == inject_Z (2 ^ e))%Q.
Proof. intros H. unfold JS.pow2. rewrite (Zpower_Qpower 2 e H). reflexivity. Qed.

Lemma pow2_add a b : (JS.pow2 (a + b) == JS.pow2 a * JS.pow2 b)%Q.
Proof. unfold JS.pow2. apply Qpower_plus. discriminate. Qed.

Lemma pow2_sub a b : (JS.pow2 (a - b) == JS.pow2 a / JS.pow2 b)%Q.
Proof. unfold JS.pow2. apply Qpower_minus. discriminate. Qed.

Lemma pow2_le a b : (a <= b)%Z -> (JS.pow2 a <= JS.pow2 b)%Q.
Proof. intros H. unfold JS.pow2. apply Qpower_le_compat_l; [exact H|discriminate]. Qed.

Lemma pow2_lt_inv a b : (JS.pow2 a < JS.pow2 b)%Q -> (a < b)%Z.
Proof. intros H. unfold JS.pow2 in H. apply Qpower_lt_compat_l_inv in H; [exact H|reflexivity]. Qed.

Lemma ilog2_lower (a : Q) : (0 < a)%Q -> (JS.pow2 (JS.ilog2 a) <= a)%Q.
Proof.
  intros Ha. unfold JS.ilog2.
  destruct (Qle_bool _ a) eqn:E; [apply Qle_bool_iff; exact E|]. clear E.
  destruct a as [n d]. unfold Qlt in Ha. simpl in Ha. rewrite Z.mul_1_r in Ha.
  cbn [Qnum Qden].
  destruct (Z.log2_spec n Ha) as [Hn _].
  destruct (Z.log2_spec (Z.pos d) eq_refl) as [_ Hd]. rewrite <- Z.add_1_r in Hd.
  pose proof (Z.log2_nonneg n) as Hn0. pose proof (Z.log2_nonneg (Z.pos d)) as Hd0.
  set (ln := Z.log2 n) in *. set (ld := Z.log2 (Z.pos d)) in *. clearbody ln ld.
  replace (ln - ld - 1)%Z with (ln - (ld + 1))%Z by lia.
  rewrite pow2_sub, (pow2_nonneg_exp ln), (pow2_nonneg_exp (ld + 1)) by lia.
  assert (Hp : (0 < 2 ^ (ld + 1))%Z) by (apply Z.pow_pos_nonneg; lia).
  destruct (2 ^ (ld + 1))%Z as [|p|p] eqn:Ep; try lia.
  rewrite <- Qmake_Qdiv. unfold Qle. cbn [Qnum Qden]. nia.
Qed.

Lemma ilog2_upper (a : Q) : (0 < a)%Q -> (a < JS.pow2 (JS.ilog2 a + 1))%Q.
Proof.
  intros Ha. unfold JS.ilog2.
  destruct (Qle_bool _ a) eqn:E.
  - clear E. destruct a as [n d]. unfold Qlt in Ha. simpl in Ha. rewrite Z.mul_1_r in Ha.
    cbn [Qnum Qden].
    destruct (Z.log2_spec n Ha) as [_ Hn]. rewrite <- Z.add_1_r in Hn.
    destruct (Z.log2_spec (Z.pos d) eq_refl) as [Hd _].
    pose proof (Z.log2_nonneg n) as Hn0. pose proof (Z.log2_nonneg (Z.pos d)) as Hd0.
    set (ln := Z.log2 n) in *. set (ld := Z.log2 (Z.pos d)) in *. clearbody ln ld.
    replace (ln - ld + 1)%Z with (ln + 1 - ld)%Z by lia.
    rewrite pow2_sub, (pow2_nonneg_exp (ln + 1)), (pow2_nonneg_exp ld) by lia.
    assert (Hp : (0 < 2 ^ ld)%Z) by (apply Z.pow_pos_nonneg; lia).
    destruct (2 ^ ld)%Z as [|p|p] eqn:Ep; try lia.
    rewrite <- Qmake_Qdiv. unfold Qlt. cbn [Qnum Qden]. nia.
  - replace (Z.log2 (Qnum a) - Z.log2 (Z.pos (Qden a)) - 1 + 1)%Z
      with (Z.log2 (Qnum a) - Z.log2 (Z.pos (Qden a)))%Z by lia.
    apply Qnot_le_lt. intros Hc. apply Qle_bool_iff in Hc. congruence.
Qed.

Lemma nearestEven_close (x : Q) : (Qabs (inject_Z (JS.nearestEven x) - x) <= 1 # 2)%Q.
Proof.
  unfold JS.nearestEven.
  pose proof (Qfloor_le x) as Hlo. pose proof (Qlt_floor x) as Hhi.
  rewrite inject_Z_plus in Hhi. change (inject_Z 1) with 1%Q in Hhi.
  set (f := inject_Z (Qfloor x)) in *.
  apply Qabs_Qle_condition.
  destruct (JS.Qltb (x - f) (1 # 2)) eqn:E1.
  - unfold JS.Qltb in E1. apply negb_true_iff in E1.
    assert (H : (x - f < 1 # 2)%Q).
    { apply Qnot_le_lt. intros Hc. apply Qle_bool_iff in Hc. congruence. }
    fold f. split; lra.
  - unfold JS.Qltb in E1. apply negb_false_iff, Qle_bool_iff in E1.
    assert (Hup : (- (1 # 2) <= inject_Z (Qfloor x + 1) - x <= 1 # 2)%Q).
    { rewrite inject_Z_plus. change (inject_Z 1) with 1%Q. fold f. split; lra. }
    destruct (JS.Qltb (1 # 2) (x - f)) eqn:E2; [exact Hup|].
    destruct (Z.even (Qfloor x)); [|exact Hup].
    unfold JS.Qltb in E2. apply negb_false_iff, Qle_bool_iff in E2.
    fold f. split; lra.
Qed.

Lemma nearestEven_Z (x : Q) (z : Z) : (x == inject_Z z)%Q -> JS.nearestEven x = z.
Proof.
  intros H. unfold JS.nearestEven.
  assert (Hf : Qfloor x = z) by (rewrite H; apply Qfloor_Z).
  rewrite Hf.
  assert (Hlt : JS.Qltb (x - inject_Z z) (1 # 2) = true).
  { unfold JS.Qltb. apply negb_true_iff. destruct (Qle_bool _ _) eqn:E; [|reflexivity].
    apply Qle_bool_iff in E. lra. }
  rewrite Hlt. reflexivity.
Qed.

Lemma isInteger_eq (q : Q) (z : Z) : (q == inject_Z z)%Q -> JS.isInteger q = true.
Proof.
  intros H. unfold JS.isInteger. apply Qeq_bool_iff.
  assert (Hf : Qfloor q = z) by (rewrite H; apply Qfloor_Z).
  rewrite Hf. exact H.
Qed.


(** The significand of an integer is an integer; below [2^53] it is the
    integer itself. *)
Lemma significand_integer (n e : Z) :
  (0 < n)%Z ->
  exists z : Z,
    (inject_Z (JS.nearestEven (inject_Z n / JS.pow2 e)) * JS.pow2 e == inject_Z z)%Q
    /\ (0 < z \/ 0 <= e)%Z /\ ((e <= 0)%Z -> z = n).
Proof.
  intros Hn. destruct (Z.le_gt_cases e 0) as [He|He].
  - exists n.
    assert (Hinv : (JS.pow2 e * inject_Z (2 ^ (- e)) == 1)%Q).
    { rewrite <- (pow2_nonneg_exp (- e)) by lia. rewrite <- pow2_add.
      replace (e + - e)%Z with 0%Z by lia. reflexivity. }
    pose proof (pow2_pos e) as Hp.
    assert (Hq : (inject_Z n / JS.pow2 e == inject_Z (n * 2 ^ (- e)))%Q).
    { rewrite inject_Z_mult. unfold Qdiv.
      assert (Hi : (/ JS.pow2 e == inject_Z (2 ^ (- e)))%Q).
      { apply (Qmult_inj_l _ _ (JS.pow2 e)); [lra|].
        rewrite Qmult_inv_r by lra. symmetry. exact Hinv. }
      rewrite Hi. reflexivity. }
    rewrite (nearestEven_Z _ _ Hq). split; [|split; [left; exact Hn|reflexivity]].
    rewrite inject_Z_mult, <- Qmult_assoc, (Qmult_comm (inject_Z (2 ^ (- e)))), Hinv.
    ring.
  - exists (JS.nearestEven (inject_Z n / JS.pow2 e) * 2 ^ e)%Z.
    split; [|split; [right; lia|lia]].
    rewrite inject_Z_mult. apply Qmult_comp; [reflexivity|]. apply pow2_nonneg_exp. lia.
Qed.

Lemma ilog2_below (a : Q) (k : Z) : (0 < a)%Q -> (a < JS.pow2 k)%Q -> (JS.ilog2 a < k)%Z.
Proof.
  intros Ha Hk. apply pow2_lt_inv.
  eapply Qle_lt_trans; [apply ilog2_lower; exact Ha|exact Hk].
Qed.

Lemma ilog2_above (a : Q) (k : Z) : (0 < a)%Q -> (JS.pow2 k <= a)%Q -> (k <= JS.ilog2 a)%Z.
Proof.
  intros Ha Hk.
  assert (H : (k < JS.ilog2 a + 1)%Z); [|lia].
  apply pow2_lt_inv. eapply Qle_lt_trans; [exact Hk|apply ilog2_upper; exact Ha].
Qed.


(** The Number value of an integer is an integer or an infinity. *)
Lemma round64_integer (n : Z) :
  match JS.round64 (inject_Z n) with
  | JS.Fin q => JS.isInteger q = true
  | JS.NaN => False
  | _ => True
  end.
Proof.
  unfold JS.round64.
  destruct (Qeq_bool (inject_Z n) 0) eqn:E0; [reflexivity|].
  assert (Hn0 : n <> 0%Z) by (intros ->; discriminate E0).
  change (Qabs (inject_Z n)) with (inject_Z (Z.abs n)).
  set (e := Z.max (JS.ilog2 (inject_Z (Z.abs n)) - 52) (-1074)). clearbody e.
  destruct (significand_integer (Z.abs n) e) as (z & Hr & _); [lia|].
  destruct (Qle_bool (JS.pow2 1024) _); [destruct (JS.Qltb _ _); exact I|].
  destruct (JS.Qltb (inject_Z n) 0).
  - apply (isInteger_eq _ (- z)). rewrite Qred_correct, Hr, inject_Z_opp. reflexivity.
  - apply (isInteger_eq _ z). rewrite Qred_correct. exact Hr.
Qed.

(** A number in the normal range is rounded with a relative error of at
    most [2^-53], and keeps its sign. *)
Lemma round64_close (q : Q) :
  (JS.pow2 (-1022) <= Qabs q)%Q -> (Qabs q <= JS.pow2 1023)%Q ->
  exists q' : Q,
    JS.round64 q = JS.Fin q'
    /\ (Qabs (q' - q) <= Qabs q * JS.pow2 (-53))%Q
    /\ (0 <= q -> 0 <= q')%Q /\ (q <= 0 -> q' <= 0)%Q.
Proof.
  intros Hlo Hhi. unfold JS.round64.
  pose proof (pow2_pos (-1022)) as Hp.
  assert (Hpos : (0 < Qabs q)%Q) by lra.
  destruct (Qeq_bool q 0) eqn:E0.
  { apply Qeq_bool_iff in E0. rewrite E0 in Hpos. discriminate Hpos. }
  set (a := Qabs q) in *.
  assert (HL : (-1022 <= JS.ilog2 a)%Z) by (apply ilog2_above; assumption).
  rewrite Z.max_l by lia.
  set (e := (JS.ilog2 a - 52)%Z).
  pose proof (pow2_pos e) as Hpe.
  pose proof (nearestEven_close (a / JS.pow2 e)) as Hm.
  set (m := inject_Z (JS.nearestEven (a / JS.pow2 e))) in *.
  assert (Hulp : (JS.pow2 e == JS.pow2 (JS.ilog2 a) * JS.pow2 (-52))%Q).
  { unfold e. replace (JS.ilog2 a - 52)%Z with (JS.ilog2 a + -52)%Z by lia. apply pow2_add. }
  pose proof (ilog2_lower a Hpos) as Hlow.
  assert (H53 : (JS.pow2 (-53) == (1 # 2) * JS.pow2 (-52))%Q) by reflexivity.
  assert (H52 : (0 < JS.pow2 (-52))%Q) by apply pow2_pos.
  assert (Herr : (Qabs (m * JS.pow2 e - a) <= a * JS.pow2 (-53))%Q).
  { assert (Heq : (m * JS.pow2 e - a == (m - a / JS.pow2 e) * JS.pow2 e)%Q)
      by (field; lra).
    rewrite Heq, Qabs_Qmult, (Qabs_pos (JS.pow2 e)) by lra.
    apply Qle_trans with ((1 # 2) * JS.pow2 e)%Q.
    - apply Qmult_le_compat_r; [exact Hm|lra].
    - rewrite Hulp, H53.
      set (L := JS.pow2 (JS.ilog2 a)) in *. set (P := JS.pow2 (-52)) in *.
      clearbody L P. nra. }
  apply Qabs_Qle_condition in Herr. destruct Herr as [Hlo' Hhi'].
  assert (Hsmall : (JS.pow2 (-53) <= 1 # 2)%Q) by (apply Qle_bool_iff; reflexivity).
  assert (Hr0 : (0 <= m * JS.pow2 e)%Q).
  { assert (a * JS.pow2 (-53) <= a * (1 # 2))%Q by (apply Qmult_le_l; lra). lra. }
  destruct (Qle_bool (JS.pow2 1024) (m * JS.pow2 e)) eqn:Eo.
  { apply Qle_bool_iff in Eo.
    assert (H1024 : (JS.pow2 1024 == 2 * JS.pow2 1023)%Q) by reflexivity.
    assert (a * JS.pow2 (-53) <= a * (1 # 2))%Q by (apply Qmult_le_l; lra).
    lra. }
  eexists. split; [reflexivity|].
  rewrite Qred_correct.
  destruct (JS.Qltb q 0) eqn:En.
  - unfold JS.Qltb in En. apply negb_true_iff in En.
    assert (Hq : (q < 0)%Q).
    { apply Qnot_le_lt. intros Hc. apply Qle_bool_iff in Hc. congruence. }
    assert (Haq : (a == - q)%Q) by (unfold a; apply Qabs_neg; lra).
    split; [|split; [lra|lra]].
    apply Qabs_Qle_condition. split; lra.
  - unfold JS.Qltb in En. apply negb_false_iff, Qle_bool_iff in En.
    assert (Haq : (a == q)%Q) by (unfold a; apply Qabs_pos; exact En).
    split; [|split; [lra|lra]].
    apply Qabs_Qle_condition. split; lra.
Qed.


(** ** What the frame step leaves alone *)

Lemma keeps_refl e : keeps e e.
Proof. repeat split. Qed.

Lemma keeps_trans e1 e2 e3 : keeps e1 e2 -> keeps e2 e3 -> keeps e1 e3.
Proof. unfold keeps. intuition congruence. Qed.

Lemma endGame_keeps now e : keeps e (endGame now e).
Proof. unfold endGame, emit, schedule. repeat case_match; repeat split. Qed.

Lemma movePipes_keeps now todo : forall moved e e',
  movePipes now moved todo e = inl e' \/ movePipes now moved todo e = inr e' ->
  keeps e e'.
Proof.
  induction todo as [|pipe rest IH]; intros moved e e' H; simpl in H.
  - destruct H as [H|H]; [discriminate|]. injection H as <-. repeat split.
  - repeat case_match.
    + destruct H as [H|H]; [|discriminate]. injection H as <-.
      eapply keeps_trans; [|apply endGame_keeps]. repeat split.
    + apply IH in H. eapply keeps_trans; [|exact H]. repeat split.
    + apply IH in H. exact H.
Qed.

Lemma update_keeps sin now random e : keeps e (update sin now random e).
Proof.
  unfold update.
  destruct (isPaused e || negb (bool_decide (state e = Playing))); [apply keeps_refl|].
  match goal with |- context [match ?m with inl _ => _ | inr _ => _ end] =>
    assert (Hm : forall e', m = inl e' \/ m = inr e' -> keeps e e');
    [|destruct m as [e'|e'] eqn:E] end.
  - intros e' H. destruct (gameStarted e || isAI e).
    + apply movePipes_keeps in H. eapply keeps_trans; [|exact H].
      repeat case_match; repeat split.
    + destruct H as [H|H]; [discriminate|]. injection H as <-. repeat split.
  - apply Hm. left. reflexivity.
  - specialize (Hm e' (or_intror eq_refl)).
    eapply keeps_trans; [exact Hm|].
    repeat case_match; try (eapply keeps_trans; [|apply endGame_keeps]); repeat split.
Qed.

(** ** The model reference (C4) *)

Lemma dataCollectionTick_model e : model (dataCollectionTick e) = model e.
Proof.
  unfold dataCollectionTick, makeAIPrediction, pauseRecording, emit, schedule.
  repeat case_match; reflexivity.
Qed.

Lemma step_model sin h ev e :
  isTrainingResolved ev = false ->
  model (step sin h ev e) = model e \/ model (step sin h ev e) = None.
Proof.
  intros Hev. destruct ev; try discriminate; simpl.
  - left. unfold onKeyDown. repeat case_match; reflexivity.
  - left. unfold onKeyUp. repeat case_match; reflexivity.
  - left. unfold onClick. repeat case_match; reflexivity.
  - left. apply update_keeps.
  - left. apply dataCollectionTick_model.
  - left. unfold runTask, predictionThen. repeat case_match; reflexivity.
  - left. reflexivity.
  - right. reflexivity.
  - left. reflexivity.
  - left. reflexivity.
  - left. reflexivity.
  - left. reflexivity.
  - left. unfold downloadCSV. repeat case_match; reflexivity.
  - left. unfold uploadCSV. repeat case_match; reflexivity.
  - left. unfold trainModel. repeat case_match; reflexivity.
  - left. unfold startAI. repeat case_match; simpl; congruence.
  - left. unfold stopAI. case_match; [|reflexivity].
    destruct (endGame_keeps (now h) (set_isAI false e)) as [H' _]. exact H'.
  - right. reflexivity.
  - left. unfold pause. repeat case_match; reflexivity.
  - left. unfold resume. repeat case_match; reflexivity.
Qed.

Lemma run_model_None sin evs : forall e,
  Forall (fun he => isTrainingResolved (snd he) = false) evs ->
  model e = None -> model (run sin evs e) = None.
Proof.
  induction evs as [|[h ev] evs IH]; intros e Hevs Hm; [exact Hm|].
  inversion Hevs as [|? ? Hev Hrest]; subst. simpl in Hev.
  unfold run. simpl. apply IH; [exact Hrest|].
  destruct (step_model sin h ev e Hev) as [H|H]; congruence.
Qed.

(** C4, as stated, fails: [setLevel] leaves a trained model in place. *)
Lemma C4_setLevel_keeps_a_trained_model :
  ~ (forall level e, model (setLevel level e) = None).
Proof.
  intros H. specialize (H Overfitting trainedEngine). discriminate H.
Qed.

(** C4, amended: [restart] sets the model to null, and so does the level
    switch of the page, which calls [restart] after [setLevel]; [setLevel]
    alone does not touch the model.  Once null, the model stays null through
    every sequence of events in which no training run resolves. *)
Theorem C4_model_invalidated_by_restart sin (evs : list (Host * Event)) (level : Level) (e : t) :
  Forall (fun he => isTrainingResolved (snd he) = false) evs ->
  model (restart e) = None
  /\ model (switchLevel level e) = None
  /\ model (setLevel level e) = model e
  /\ model (run sin evs (restart e)) = None
  /\ model (run sin evs (switchLevel level e)) = None.
Proof.
  intros Hevs. repeat split; apply run_model_None; auto.
Qed.

Lemma C4_model_invalidated_by_restart_witness :
  model (restart trainedEngine) = None
  /\ model (switchLevel Underfitting trainedEngine) = None
  /\ model (setLevel Underfitting trainedEngine) = model trainedEngine
  /\ model (run flatSin [(hostAt 0, Click); (hostAt 16, AnimationFrame); (hostAt 100, IntervalTick)]
                (restart trainedEngine)) = None
  /\ model (run flatSin [(hostAt 0, Click); (hostAt 16, AnimationFrame); (hostAt 100, IntervalTick)]
                (switchLevel Underfitting trainedEngine)) = None.
Proof.
  apply (C4_model_invalidated_by_restart flatSin
           [(hostAt 0, Click); (hostAt 16, AnimationFrame); (hostAt 100, IntervalTick)]
           Underfitting trainedEngine).
  repeat constructor.
Defined.

(** ** Recording-time and inference-time features (C2) *)

(** With a next and a next-next pipe ahead, the two pipelines compute the
    same vector. *)
Lemma features_agree_with_two_pipes (e : t) :
  is_Some (getNextPipe 0 e) -> is_Some (getNextPipe 1 e) ->
  recordedFeatures e = getRawFeatures e.
Proof.
  intros [p Hp] [q Hq].
  unfold recordedFeatures, MLTrainer.features, getRawFeatures, getCurrentData.
  rewrite Hp, Hq. reflexivity.
Qed.

(** C2 at a state with one pipe ahead: the recorded row carries half the
    playfield height for the missing next-next pipe (0.5 after
    normalisation) where [getRawFeatures] uses the bird's own height
    (295.2 / 600). *)
Theorem C2_missing_pipe_defaults_differ :
  getNextPipe 1 afterFirstJump = None
  /\ recordedFeatures afterFirstJump !! 4%nat = Some (JS.Fin ((600 / 2) / 600))
  /\ getRawFeatures afterFirstJump !! 4%nat = Some (JS.Fin (295.2 / 600))
  /\ ~ sameFeatures (recordedFeatures afterFirstJump) (getRawFeatures afterFirstJump).
Proof.
  split; [vm_compute; reflexivity|].
  split; [vm_compute; reflexivity|].
  split; [vm_compute; reflexivity|].
  intros H.
  assert (Hs : JS.same (JS.Fin ((600 / 2) / 600)) (JS.Fin (295.2 / 600))).
  { eapply (Forall2_lookup_lr _ _ _ 4 _ _ H); vm_compute; reflexivity. }
  vm_compute in Hs. discriminate Hs.
Qed.

(** ** The gap centre of spawned pipes (C5) *)

Lemma startGame_overfitting_pinned random (e : t) :
  currentLevel e = Overfitting ->
  map Pipe.gapCenter (pipes (startGame random e)) = [fixedGapCenter e].
Proof.
  intros H. unfold startGame. simpl. rewrite H. reflexivity.
Qed.

Lemma startGame_follows_policy random (e : t) :
  isAI e = false \/ currentLevel e <> Overfitting ->
  map Pipe.gapCenter (pipes (startGame random e)) = [policyCenter e random].
Proof.
  intros H. unfold startGame, policyCenter. simpl.
  destruct (decide (currentLevel e = Overfitting)) as [Hl|Hl].
  - destruct H as [Hai|Hne]; [|contradiction].
    rewrite Hai, (bool_decide_eq_true_2 _ Hl). reflexivity.
  - rewrite (bool_decide_eq_false_2 _ Hl). reflexivity.
Qed.

Lemma endGame_pipes now e : pipes (endGame now e) = pipes e.
Proof. unfold endGame, emit, schedule. repeat case_match; reflexivity. Qed.

Lemma movePipes_centers now todo : forall moved e e',
  movePipes now moved todo e = inl e' \/ movePipes now moved todo e = inr e' ->
  map Pipe.gapCenter (pipes e') = map Pipe.gapCenter (moved ++ todo).
Proof.
  induction todo as [|pipe rest IH]; intros moved e e' H; simpl in H.
  - destruct H as [H|H]; [discriminate|]. injection H as <-.
    rewrite app_nil_r. reflexivity.
  - repeat case_match.
    + destruct H as [H|H]; [|discriminate]. injection H as <-.
      rewrite endGame_pipes. simpl. rewrite !map_app. reflexivity.
    + apply IH in H. rewrite H, <- app_assoc, !map_app. reflexivity.
    + apply IH in H. rewrite H, <- app_assoc, !map_app. reflexivity.
Qed.

(** Every pipe a frame leaves on the playfield was there before or has
    the gap centre of the policy: [update] spawns as C5 says. *)
Lemma update_follows_policy sin now random (e : t) :
  Forall (fun c => c ∈ map Pipe.gapCenter (pipes e) \/ c = policyCenter e random)
         (map Pipe.gapCenter (pipes (update sin now random e))).
Proof.
  assert (Hold : forall e', pipes e' = pipes e ->
            Forall (fun c => c ∈ map Pipe.gapCenter (pipes e) \/ c = policyCenter e random)
                   (map Pipe.gapCenter (pipes e'))).
  { intros e' ->. apply Forall_forall. intros c Hc. left. exact Hc. }
  unfold update.
  destruct (isPaused e || negb (bool_decide (state e = Playing))); [apply Hold; reflexivity|].
  destruct (gameStarted e || isAI e).
  2:{ repeat case_match; rewrite ?endGame_pipes; apply Hold; reflexivity. }
  match goal with |- context [match ?m with inl _ => _ | inr _ => _ end] =>
    assert (Hm : forall e', m = inl e' \/ m = inr e' ->
              Forall (fun c => c ∈ map Pipe.gapCenter (pipes e) \/ c = policyCenter e random)
                     (map Pipe.gapCenter (pipes e')));
    [|destruct m as [e'|e'] eqn:E] end.
  - intros e' H. apply movePipes_centers in H. rewrite H. cbn [app]. simpl.
    apply Forall_forall. intros c Hc.
    apply list_elem_of_fmap in Hc. destruct Hc as (p & -> & Hp).
    apply list_elem_of_filter in Hp. destruct Hp as [_ Hp].
    assert (Hleft : p ∈ pipes e ->
              Pipe.gapCenter p ∈ map Pipe.gapCenter (pipes e)
              \/ Pipe.gapCenter p = policyCenter e random).
    { intros Hin. left. apply list_elem_of_fmap. eexists. split; [reflexivity|exact Hin]. }
    destruct (Qle_bool (nextPipeDist e - pipeSpeed e) 0); simpl in Hp; [|apply Hleft, Hp].
    apply elem_of_app in Hp. destruct Hp as [Hp|Hp]; [apply Hleft, Hp|].
    apply list_elem_of_singleton in Hp. subst p. right. unfold policyCenter.
    destruct (decide (currentLevel e = Overfitting)) as [Hl|Hl].
    + rewrite (bool_decide_eq_true_2 _ Hl). destruct (isAI e); reflexivity.
    + rewrite (bool_decide_eq_false_2 _ Hl). reflexivity.
  - apply Hm. left. reflexivity.
  - specialize (Hm e' (or_intror eq_refl)).
    repeat case_match; rewrite ?endGame_pipes; exact Hm.
Qed.

(** C5 at a round the model starts in the overfitting level: the first
    pipe sits at the fixed gap centre, 300, whatever [Math.random()] would
    have returned, where a random spawn with the draw 1/4 is at 225. *)
Theorem C5_first_pipe_pinned_for_AI :
  isAI aiStartsOverfitting = true
  /\ currentLevel aiStartsOverfitting = Overfitting
  /\ map Pipe.gapCenter (pipes aiStartsOverfitting) = [fixedGapCenter aiStartsOverfitting]
  /\ Qeq (fixedGapCenter aiStartsOverfitting) 300
  /\ Qeq (Pipe.gapCenter (Pipe.new 600 400 None (1 # 4))) 225.
Proof.
  repeat split.
Qed.

(** ** The adaptive threshold (C7) *)

Lemma getRawFeatures_ext (e e' : t) :
  bird e' = bird e -> pipes e' = pipes e -> canvas e' = canvas e ->
  getRawFeatures e' = getRawFeatures e.
Proof.
  intros Hb Hp Hc. unfold getRawFeatures, getNextPipe. rewrite Hb, Hp, Hc. reflexivity.
Qed.

Lemma preprocessFeatures_ext raw (e e' : t) :
  featureStats e' = featureStats e -> preprocessFeatures raw e' = preprocessFeatures raw e.
Proof. intros H. unfold preprocessFeatures. rewrite H. reflexivity. Qed.

(** A tick with the AI on and a model present hands the features of the
    state it finds to the continuation, whether it records or not. *)
Lemma dataCollectionTick_predicts (e : t) :
  isPaused e = false -> state e = Playing -> isAI e = true -> is_Some (model e) ->
  tasks (dataCollectionTick e)
  = tasks e ++ [PredictionThen (preprocessFeatures (getRawFeatures e) e)].
Proof.
  intros Hpa Hst Hai Hm. unfold dataCollectionTick.
  rewrite Hpa, (bool_decide_eq_true_2 _ Hst). cbn [negb orb].
  match goal with |- tasks (if isAI ?x && _ then _ else _) = _ => set (e1 := x) end.
  assert (He1 : isAI e1 = isAI e /\ model e1 = model e /\ tasks e1 = tasks e
                /\ bird e1 = bird e /\ pipes e1 = pipes e /\ canvas e1 = canvas e
                /\ featureStats e1 = featureStats e).
  { subst e1. unfold pauseRecording, emit. repeat case_match; repeat split. }
  destruct He1 as (H1 & H2 & H3 & H4 & H5 & H6 & H7). clearbody e1.
  rewrite H1, H2, Hai, (bool_decide_eq_true_2 _ Hm). cbn [andb].
  unfold makeAIPrediction, schedule. simpl. rewrite H3. f_equal. f_equal. f_equal.
  rewrite (preprocessFeatures_ext _ e (set_aiPredictionCount (aiPredictionCount e1 + 1) e1))
    by exact H7.
  f_equal. apply getRawFeatures_ext; assumption.
Qed.

(** C7: the continuation of a prediction jumps exactly when the output
    exceeds 0.7 (fewer than 10 ticks since the last jump) or 0.5
    (otherwise); a jump sets the velocity to the jump strength and the
    counter to 0, no jump adds 1 to the counter and leaves the bird alone.
    An output of 0.6 jumps exactly when the counter is at least 10.  The
    tick hands the features it computed to that continuation. *)
Theorem C7_adaptive_threshold (e : t) (m : Model) (features : list JS.num) (p : Q) :
  model e = Some m ->
  m features = JS.Fin p ->
  let threshold := if (framesSinceLastJump e <? 10)%Z then 0.7%Q else 0.5%Q in
  let e' := predictionThen features e in
  ((threshold < p)%Q ->
     framesSinceLastJump e' = 0%Z /\ bird e' = Bird.set_vel_y (jumpStrength e) (bird e))
  /\ ((p <= threshold)%Q ->
     framesSinceLastJump e' = (framesSinceLastJump e + 1)%Z /\ bird e' = bird e)
  /\ (Qeq p 0.6 -> (framesSinceLastJump e < 10)%Z ->
     framesSinceLastJump e' = (framesSinceLastJump e + 1)%Z /\ bird e' = bird e)
  /\ (Qeq p 0.6 -> (10 <= framesSinceLastJump e)%Z ->
     framesSinceLastJump e' = 0%Z /\ bird e' = Bird.set_vel_y (jumpStrength e) (bird e))
  /\ (isPaused e = false -> state e = Playing -> isAI e = true ->
     tasks (dataCollectionTick e)
     = tasks e ++ [PredictionThen (preprocessFeatures (getRawFeatures e) e)]).
Proof.
  intros Hm Hp threshold e'.
  assert (Hjump : (threshold < p)%Q ->
    framesSinceLastJump e' = 0%Z /\ bird e' = Bird.set_vel_y (jumpStrength e) (bird e)).
  { intros Hlt. subst e' threshold. unfold predictionThen. rewrite Hm, Hp.
    unfold JS.gtb, JS.ltb, JS.Qltb.
    destruct (framesSinceLastJump e <? 10)%Z;
      (destruct (Qle_bool p _) eqn:E;
       [apply Qle_bool_iff in E; exfalso; revert E; apply Qlt_not_le; exact Hlt
       |simpl; split; reflexivity]). }
  assert (Hstay : (p <= threshold)%Q ->
    framesSinceLastJump e' = (framesSinceLastJump e + 1)%Z /\ bird e' = bird e).
  { intros Hle. subst e' threshold. unfold predictionThen. rewrite Hm, Hp.
    unfold JS.gtb, JS.ltb, JS.Qltb.
    destruct (framesSinceLastJump e <? 10)%Z;
      (destruct (Qle_bool p _) eqn:E;
       [simpl; split; reflexivity
       |exfalso; apply Qle_bool_iff in Hle; rewrite Hle in E; discriminate E]). }
  split; [exact Hjump|]. split; [exact Hstay|].
  split; [|split].
  - intros H6 Hlt. apply Hstay. subst threshold.
    apply Z.ltb_lt in Hlt. rewrite Hlt. rewrite H6. discriminate.
  - intros H6 Hge. apply Hjump. subst threshold.
    apply Z.ltb_ge in Hge. rewrite Hge. rewrite H6. reflexivity.
  - intros Hpa Hst Hai. apply dataCollectionTick_predicts; try assumption.
    rewrite Hm. eexists. reflexivity.
Qed.

Lemma C7_adaptive_threshold_witness :
  framesSinceLastJump (predictionThen [] trainedEngine) = 1%Z
  /\ bird (predictionThen [] trainedEngine) = bird trainedEngine
  /\ framesSinceLastJump (predictionThen [] (set_framesSinceLastJump 10 trainedEngine)) = 0%Z.
Proof.
  destruct (C7_adaptive_threshold trainedEngine (constantModel 0.6) [] 0.6 eq_refl eq_refl)
    as (_ & _ & Hlow & _).
  destruct (C7_adaptive_threshold (set_framesSinceLastJump 10 trainedEngine)
              (constantModel 0.6) [] 0.6 eq_refl eq_refl)
    as (_ & _ & _ & Hhigh & _).
  split; [apply Hlow; reflexivity|].
  split; [apply Hlow; reflexivity|].
  apply Hhigh; [reflexivity|discriminate].
Defined.

(** ** Stopping the AI (C10) *)

(** The game-over path restarts the round by itself only for the AI. *)
Lemma endGame_restart_timer now (e : t) :
  tasks (endGame now e) = if isAI e then tasks e ++ [RestartTimer 1000] else tasks e.
Proof. unfold endGame, emit, schedule. repeat case_match; simpl in *; congruence. Qed.

(** C10: [stopAI] in a playing round ends it as [endGame] does: the state
    is [Dead], the time of death is the clock reading, the high score is
    raised to the score when the score is higher, the AI flag is off and no
    task (so no restart timer) is added.  In any other state only the AI
    flag changes. *)
Theorem C10_stopAI_ends_the_round (now : Z) (e : t) :
  (state e = Playing ->
     stopAI now e = endGame now (set_isAI false e)
     /\ state (stopAI now e) = Dead
     /\ gameOverTime (stopAI now e) = now
     /\ highScore (stopAI now e) = Z.max (highScore e) (score e)
     /\ isAI (stopAI now e) = false
     /\ tasks (stopAI now e) = tasks e)
  /\ (state e <> Playing -> stopAI now e = set_isAI false e).
Proof.
  split.
  - intros Hs. unfold stopAI. simpl. rewrite Hs. simpl.
    split; [reflexivity|].
    unfold endGame, emit, schedule. simpl.
    destruct (highScore e <? score e)%Z eqn:E; simpl.
    + apply Z.ltb_lt in E. repeat split. lia.
    + apply Z.ltb_ge in E. repeat split. lia.
  - intros Hs. unfold stopAI. simpl.
    rewrite bool_decide_eq_false_2; [reflexivity|exact Hs].
Qed.

Lemma C10_stopAI_ends_the_round_witness :
  (stopAI 7000 aiStartsOverfitting = endGame 7000 (set_isAI false aiStartsOverfitting)
   /\ state (stopAI 7000 aiStartsOverfitting) = Dead
   /\ gameOverTime (stopAI 7000 aiStartsOverfitting) = 7000%Z
   /\ highScore (stopAI 7000 aiStartsOverfitting)
      = Z.max (highScore aiStartsOverfitting) (score aiStartsOverfitting)
   /\ isAI (stopAI 7000 aiStartsOverfitting) = false
   /\ tasks (stopAI 7000 aiStartsOverfitting) = tasks aiStartsOverfitting)
  /\ stopAI 7000 trainedEngine = set_isAI false trainedEngine.
Proof.
  split.
  - apply (C10_stopAI_ends_the_round 7000 aiStartsOverfitting). reflexivity.
  - apply (C10_stopAI_ends_the_round 7000 trainedEngine). discriminate.
Defined.

(** ** The underfitting cap (C6) *)

Lemma dataCollectionTick_level e : currentLevel (dataCollectionTick e) = currentLevel e.
Proof.
  unfold dataCollectionTick, makeAIPrediction, pauseRecording, emit, schedule.
  repeat case_match; reflexivity.
Qed.

(** Whether the tick in state [e] takes the branch that records. *)
Lemma dataCollectionTick_dataset e :
  dataset (dataCollectionTick e)
  = if negb (isPaused e) && bool_decide (state e = Playing) && isRecording e && gameStarted e
       && negb (bool_decide (currentLevel e = Underfitting) && (50 <=? length (dataset e))%nat)
    then match dataBuffer e with
         | Some buffer =>
             dataset e ++ [GameData.set_pressed (if jumpScheduled e then JS.Fin 1 else JS.Fin 0)
                                                buffer]
         | None => dataset e
         end
    else dataset e.
Proof.
  unfold dataCollectionTick, makeAIPrediction, pauseRecording, emit, schedule.
  destruct (isPaused e); [reflexivity|].
  destruct (bool_decide (state e = Playing)); [|reflexivity].
  destruct (isRecording e); [|cbn; case_match; reflexivity].
  destruct (gameStarted e); [|cbn; case_match; reflexivity].
  destruct (decide (currentLevel e = Underfitting)) as [Hl|Hl].
  - rewrite (bool_decide_eq_true_2 _ Hl).
    destruct (50 <=? length (dataset e))%nat; cbn -[Nat.leb length].
    + case_match; reflexivity.
    + destruct (dataBuffer e); cbn -[Nat.leb length]; case_match; reflexivity.
  - rewrite (bool_decide_eq_false_2 _ Hl).
    destruct (dataBuffer e); cbn -[Nat.leb length]; case_match; reflexivity.
Qed.

Lemma dataCollectionTick_capped e :
  currentLevel e = Underfitting ->
  length (dataset (dataCollectionTick e)) <= Nat.max 50 (length (dataset e)).
Proof.
  intros Hl. rewrite dataCollectionTick_dataset.
  rewrite (bool_decide_eq_true_2 _ Hl).
  destruct (50 <=? length (dataset e))%nat eqn:E.
  - rewrite !andb_false_r. lia.
  - apply Nat.leb_gt in E.
    repeat case_match; rewrite ?length_app; simpl; lia.
Qed.

Lemma step_dataset sin h ev e :
  match ev with IntervalTick | UploadCSV _ => False | _ => True end ->
  dataset (step sin h ev e) = dataset e \/ dataset (step sin h ev e) = [].
Proof.
  intros Hev. destruct ev; try contradiction; simpl;
    try (left; reflexivity); try (right; reflexivity).
  - left. unfold onKeyDown. repeat case_match; reflexivity.
  - left. unfold onKeyUp. repeat case_match; reflexivity.
  - left. unfold onClick. repeat case_match; reflexivity.
  - left. apply update_keeps.
  - left. unfold runTask, predictionThen. repeat case_match; reflexivity.
  - left. unfold downloadCSV. repeat case_match; reflexivity.
  - left. unfold trainModel. repeat case_match; reflexivity.
  - left. unfold startAI. repeat case_match; reflexivity.
  - left. unfold stopAI. case_match; [|reflexivity].
    destruct (endGame_keeps (now h) (set_isAI false e)) as (_ & _ & H' & _). exact H'.
  - left. unfold pause. repeat case_match; reflexivity.
  - left. unfold resume. repeat case_match; reflexivity.
Qed.

Lemma step_level sin h ev e :
  match ev with SetLevel _ | SwitchLevel _ => False | _ => True end ->
  currentLevel (step sin h ev e) = currentLevel e.
Proof.
  intros Hev. destruct ev; try contradiction; simpl; try reflexivity.
  - unfold onKeyDown. repeat case_match; reflexivity.
  - unfold onKeyUp. repeat case_match; reflexivity.
  - unfold onClick. repeat case_match; reflexivity.
  - apply update_keeps.
  - apply dataCollectionTick_level.
  - unfold runTask, predictionThen. repeat case_match; reflexivity.
  - unfold downloadCSV. repeat case_match; reflexivity.
  - unfold uploadCSV. repeat case_match; reflexivity.
  - unfold trainModel. repeat case_match; reflexivity.
  - unfold startAI. repeat case_match; reflexivity.
  - unfold stopAI. case_match; [|reflexivity].
    destruct (endGame_keeps (now h) (set_isAI false e)) as (_&_&_&_&_&_& H' & _). exact H'.
  - unfold pause. repeat case_match; reflexivity.
  - unfold resume. repeat case_match; reflexivity.
Qed.

Lemma step_capped sin h ev e :
  staysUnderfitting ev = true ->
  currentLevel e = Underfitting ->
  currentLevel (step sin h ev e) = Underfitting
  /\ length (dataset (step sin h ev e)) <= Nat.max 50 (length (dataset e)).
Proof.
  intros Hev Hl.
  destruct ev; try discriminate Hev;
    lazymatch goal with
    | |- context [step _ _ IntervalTick _] =>
        simpl; split;
        [rewrite dataCollectionTick_level; exact Hl | apply dataCollectionTick_capped; exact Hl]
    | |- context [step _ _ (SetLevel _) _] =>
        simpl in Hev; apply bool_decide_eq_true in Hev; subst level;
        split; [reflexivity|simpl; lia]
    | |- context [step _ _ (SwitchLevel _) _] =>
        simpl in Hev; apply bool_decide_eq_true in Hev; subst level;
        split; [reflexivity|simpl; lia]
    | |- context [step _ _ ?ev _] =>
        split;
        [ rewrite (step_level sin h ev e I); exact Hl
        | destruct (step_dataset sin h ev e I) as [H|H]; rewrite H; simpl; lia ]
    end.
Qed.

Lemma run_capped sin evs : forall e,
  Forall (fun he => staysUnderfitting (snd he) = true) evs ->
  currentLevel e = Underfitting ->
  currentLevel (run sin evs e) = Underfitting
  /\ length (dataset (run sin evs e)) <= Nat.max 50 (length (dataset e)).
Proof.
  induction evs as [|[h ev] evs IH]; intros e Hevs Hl.
  - split; [exact Hl|simpl; lia].
  - inversion Hevs as [|? ? Hev Hrest]; subst. simpl in Hev.
    destruct (step_capped sin h ev e Hev Hl) as [Hl1 Hd1].
    destruct (IH (step sin h ev e) Hrest Hl1) as [Hl2 Hd2].
    unfold run in *. simpl. split; [exact Hl2|lia].
Qed.

(** C6: in the underfitting level no sequence of ticks, frames, inputs and
    commands (file import and leaving the level apart) brings the dataset
    above 50 rows, or above the size it already had; and a recording tick
    that finds 50 rows or more pauses recording and appends nothing. *)
Theorem C6_underfitting_cap sin (evs : list (Host * Event)) (e : t) :
  currentLevel e = Underfitting ->
  Forall (fun he => staysUnderfitting (snd he) = true) evs ->
  length (dataset (run sin evs e)) <= Nat.max 50 (length (dataset e))
  /\ (length (dataset e) <= 50 -> length (dataset (run sin evs e)) <= 50)
  /\ (isPaused e = false -> state e = Playing -> isRecording e = true ->
      gameStarted e = true -> 50 <= length (dataset e) ->
      isRecording (dataCollectionTick e) = false
      /\ dataset (dataCollectionTick e) = dataset e).
Proof.
  intros Hl Hevs.
  destruct (run_capped sin evs e Hevs Hl) as [_ Hd].
  split; [exact Hd|]. split; [lia|].
  intros Hp Hs Hr Hg Hn. apply Nat.leb_le in Hn. split.
  - unfold dataCollectionTick.
    rewrite Hp, Hr, Hg, (bool_decide_eq_true_2 _ Hs), (decide_True _ _ Hl).
    cbn -[Nat.leb length]. rewrite Hn.
    unfold pauseRecording, makeAIPrediction, schedule. case_match; reflexivity.
  - rewrite dataCollectionTick_dataset, Hn, (bool_decide_eq_true_2 _ Hl).
    rewrite !andb_false_r. reflexivity.
Qed.

Lemma C6_underfitting_cap_witness :
  length (dataset (run flatSin [(hostAt 100, IntervalTick); (hostAt 110, ResumeRecording);
                                (hostAt 116, AnimationFrame); (hostAt 200, IntervalTick)] atCap))
  <= 50
  /\ isRecording (dataCollectionTick atCap) = false
  /\ dataset (dataCollectionTick atCap) = dataset atCap.
Proof.
  destruct (C6_underfitting_cap flatSin
              [(hostAt 100, IntervalTick); (hostAt 110, ResumeRecording);
               (hostAt 116, AnimationFrame); (hostAt 200, IntervalTick)] atCap)
    as (_ & Hrun & Htick).
  - reflexivity.
  - repeat constructor.
  - split.
    + apply Hrun. vm_compute. lia.
    + apply Htick; reflexivity.
Defined.

(** ** The label lag (C1) *)

Lemma endGame_state now e : state (endGame now e) = Dead.
Proof. unfold endGame, emit, schedule. repeat case_match; reflexivity. Qed.

Lemma movePipes_inl_dead now todo : forall moved e e',
  movePipes now moved todo e = inl e' -> state e' = Dead.
Proof.
  induction todo as [|pipe rest IH]; intros moved e e' H; simpl in H; [discriminate|].
  repeat case_match.
  - injection H as <-. apply endGame_state.
  - eapply IH, H.
  - eapply IH, H.
Qed.

Lemma movePipes_inr_input now todo : forall moved e e',
  movePipes now moved todo e = inr e' ->
  keys e' = keys e /\ prevSpace e' = prevSpace e /\ jumpScheduled e' = jumpScheduled e.
Proof.
  induction todo as [|pipe rest IH]; intros moved e e' H; simpl in H.
  - injection H as <-. repeat split.
  - repeat case_match; [discriminate| |]; apply IH in H; exact H.
Qed.

(** An input or a frame in a round that goes on leaves the dataset and the
    buffered row alone, and raises the jump flag exactly when it schedules
    a jump. *)
Lemma input_step sin h ev e :
  isInput ev = true -> state e = Playing -> state (step sin h ev e) = Playing ->
  dataset (step sin h ev e) = dataset e
  /\ dataBuffer (step sin h ev e) = dataBuffer e
  /\ jumpScheduled (step sin h ev e) = jumpScheduled e || schedulesJump ev e.
Proof.
  intros Hev Hs Hs'. unfold schedulesJump. rewrite (bool_decide_eq_true_2 _ Hs).
  destruct ev; try discriminate Hev; simpl in *.
  - unfold onKeyDown, canStart in *. rewrite !andb_false_r, orb_false_r.
    destruct (isPaused e); [repeat split|]. simpl in *.
    rewrite Hs in *. rewrite !bool_decide_eq_false_2 in * by discriminate.
    simpl in *. rewrite andb_false_r in *. repeat split.
  - unfold onKeyUp. rewrite !andb_false_r, orb_false_r.
    repeat case_match; repeat split.
  - unfold onClick, canStart in *. rewrite Hs in *.
    rewrite (bool_decide_eq_true_2 (Playing = Playing)) in * by reflexivity.
    rewrite !bool_decide_eq_false_2 in * by discriminate.
    destruct (isPaused e), (isAI e); simpl in *; rewrite ?orb_false_r, ?orb_true_r;
      repeat split.
  - unfold update in *. rewrite (bool_decide_eq_true_2 _ Hs) in *.
    destruct (isPaused e) eqn:Hp; simpl in *; [rewrite orb_false_r; repeat split|].
    match type of Hs' with context [match ?m with inl _ => _ | inr _ => _ end] =>
      assert (Hm : forall e', m = inr e' ->
                keeps e e' /\ keys e' = keys e /\ prevSpace e' = prevSpace e
                /\ jumpScheduled e' = jumpScheduled e);
      [|assert (Hd : forall e', m = inl e' -> state e' = Dead);
        [|destruct m as [e'|e'] eqn:E]] end.
    + intros e' H. destruct (gameStarted e || isAI e).
      * split.
        -- eapply keeps_trans; [|eapply movePipes_keeps; right; exact H].
           repeat case_match; repeat split.
        -- apply movePipes_inr_input in H. revert H.
           repeat case_match; simpl; intros Hin; exact Hin.
      * injection H as <-. repeat split.
    + intros e' H. destruct (gameStarted e || isAI e); [|discriminate].
      eapply movePipes_inl_dead, H.
    + rewrite (Hd e' eq_refl) in Hs'. discriminate.
    + destruct (Hm e' eq_refl) as (Hk & Hkeys & Hprev & Hjump).
      destruct Hk as (_ & _ & Hds & Hbuf & _ & Hai & _).
      clear Hm Hd E.
      rewrite <- Hkeys, <- Hprev, <- Hjump, <- Hai, <- Hds, <- Hbuf.
      rewrite andb_assoc.
      destruct (negb (isAI e') && default false (keys e' !! " ") && negb (prevSpace e'));
        simpl in *.
      * destruct (outOfBounds _); [rewrite endGame_state in Hs'; discriminate|].
        rewrite orb_true_r. repeat split.
      * destruct ((gameStarted e' || isAI e') && outOfBounds e');
          [rewrite endGame_state in Hs'; discriminate|].
        rewrite orb_false_r. repeat split.
Qed.

Lemma steady_now sin evs e : steady sin evs e = true -> state e = Playing.
Proof.
  destruct evs as [|[h ev] rest]; simpl; intros H;
    apply andb_prop in H; destruct H as [H _]; apply bool_decide_eq_true in H; exact H.
Qed.






(** C1 after a pause of the recording.  The first tick after
    [resumeRecording] is a recording tick, reached through a frame alone,
    and no jump was scheduled in the tick that just elapsed.  The claim
    asks for the row buffered at the tick before, labelled 0; the row the
    tick appends is the snapshot buffered four ticks earlier, before the
    pause (the bird at 300, where it was at 285.8 at the tick before), and
    its label is 1, from the click made during the pause:
    [resumeRecording] keeps the buffer that [startRecording] clears, and
    the ticks of the pause do not clear the jump flag. *)
Theorem C1_resumed_recording_labels_a_stale_row :
  recordingSession flatSin [afterResume] resumedRecording = true
  /\ jumped flatSin afterResume resumedRecording = false
  /\ laggedRows flatSin [afterResume] resumedRecording (Some (snapshotOf previousTick))
     = [GameData.set_pressed (JS.Fin 0) (snapshotOf previousTick)]
  /\ dataset resumedRecording = []
  /\ dataset (session flatSin [afterResume] resumedRecording)
     = [GameData.set_pressed (JS.Fin 1) (snapshotOf firstTick)]
  /\ (Bird.pos_y (bird firstTick) == 300)%Q
  /\ (Bird.pos_y (bird previousTick) == 2858 # 10)%Q
  /\ dataBuffer resumedRecording = Some (snapshotOf firstTick)
  /\ jumpScheduled resumedRecording = true.
Proof.
  split; [vm_compute; reflexivity|]. split; [vm_compute; reflexivity|].
  split; [vm_compute; reflexivity|]. split; [vm_compute; reflexivity|].
  split; [vm_compute; reflexivity|]. split; [vm_compute; reflexivity|].
  split; [vm_compute; reflexivity|]. split; vm_compute; reflexivity.
Qed.

(** ** CSV import (C8) *)

Lemma str_chars s : JS.str (JS.chars s) = s.
Proof. apply string_of_list_ascii_of_string. Qed.

Lemma chars_str cs : JS.chars (JS.str cs) = cs.
Proof. apply list_ascii_of_string_of_list_ascii. Qed.

Lemma chars_append s1 s2 : JS.chars (String.append s1 s2) = JS.chars s1 ++ JS.chars s2.
Proof. induction s1 as [|c s1 IH]; simpl; [reflexivity|]. unfold JS.chars in *. simpl. f_equal. exact IH. Qed.

Lemma splitChars_nonempty sep cs : JS.splitChars sep cs <> [].
Proof.
  destruct cs as [|c t]; simpl; [discriminate|].
  destruct (Ascii.eqb c sep); [discriminate|].
  destruct (JS.splitChars sep t); discriminate.
Qed.

(** Joining the pieces of a split with the separator gives the text
    back. *)
Lemma join_splitChars sep cs :
  JS.chars (JS.join (String sep EmptyString) (map JS.str (JS.splitChars sep cs))) = cs.
Proof.
  induction cs as [|c t IH]; [reflexivity|]. simpl.
  destruct (Ascii.eqb_spec c sep) as [->|Hne].
  - pose proof (splitChars_nonempty sep t) as Hn.
    destruct (JS.splitChars sep t) as [|h r] eqn:E; [contradiction|].
    change (map JS.str ([] :: h :: r)) with (JS.str [] :: map JS.str (h :: r)).
    cbn [JS.join map]. cbn [map] in IH. unfold JS.chars in *. simpl. f_equal. exact IH.
  - pose proof (splitChars_nonempty sep t) as Hn.
    destruct (JS.splitChars sep t) as [|h r] eqn:E; [contradiction|].
    cbn [map] in *. destruct r as [|h' r'].
    + cbn [JS.join map] in *. rewrite chars_str in *. f_equal. exact IH.
    + cbn [JS.join map] in *. rewrite chars_append in *. rewrite chars_str in *.
      simpl. f_equal. exact IH.
Qed.

Lemma join_split sep s : JS.join (String sep EmptyString) (JS.split sep s) = s.
Proof.
  rewrite <- (str_chars (JS.join _ _)). unfold JS.split.
  rewrite join_splitChars. apply str_chars.
Qed.

Lemma ofLine_None line :
  GameData.ofLine line = None <-> ~ wellFormed line.
Proof.
  unfold GameData.ofLine, wellFormed.
  destruct (String.eqb_spec (JS.trim line) "") as [Hb|Hb].
  - split; [|reflexivity]. intros _ [H _]. contradiction.
  - destruct (JS.split "," line) as [|v0 [|v1 [|v2 [|v3 [|v4 [|v5 [|v6 r]]]]]]]; simpl;
      split; intros H; try reflexivity; try discriminate H;
      try (intros [_ Hlen]; discriminate Hlen).
    exfalso. apply H. split; [exact Hb|reflexivity].
Qed.

Lemma ofLine_Some line v0 v1 v2 v3 v4 v5 :
  JS.trim line <> "" -> JS.split "," line = [v0; v1; v2; v3; v4; v5] ->
  GameData.ofLine line
  = Some {| GameData.pressed := JS.parseInt v0; GameData.y := JS.parseFloat v1;
            GameData.vel := JS.parseFloat v2; GameData.dist := JS.parseFloat v3;
            GameData.mid1 := JS.parseFloat v4; GameData.mid2 := JS.parseFloat v5 |}.
Proof.
  intros Hb Hs. unfold GameData.ofLine. rewrite Hs.
  destruct (String.eqb_spec (JS.trim line) ""); [contradiction|reflexivity].
Qed.

(** C8: an import whose first line is not the header is rejected and
    leaves the dataset as it was; otherwise the rows are read from the
    well-formed data lines, in order, the other lines being skipped; they
    are appended to the dataset and the import succeeds when there is at
    least one, and the import is rejected with the dataset unchanged when
    there is none. *)
Theorem C8_import (text : string) (e : t) :
  (headerLine text <> csvHeader ->
     snd (uploadCSV text e) = Rejected "Invalid CSV format"
     /\ dataset (fst (uploadCSV text e)) = dataset e)
  /\ (headerLine text = csvHeader -> GameData.ofLines (dataLines text) <> [] ->
     snd (uploadCSV text e) = Resolved
     /\ dataset (fst (uploadCSV text e)) = dataset e ++ GameData.ofLines (dataLines text))
  /\ (headerLine text = csvHeader -> GameData.ofLines (dataLines text) = [] ->
     snd (uploadCSV text e) = Rejected "No valid data found"
     /\ dataset (fst (uploadCSV text e)) = dataset e)
  /\ (forall lines line, GameData.ofLines (line :: lines)
        = match GameData.ofLine line with
          | Some row => row :: GameData.ofLines lines
          | None => GameData.ofLines lines
          end)
  /\ (forall line, GameData.ofLine line = None <-> ~ wellFormed line)
  /\ (forall line v0 v1 v2 v3 v4 v5,
        JS.trim line <> "" -> JS.split "," line = [v0; v1; v2; v3; v4; v5] ->
        GameData.ofLine line
        = Some {| GameData.pressed := JS.parseInt v0; GameData.y := JS.parseFloat v1;
                  GameData.vel := JS.parseFloat v2; GameData.dist := JS.parseFloat v3;
                  GameData.mid1 := JS.parseFloat v4; GameData.mid2 := JS.parseFloat v5 |}).
Proof.
  unfold headerLine, dataLines, uploadCSV.
  rewrite (join_split ","%char).
  destruct (String.eqb_spec (default "" (JS.split "010" text !! 0%nat)) csvHeader) as [Hh|Hh];
    cbn [negb].
  - split; [intros H; contradiction|].
    split; [|split].
    + intros _ Hne. destruct (GameData.ofLines _) as [|row rows]; [contradiction|].
      split; reflexivity.
    + intros _ Hnil. rewrite Hnil. split; reflexivity.
    + split; [|split].
      * intros lines line. unfold GameData.ofLines. simpl.
        destruct (GameData.ofLine line); reflexivity.
      * apply ofLine_None.
      * apply ofLine_Some.
  - split; [intros _; split; reflexivity|].
    split; [intros H; contradiction|].
    split; [intros H; contradiction|].
    split; [|split].
    + intros lines line. unfold GameData.ofLines. simpl.
      destruct (GameData.ofLine line); reflexivity.
    + apply ofLine_None.
    + apply ofLine_Some.
Qed.

Lemma C8_import_witness :
  (snd (uploadCSV mixedFile trainedEngine) = Resolved
   /\ dataset (fst (uploadCSV mixedFile trainedEngine))
      = dataset trainedEngine ++ GameData.ofLines (dataLines mixedFile))
  /\ length (GameData.ofLines (dataLines mixedFile)) = 2%nat
  /\ (snd (uploadCSV "y,pressed" atCap) = Rejected "Invalid CSV format"
      /\ dataset (fst (uploadCSV "y,pressed" atCap)) = dataset atCap)
  /\ (snd (uploadCSV csvHeader atCap) = Rejected "No valid data found"
      /\ dataset (fst (uploadCSV csvHeader atCap)) = dataset atCap).
Proof.
  split; [|split; [|split]].
  - apply (C8_import mixedFile trainedEngine); [reflexivity|]. vm_compute. discriminate.
  - vm_compute. reflexivity.
  - apply (C8_import "y,pressed" atCap). vm_compute. discriminate.
  - apply (C8_import csvHeader atCap); reflexivity.
Defined.

(** ** Class balancing (C3) *)

Lemma Qltb_inject q1 q2 a b :
  q1 == inject_Z a -> q2 == inject_Z b -> JS.Qltb q1 q2 = (a <? b)%Z.
Proof.
  intros H1 H2. unfold JS.Qltb.
  destruct (Qle_bool q2 q1) eqn:E; simpl; symmetry.
  - apply Qle_bool_iff in E. rewrite H1, H2, <- Zle_Qle in E. apply Z.ltb_ge. exact E.
  - apply Z.ltb_lt. destruct (Z.lt_ge_cases a b) as [Hlt|Hge]; [exact Hlt|].
    exfalso. assert (Hq : (q2 <= q1)%Q) by (rewrite H1, H2, <- Zle_Qle; exact Hge).
    apply Qle_bool_iff in Hq. congruence.
Qed.

Lemma index_inject q (n : nat) :
  q == inject_Z (Z.of_nat n) -> MLTrainer.index (JS.Fin q) = Some n.
Proof.
  intros H. unfold MLTrainer.index, JS.isInteger.
  assert (Hf : Qfloor q = Z.of_nat n) by (rewrite H; apply Qfloor_Z).
  rewrite Hf.
  assert (H1 : Qeq_bool q (inject_Z (Z.of_nat n)) = true) by (apply Qeq_bool_iff; exact H).
  assert (H2 : Qle_bool 0 q = true).
  { apply Qle_bool_iff. rewrite H. change 0%Q with (inject_Z 0). rewrite <- Zle_Qle. lia. }
  rewrite H1, H2. simpl. rewrite Nat2Z.id. reflexivity.
Qed.

Lemma Qfloor_div_inject (a b : Z) :
  (0 < b)%Z -> Qfloor (inject_Z a / inject_Z b) = (a / b)%Z.
Proof.
  intros Hb. destruct b as [|p|p]; try lia.
  unfold Qdiv, Qinv, inject_Z, Qmult, Qfloor. simpl.
  rewrite Z.mul_1_r. reflexivity.
Qed.

Lemma strideFrom_lookup {A} (l : list A) step : forall n i k,
  k < n -> i + k * step < length l ->
  strideFrom n step i l !! k = l !! (i + k * step).
Proof.
  induction n as [|n IH]; intros i k Hk Hi; [lia|]. simpl.
  destruct (l !! i) as [a|] eqn:E.
  - destruct k as [|k]; simpl.
    + rewrite Nat.add_0_r. symmetry. exact E.
    + rewrite IH by lia. f_equal. lia.
  - apply lookup_ge_None in E. lia.
Qed.

Lemma ltb_inject q a b : q == inject_Z a -> JS.ltb (JS.Fin q) (JS.ofZ b) = (a <? b)%Z.
Proof. intros H. apply Qltb_inject; [exact H|reflexivity]. Qed.

Lemma ltb_ofZ a b : JS.ltb (JS.ofZ a) (JS.ofZ b) = (a <? b)%Z.
Proof. apply ltb_inject. reflexivity. Qed.

Lemma sampleSizeOf_min (n0 n1 : nat) :
  0 < n1 -> sampleSizeOf n0 n1 = Z.min (2 * Z.of_nat n1) (Z.of_nat n0).
Proof.
  intros Hn1. unfold sampleSizeOf.
  set (a := inject_Z (Z.of_nat n0)). set (b := inject_Z (Z.of_nat n1)).
  assert (Hb : (0 < b)%Q).
  { subst b. change 0%Q with (inject_Z 0). rewrite <- Zlt_Qlt. lia. }
  assert (Hb0 : ~ b == 0) by (intros Hz; rewrite Hz in Hb; apply (Qlt_irrefl 0 Hb)).
  assert (Hmul : b * (a / b) == a) by (apply Qmult_div_r; exact Hb0).
  destruct (Q.min_spec 2 (a / b)) as [[Hlt Hmin]|[Hle Hmin]]; rewrite Hmin.
  - assert (Hq : (b * 2 < a)%Q).
    { rewrite <- Hmul. apply Qmult_lt_l; assumption. }
    subst a b. change 2%Q with (inject_Z 2) in *.
    rewrite <- inject_Z_mult in *. rewrite <- Zlt_Qlt in Hq. rewrite Qfloor_Z. lia.
  - assert (Hq : (a <= b * 2)%Q).
    { rewrite <- Hmul. apply Qmult_le_l; assumption. }
    rewrite Hmul. subst a b. change 2%Q with (inject_Z 2) in *.
    rewrite <- inject_Z_mult in *. rewrite <- Zle_Qle in Hq. rewrite Qfloor_Z. lia.
Qed.

(** C3 at 30 rows without a jump and 22 with one: the claim's count is
    [floor(22 * min(2, 30 / 22)) = 30], every negative row; the binary64
    product [22 * (30 / 22)] is below 30, so the code keeps 29, the rows 0
    to 28.  At 1 and 49 the product [49 * (1 / 49)] is below 1: the code
    keeps no negative row where the claim's count is 1. *)
Theorem C3_rounding_drops_a_negative_row :
  length (negatives (classes 30 22)) = 30 /\ length (positives (classes 30 22)) = 22
  /\ sampleSizeOf 30 22 = 30%Z
  /\ (exists product : Q,
        JS.fl (JS.mul (JS.Fin 22) (JS.fl (JS.div (JS.Fin 30) (JS.Fin 22)))) = JS.Fin product
        /\ (product < 30)%Q)
  /\ (exists b,
        MLTrainer.prepare 30 (classes 30 22) 600 400 "underfitting" None = Some (inr b)
        /\ map GameData.y (MLTrainer.sampledClass0 b) = map JS.ofZ (map Z.of_nat (seq 0 29))
        /\ length (MLTrainer.class1 b) = 22)
  /\ sampleSizeOf 1 49 = 1%Z
  /\ (exists b,
        MLTrainer.prepare 1 (classes 1 49) 600 400 "underfitting" None = Some (inr b)
        /\ MLTrainer.sampledClass0 b = []
        /\ length (MLTrainer.class1 b) = 49).
Proof.
  split; [reflexivity|]. split; [reflexivity|]. split; [reflexivity|].
  split; [eexists; split; [vm_compute; reflexivity|reflexivity]|].
  split; [eexists; split; [vm_compute; reflexivity|split; reflexivity]|].
  split; [reflexivity|].
  eexists. split; [vm_compute; reflexivity|split; reflexivity].
Qed.

(** ** The export and import round trip (C9) *)

(** *** Digits *)





(** *** Scanning *)








(** *** Padding and the two decimals *)






Lemma absQ_nonneg (q : Q) : (0 <= absQ q)%Q.
Proof.
  unfold absQ, JS.Qltb. destruct (Qle_bool 0 q) eqn:E; simpl.
  - apply Qle_bool_iff. exact E.
  - assert (H : (q < 0)%Q).
    { apply Qnot_le_lt. intros H. apply Qle_bool_iff in H. congruence. }
    apply Qlt_le_weak in H. apply Qopp_le_compat in H. exact H.
Qed.



(** *** Splitting what was joined *)









(** *** One row, then the file *)

Lemma same_refl x : JS.same x x.
Proof. destruct x; simpl; [apply Qeq_refl|exact I|exact I|exact I]. Qed.







(** *** The labels of reachable datasets *)

Lemma isInteger_inject (z : Z) : JS.isInteger (inject_Z z) = true.
Proof. unfold JS.isInteger. rewrite Qfloor_Z. apply Qeq_bool_iff. reflexivity. Qed.

Lemma parseInt_isLabel s : isLabel (JS.parseInt s) = true.
Proof.
  assert (Hint : forall n, isLabel (JS.round64 (inject_Z n)) = true).
  { intros n. pose proof (round64_integer n) as H.
    destruct (JS.round64 (inject_Z n)); [exact H|contradiction|reflexivity|reflexivity]. }
  unfold JS.parseInt. repeat case_match; try reflexivity; apply Hint.
Qed.

Lemma ofLines_labels lines :
  Forall (fun r => isLabel (GameData.pressed r) = true) (GameData.ofLines lines).
Proof.
  induction lines as [|line lines IH]; [constructor|].
  unfold GameData.ofLines in *. cbn [omap list_omap].
  destruct (GameData.ofLine line) as [r|] eqn:E; [|exact IH].
  constructor; [|exact IH].
  unfold GameData.ofLine in E. repeat case_match; try discriminate E.
  injection E as <-. apply parseInt_isLabel.
Qed.

(** Whatever happens to the engine at one event, the labels it holds stay
    integers, [NaN] or an infinity. *)
Lemma step_labels sin h ev (e : t) :
  Forall (fun r => isLabel (GameData.pressed r) = true) (dataset e) ->
  Forall (fun r => isLabel (GameData.pressed r) = true) (dataset (step sin h ev e)).
Proof.
  intros H.
  assert (Hev : match ev with IntervalTick | UploadCSV _ => False | _ => True end
                \/ ev = IntervalTick \/ exists text, ev = UploadCSV text).
  { destruct ev; try (left; exact I); [right; left; reflexivity|right; right; eexists; reflexivity]. }
  destruct Hev as [Hev|[->|[text ->]]].
  - destruct (step_dataset sin h ev e Hev) as [Hd|Hd]; rewrite Hd; [exact H|constructor].
  - simpl. rewrite dataCollectionTick_dataset.
    repeat case_match; try exact H; apply Forall_app; split; try exact H;
      repeat constructor.
  - simpl. unfold uploadCSV. repeat case_match; simpl; try exact H.
    apply Forall_app. split; [exact H|apply ofLines_labels].
Qed.

(** [round2] is a rounding to two decimals: a multiple of one hundredth at
    most half a hundredth away. *)
Lemma round2_close (q : Q) : (Qabs (round2 q - q) <= 1 # 200)%Q.
Proof.
  unfold round2, JS.nearestHundredth.
  pose proof (absQ_nonneg q) as Ha.
  pose proof (Qfloor_le (absQ q * 100 + (1 # 2))) as Hlo.
  pose proof (Qlt_floor (absQ q * 100 + (1 # 2))) as Hhi.
  rewrite inject_Z_plus in Hhi.
  set (n := Qfloor (absQ q * 100 + (1 # 2))) in *.
  apply Qabs_Qle_condition.
  unfold absQ, JS.Qltb in *. destruct (Qle_bool 0 q) eqn:E; cbn [negb] in *.
  - rewrite (Qmake_Qdiv n 100). unfold Qdiv.
    change (/ inject_Z (Z.pos 100))%Q with (1 # 100)%Q.
    change (inject_Z 1) with 1%Q in Hhi. clearbody n.
    set (x := inject_Z n) in *. clearbody x. split; lra.
  - rewrite (Qmake_Qdiv (- n) 100), inject_Z_opp. unfold Qdiv.
    change (/ inject_Z (Z.pos 100))%Q with (1 # 100)%Q.
    change (inject_Z 1) with 1%Q in Hhi. clearbody n.
    set (x := inject_Z n) in *. clearbody x. split; lra.
Qed.




(** * Further properties of the engine, the trainer and the page *)

(** ** The next pipe *)

Lemma insertByX_perm p l : insertByX p l ≡ₚ p :: l.
Proof.
  induction l as [|q r IH]; simpl; [reflexivity|].
  destruct (JS.Qltb (Pipe.x q) (Pipe.x p)); [|reflexivity].
  rewrite IH. apply Permutation_swap.
Qed.

Lemma sortByX_perm l : sortByX l ≡ₚ l.
Proof.
  induction l as [|p l IH]; simpl; [reflexivity|].
  rewrite insertByX_perm, IH. reflexivity.
Qed.

Lemma Qltb_false a b : JS.Qltb a b = false -> (b <= a)%Q.
Proof.
  unfold JS.Qltb. intros H. apply negb_false_iff in H. apply Qle_bool_iff. exact H.
Qed.

Lemma Qltb_true a b : JS.Qltb a b = true -> (a < b)%Q.
Proof.
  unfold JS.Qltb. intros H. apply negb_true_iff in H. apply Qnot_le_lt.
  intros Hle. apply Qle_bool_iff in Hle. congruence.
Qed.

Lemma insertByX_sorted p l :
  StronglySorted (fun a b => (Pipe.x a <= Pipe.x b)%Q) l ->
  StronglySorted (fun a b => (Pipe.x a <= Pipe.x b)%Q) (insertByX p l).
Proof.
  induction 1 as [|q r Hr IH Hq]; simpl; [repeat constructor|].
  destruct (JS.Qltb (Pipe.x q) (Pipe.x p)) eqn:E.
  - constructor; [exact IH|].
    rewrite insertByX_perm. constructor; [|exact Hq].
    apply Qlt_le_weak, Qltb_true, E.
  - apply Qltb_false in E. constructor; [constructor; assumption|].
    constructor; [exact E|].
    eapply Forall_impl; [exact Hq|]. intros a Ha. simpl in Ha.
    eapply Qle_trans; eassumption.
Qed.

Lemma sortByX_sorted l : StronglySorted (fun a b => (Pipe.x a <= Pipe.x b)%Q) (sortByX l).
Proof.
  induction l as [|p l IH]; simpl; [constructor|]. apply insertByX_sorted, IH.
Qed.

(** The pipe [getNextPipe] returns is on the playfield, not yet behind the
    bird, and no such pipe is nearer; the one after it, when there is one,
    is also on the playfield and not behind the bird, and is not nearer
    than the first. *)
Theorem getNextPipe_nearest (e : t) (p : Pipe.t) :
  getNextPipe 0 e = Some p ->
  p ∈ pipes e /\ ahead e p = true
  /\ (forall q, q ∈ pipes e -> ahead e q = true -> (Pipe.x p <= Pipe.x q)%Q)
  /\ (forall p2, getNextPipe 1 e = Some p2 ->
        p2 ∈ pipes e /\ ahead e p2 = true /\ (Pipe.x p <= Pipe.x p2)%Q).
Proof.
  set (upcoming := filter (fun pipe => ahead e pipe = true) (pipes e)).
  assert (Hk : forall k, getNextPipe k e = sortByX upcoming !! k) by reflexivity.
  rewrite Hk. intros H0.
  assert (Hin : forall q, q ∈ sortByX upcoming <-> q ∈ pipes e /\ ahead e q = true).
  { intros q. rewrite sortByX_perm. subst upcoming. rewrite list_elem_of_filter. tauto. }
  pose proof (sortByX_sorted upcoming) as Hs.
  destruct (sortByX upcoming) as [|p0 rest] eqn:E; [inversion H0|].
  injection H0 as ->. inversion Hs as [|? ? Hrest Hall]; subst.
  rewrite Forall_forall in Hall.
  assert (Hp : p ∈ pipes e /\ ahead e p = true) by (apply Hin; left).
  split; [apply Hp|]. split; [apply Hp|]. split.
  - intros q Hq Ha. assert (Hq' : q ∈ p :: rest) by (apply Hin; split; assumption).
    apply elem_of_cons in Hq'. destruct Hq' as [->|Hq']; [apply Qle_refl|apply Hall, Hq'].
  - intros p2 H1. rewrite Hk in H1. simpl in H1.
    assert (Hp2 : p2 ∈ rest) by (eapply list_elem_of_lookup_2; exact H1).
    assert (Hp2' : p2 ∈ pipes e /\ ahead e p2 = true) by (apply Hin; right; exact Hp2).
    split; [apply Hp2'|]. split; [apply Hp2'|apply Hall, Hp2].
Qed.

Lemma getNextPipe_nearest_witness :
  exists p p2,
    getNextPipe 0 twoPipes = Some p /\ getNextPipe 1 twoPipes = Some p2
    /\ Pipe.x p = 150%Q /\ (Pipe.x p <= Pipe.x p2)%Q.
Proof.
  eexists. eexists. split; [reflexivity|]. split; [reflexivity|]. split; [reflexivity|].
  destruct (getNextPipe_nearest twoPipes (Pipe.new 600 150 None (1 # 4)) eq_refl)
    as (_ & _ & _ & H).
  apply (H (Pipe.new 600 400 None (1 # 2)) eq_refl).
Defined.

(** ** The frame step, stage by stage *)

Lemma update_stages sin now random (e : t) :
  update sin now random e
  = if isPaused e || negb (bool_decide (state e = Playing)) then e
    else match (if gameStarted e || isAI e
                then movePipes now [] (onScreen (pipes (physics random e))) (physics random e)
                else inr (hover sin e)) with
         | inl ended => ended
         | inr e4 => checkBounds now (handleInput e4)
         end.
Proof. reflexivity. Qed.

Lemma endGame_fields now (e : t) :
  bird (endGame now e) = bird e /\ score (endGame now e) = score e
  /\ highScore (endGame now e) = Z.max (highScore e) (score e)
  /\ prevSpace (endGame now e) = prevSpace e /\ gameStarted (endGame now e) = gameStarted e
  /\ canvas (endGame now e) = canvas e.
Proof.
  unfold endGame, emit, schedule. simpl.
  destruct (highScore e <? score e)%Z eqn:E;
    [apply Z.ltb_lt in E|apply Z.ltb_ge in E];
    repeat case_match; simpl; repeat split; lia.
Qed.

Lemma movePipes_bird now todo : forall moved e e',
  movePipes now moved todo e = inl e' \/ movePipes now moved todo e = inr e' ->
  bird e' = bird e /\ canvas e' = canvas e.
Proof.
  induction todo as [|pipe rest IH]; intros moved e e' H; simpl in H.
  - destruct H as [H|H]; [discriminate|]. injection H as <-. split; reflexivity.
  - repeat case_match.
    + destruct H as [H|H]; [|discriminate]. injection H as <-.
      destruct (endGame_fields now (set_pipes (moved ++ Pipe.set_x (Pipe.x pipe - pipeSpeed e) pipe :: rest) e))
        as (Hb & _ & _ & _ & _ & Hc).
      rewrite Hb, Hc. split; reflexivity.
    + apply IH in H. exact H.
    + apply IH in H. exact H.
Qed.

Lemma movePipes_inr_clear now todo : forall moved e e',
  movePipes now moved todo e = inr e' ->
  Forall (fun p => collides (bird e) p = false) moved ->
  Forall (fun p => collides (bird e) p = false) (pipes e')
  /\ state e' = state e /\ gameStarted e' = gameStarted e /\ isAI e' = isAI e.
Proof.
  induction todo as [|pipe rest IH]; intros moved e e' H Hm; simpl in H.
  - injection H as <-. split; [exact Hm|repeat split].
  - destruct (collides (bird e) (Pipe.set_x (Pipe.x pipe - pipeSpeed e) pipe)) eqn:Ec;
      [discriminate|].
    case_match; apply IH in H; try exact H;
      apply Forall_app; (split; [exact Hm|]); constructor; try constructor; exact Ec.
Qed.

(** A frame of a started round that leaves the round on leaves the bird
    inside the playfield and clear of every pipe. *)
Theorem frame_leaves_bird_clear sin now random (e : t) :
  isPaused e = false -> state e = Playing -> gameStarted e || isAI e = true ->
  state (update sin now random e) = Playing ->
  outOfBounds (update sin now random e) = false
  /\ Forall (fun p => collides (bird (update sin now random e)) p = false)
            (pipes (update sin now random e)).
Proof.
  intros Hp Hs Hst. rewrite update_stages, Hp, (bool_decide_eq_true_2 _ Hs), Hst.
  cbn [negb orb].
  destruct (movePipes now [] (onScreen (pipes (physics random e))) (physics random e))
    as [ended|e4] eqn:E.
  - intros Hd. apply movePipes_inl_dead in E. congruence.
  - destruct (movePipes_inr_clear _ _ _ _ _ E (Forall_nil_2 _)) as (Hclear & _ & Hg & Hai).
    destruct (movePipes_bird now _ [] _ e4 (or_intror E)) as [Hb _].
    assert (Hstarted : gameStarted (handleInput e4) || isAI (handleInput e4) = true).
    { assert (Hphys : gameStarted (physics random e) = gameStarted e
                      /\ isAI (physics random e) = isAI e)
        by (unfold physics; repeat case_match; split; reflexivity).
      destruct Hphys as [Hg' Hai'].
      unfold handleInput. case_match; simpl; [reflexivity|].
      rewrite Hg, Hai, Hg', Hai'. exact Hst. }
    assert (Hsame : collides (bird (handleInput e4)) = collides (bird (physics random e))
                    /\ pipes (handleInput e4) = pipes e4).
    { rewrite <- Hb. unfold handleInput. case_match; split; reflexivity. }
    destruct Hsame as [Hcol Hpipes].
    unfold checkBounds. rewrite Hstarted. cbn [andb].
    destruct (outOfBounds (handleInput e4)) eqn:Eo.
    + intros Hd. rewrite endGame_state in Hd. discriminate.
    + intros _. split; [exact Eo|]. rewrite Hcol, Hpipes. exact Hclear.
Qed.

Lemma frame_leaves_bird_clear_witness :
  outOfBounds (update flatSin 550 (1 # 2) afterFirstJump) = false
  /\ Forall (fun p => collides (bird (update flatSin 550 (1 # 2) afterFirstJump)) p = false)
            (pipes (update flatSin 550 (1 # 2) afterFirstJump)).
Proof.
  apply (frame_leaves_bird_clear flatSin 550 (1 # 2) afterFirstJump); reflexivity.
Defined.

(** ** The global pause *)

(** While the engine is paused, keys, clicks, frames and ticks change
    nothing and a second [pause] is ignored; [resume] after the [pause] of
    a running engine (one that holds no saved state) gives back the engine
    that was paused. *)
Theorem pause_freezes sin h (ev : Event) (e : t) :
  (isPaused e = true -> isInput ev = true \/ ev = IntervalTick ->
     step sin h ev e = e /\ pause e = e)
  /\ (isPaused e = false -> pausedState e = None ->
     isPaused (pause e) = true /\ resume (pause e) = e).
Proof.
  split.
  - intros Hp Hev. split; [|unfold pause; rewrite Hp; reflexivity].
    destruct Hev as [Hev| ->].
    + destruct ev; try discriminate Hev; simpl.
      * unfold onKeyDown. rewrite Hp. reflexivity.
      * unfold onKeyUp. rewrite Hp. reflexivity.
      * unfold onClick. rewrite Hp. reflexivity.
      * unfold update. rewrite Hp. reflexivity.
    + simpl. unfold dataCollectionTick. rewrite Hp. reflexivity.
  - intros Hp Hn. unfold pause. rewrite Hp. split; [reflexivity|].
    unfold resume. simpl. destruct e. simpl in *. subst. reflexivity.
Qed.

Lemma pause_freezes_witness :
  (step flatSin (hostAt 900) AnimationFrame (pause afterFirstJump) = pause afterFirstJump
   /\ pause (pause afterFirstJump) = pause afterFirstJump)
  /\ (isPaused (pause afterFirstJump) = true /\ resume (pause afterFirstJump) = afterFirstJump).
Proof.
  split.
  - apply (pause_freezes flatSin (hostAt 900) AnimationFrame (pause afterFirstJump));
      [reflexivity|left; reflexivity].
  - apply (pause_freezes flatSin (hostAt 900) AnimationFrame afterFirstJump); reflexivity.
Defined.

(** ** Score and high score *)

Lemma unpassed_app l1 l2 : unpassed (l1 ++ l2) = (unpassed l1 + unpassed l2)%Z.
Proof. unfold unpassed. rewrite filter_app, length_app. lia. Qed.

Lemma unpassed_cons p l :
  unpassed (p :: l) = ((if Pipe.passed p then 0 else 1) + unpassed l)%Z.
Proof.
  unfold unpassed. rewrite filter_cons.
  destruct (decide (Pipe.passed p = false)) as [H|H]; destruct (Pipe.passed p);
    try congruence; simpl length; lia.
Qed.

Lemma movePipes_scores now todo : forall moved e e',
  movePipes now moved todo e = inl e' \/ movePipes now moved todo e = inr e' ->
  (highScore e <= highScore e')%Z /\ (score e <= score e')%Z
  /\ (score e' + unpassed (pipes e') = score e + unpassed (moved ++ todo))%Z.
Proof.
  induction todo as [|pipe rest IH]; intros moved e e' H; simpl in H.
  - destruct H as [H|H]; [discriminate|]. injection H as <-.
    rewrite app_nil_r. simpl. lia.
  - destruct (collides (bird e) (Pipe.set_x (Pipe.x pipe - pipeSpeed e) pipe)).
    + destruct H as [H|H]; [|discriminate]. injection H as <-.
      destruct (endGame_fields now
                  (set_pipes (moved ++ Pipe.set_x (Pipe.x pipe - pipeSpeed e) pipe :: rest) e))
        as (_ & Hsc & Hhs & _).
      rewrite endGame_pipes, Hsc, Hhs. simpl.
      rewrite !unpassed_app, !unpassed_cons. simpl. lia.
    + destruct (JS.Qltb _ _ && negb (Pipe.passed pipe)) eqn:Ec.
      * apply IH in H. simpl in H. destruct H as (H1 & H2 & H3).
        apply andb_prop in Ec. destruct Ec as [_ Ec]. apply negb_true_iff in Ec.
        split; [exact H1|]. split; [lia|]. rewrite H3.
        rewrite !unpassed_app, !unpassed_cons. simpl. rewrite Ec.
        unfold unpassed. simpl. lia.
      * apply IH in H. destruct H as (H1 & H2 & H3).
        split; [exact H1|]. split; [exact H2|]. rewrite H3.
        rewrite !unpassed_app, !unpassed_cons. simpl.
        unfold unpassed. simpl. lia.
Qed.

Lemma unpassed_onScreen l : (unpassed (onScreen l) <= unpassed l)%Z.
Proof.
  induction l as [|p l IH]; [reflexivity|].
  unfold onScreen in *. rewrite filter_cons.
  destruct (decide (JS.Qltb 0 (Pipe.x p + Pipe.width p) = true));
    rewrite ?unpassed_cons; destruct (Pipe.passed p); lia.
Qed.

Lemma physics_fields random (e : t) :
  score (physics random e) = score e /\ highScore (physics random e) = highScore e
  /\ state (physics random e) = state e
  /\ (unpassed (pipes (physics random e)) <= unpassed (pipes e) + 1)%Z.
Proof.
  unfold physics. repeat case_match; simpl; repeat split;
    rewrite ?unpassed_app, ?unpassed_cons; simpl; unfold unpassed; simpl; lia.
Qed.

Lemma finish_fields now (e : t) :
  score (checkBounds now (handleInput e)) = score e
  /\ pipes (checkBounds now (handleInput e)) = pipes e
  /\ (highScore e <= highScore (checkBounds now (handleInput e)))%Z
  /\ ((state (checkBounds now (handleInput e)) = Dead ->
       score (checkBounds now (handleInput e)) <= highScore (checkBounds now (handleInput e)))%Z
      \/ state (checkBounds now (handleInput e)) = state e).
Proof.
  unfold checkBounds.
  assert (Hin : score (handleInput e) = score e /\ pipes (handleInput e) = pipes e
                /\ highScore (handleInput e) = highScore e
                /\ state (handleInput e) = state e)
    by (unfold handleInput; case_match; repeat split).
  destruct Hin as (H1 & H2 & H3 & H4).
  destruct ((gameStarted (handleInput e) || isAI (handleInput e)) && outOfBounds (handleInput e)).
  - destruct (endGame_fields now (handleInput e)) as (_ & Hsc & Hhs & _).
    rewrite endGame_pipes, Hsc, Hhs, H1, H2, H3.
    split; [reflexivity|]. split; [reflexivity|]. split; [lia|]. left. intros _. lia.
  - rewrite H1, H2, H3, H4. split; [reflexivity|]. split; [reflexivity|].
    split; [lia|]. right. reflexivity.
Qed.

(** A frame never lowers the score, and every point it adds marks one
    more pipe as passed: the score plus the pipes not yet passed grows by
    at most the one pipe a frame can spawn, so no pipe is counted twice. *)
Theorem frame_counts_each_pipe_once sin now random (e : t) :
  (score e <= score (update sin now random e))%Z
  /\ (score (update sin now random e) + unpassed (pipes (update sin now random e))
      <= score e + unpassed (pipes e) + 1)%Z.
Proof.
  rewrite update_stages.
  destruct (isPaused e || negb (bool_decide (state e = Playing))); [lia|].
  destruct (gameStarted e || isAI e).
  - destruct (physics_fields random e) as (Hsc & _ & _ & Hun).
    pose proof (unpassed_onScreen (pipes (physics random e))) as Hon.
    destruct (movePipes now [] (onScreen (pipes (physics random e))) (physics random e))
      as [e'|e'] eqn:E.
    + destruct (movePipes_scores now _ [] _ e' (or_introl E)) as (_ & H2 & H3).
      simpl in H3. lia.
    + destruct (movePipes_scores now _ [] _ e' (or_intror E)) as (_ & H2 & H3).
      destruct (finish_fields now e') as (F1 & F2 & _).
      rewrite F1, F2. simpl in H3. lia.
  - destruct (finish_fields now (hover sin e)) as (F1 & F2 & _).
    rewrite F1, F2. simpl. lia.
Qed.

Lemma update_highScore sin now random (e : t) :
  (highScore e <= highScore (update sin now random e))%Z
  /\ ((state e = Dead -> score e <= highScore e)%Z ->
      state (update sin now random e) = Dead ->
      (score (update sin now random e) <= highScore (update sin now random e))%Z).
Proof.
  rewrite update_stages.
  destruct (isPaused e || negb (bool_decide (state e = Playing))) eqn:Eg;
    [split; [lia|auto]|].
  assert (Hs : state e = Playing).
  { apply orb_false_iff in Eg. destruct Eg as [_ Eg]. apply negb_false_iff in Eg.
    apply bool_decide_eq_true in Eg. exact Eg. }
  destruct (gameStarted e || isAI e).
  - destruct (physics_fields random e) as (_ & Hhs & Hst & _).
    destruct (movePipes now [] (onScreen (pipes (physics random e))) (physics random e))
      as [e'|e'] eqn:E.
    + destruct (movePipes_scores now _ [] _ e' (or_introl E)) as (H1 & _).
      split; [lia|]. intros _ _. clear H1.
      revert E. generalize (physics random e) (onScreen (pipes (physics random e))) (@nil Pipe.t).
      intros e0 todo. revert e0. induction todo as [|pipe rest IH]; intros e0 moved E;
        simpl in E; [discriminate|].
      repeat case_match; try (eapply IH; exact E).
      injection E as <-.
      destruct (endGame_fields now
                  (set_pipes (moved ++ Pipe.set_x (Pipe.x pipe - pipeSpeed e0) pipe :: rest) e0))
        as (_ & Hsc & Hh & _).
      rewrite Hsc, Hh. lia.
    + destruct (movePipes_scores now _ [] _ e' (or_intror E)) as (H1 & _).
      destruct (movePipes_inr_clear _ _ _ _ _ E (Forall_nil_2 _)) as (_ & Hst' & _).
      destruct (finish_fields now e') as (_ & _ & F3 & [F4|F4]).
      * split; [lia|]. intros _. exact F4.
      * split; [lia|]. intros _ Hd. rewrite F4, Hst', Hst, Hs in Hd. discriminate.
  - destruct (finish_fields now (hover sin e)) as (_ & _ & F3 & [F4|F4]).
    + split; [exact F3|]. intros _. exact F4.
    + split; [exact F3|]. intros _ Hd. rewrite F4 in Hd. simpl in Hd. congruence.
Qed.

Lemma step_highScore sin h ev (e : t) :
  (highScore e <= highScore (step sin h ev e))%Z
  /\ ((state e = Dead -> score e <= highScore e)%Z ->
      state (step sin h ev e) = Dead ->
      (score (step sin h ev e) <= highScore (step sin h ev e))%Z).
Proof.
  destruct ev; simpl;
    try apply update_highScore;
    try (unfold onKeyDown, onKeyUp, onClick, dataCollectionTick, makeAIPrediction, runTask,
           predictionThen, pauseRecording, downloadCSV, uploadCSV, trainModel, startAI, pause,
           resume, emit, schedule;
         repeat case_match; simpl;
         (split; [lia|intros Hinv Hd; first [discriminate Hd|exact (Hinv Hd)]])).
  unfold stopAI. case_match.
  - destruct (endGame_fields (now h) (set_isAI false e)) as (_ & Hsc & Hhs & _).
    rewrite Hsc, Hhs. simpl. split; [lia|]. intros _ _. lia.
  - simpl. split; [lia|]. intros Hinv Hd. exact (Hinv Hd).
Qed.

(** The high score never goes down, whatever happens to the engine (a full
    reset included), and whenever a round is over it is at least the score
    of that round. *)
Theorem highScore_never_decreases sin (evs : list (Host * Event)) (e : t) :
  (highScore e <= highScore (run sin evs e))%Z
  /\ ((state e = Dead -> score e <= highScore e)%Z ->
      state (run sin evs e) = Dead ->
      (score (run sin evs e) <= highScore (run sin evs e))%Z).
Proof.
  revert e. induction evs as [|[h ev] evs IH]; intros e; [split; [simpl; lia|auto]|].
  destruct (step_highScore sin h ev e) as [H1 H2].
  destruct (IH (step sin h ev e)) as [H3 H4].
  unfold run in *. simpl. split; [lia|]. intros Hinv. apply H4, H2, Hinv.
Qed.

Lemma highScore_never_decreases_witness :
  (highScore aiStartsOverfitting
   <= highScore (run flatSin [(hostAt 0, StopAI); (hostAt 1, Restart)] aiStartsOverfitting))%Z
  /\ (score (run flatSin [(hostAt 0, StopAI)] aiStartsOverfitting)
      <= highScore (run flatSin [(hostAt 0, StopAI)] aiStartsOverfitting))%Z.
Proof.
  destruct (highScore_never_decreases flatSin [(hostAt 0, StopAI); (hostAt 1, Restart)]
              aiStartsOverfitting) as [Hup _].
  destruct (highScore_never_decreases flatSin [(hostAt 0, StopAI)] aiStartsOverfitting)
    as [_ Hover].
  split; [exact Hup|]. apply Hover; [discriminate|reflexivity].
Defined.

(** ** One jump per key press *)

Lemma update_prevSpace sin now random (e : t) :
  prevSpace e = true -> state (update sin now random e) = Playing ->
  prevSpace (update sin now random e) = true.
Proof.
  intros Hp. rewrite update_stages.
  destruct (isPaused e || negb (bool_decide (state e = Playing))); [intros _; exact Hp|].
  assert (Hfin : forall e4, prevSpace e4 = true ->
            state (checkBounds now (handleInput e4)) = Playing ->
            prevSpace (checkBounds now (handleInput e4)) = true).
  { intros e4 H4. unfold handleInput. rewrite H4, andb_false_r.
    unfold checkBounds. case_match; [rewrite endGame_state; discriminate|auto]. }
  destruct (gameStarted e || isAI e).
  - destruct (movePipes now [] (onScreen (pipes (physics random e))) (physics random e))
      as [e'|e'] eqn:E.
    + intros Hd. apply movePipes_inl_dead in E. congruence.
    + apply Hfin. apply movePipes_inr_input in E. destruct E as (_ & E & _).
      rewrite E. unfold physics. repeat case_match; exact Hp.
  - apply Hfin. exact Hp.
Qed.

(** While the space key stays down after a jump, no further frame
    schedules a jump: the flag set by the first frame blocks the input
    until the key is released. *)
Theorem held_key_jumps_once sin (hs : list Host) (e : t) :
  steady sin (frames hs) e = true -> prevSpace e = true ->
  jumped sin (frames hs) e = false
  /\ jumpScheduled (run sin (frames hs) e) = jumpScheduled e
  /\ prevSpace (run sin (frames hs) e) = true.
Proof.
  revert e. induction hs as [|h hs IH]; intros e Hst Hp.
  - simpl. repeat split. exact Hp.
  - pose proof (steady_now _ _ _ Hst) as Hs. simpl in Hst.
    apply andb_prop in Hst. destruct Hst as [_ Hrest].
    pose proof (steady_now _ _ _ Hrest) as Hs'. simpl in Hs'.
    destruct (input_step sin h AnimationFrame e eq_refl Hs Hs') as (_ & _ & Hj).
    assert (Hno : schedulesJump AnimationFrame e = false).
    { unfold schedulesJump. rewrite Hp. simpl. rewrite !andb_false_r. reflexivity. }
    rewrite Hno, orb_false_r in Hj.
    destruct (IH _ Hrest (update_prevSpace sin (now h) (random h) e Hp Hs'))
      as (I1 & I2 & I3).
    unfold run in *. simpl. rewrite Hno, I1, I2, I3. simpl in Hj. rewrite Hj.
    repeat split.
Qed.

Lemma held_key_jumps_once_witness :
  jumped flatSin (frames [hostAt 533; hostAt 550; hostAt 566]) keyHeld = false
  /\ jumpScheduled (run flatSin (frames [hostAt 533; hostAt 550; hostAt 566]) keyHeld)
     = jumpScheduled keyHeld
  /\ prevSpace (run flatSin (frames [hostAt 533; hostAt 550; hostAt 566]) keyHeld) = true.
Proof.
  apply (held_key_jumps_once flatSin [hostAt 533; hostAt 550; hostAt 566] keyHeld);
    reflexivity.
Defined.

(** ** Before the first jump *)

Lemma checkBounds_fields now (x : t) :
  pipes (checkBounds now x) = pipes x /\ score (checkBounds now x) = score x
  /\ nextPipeDist (checkBounds now x) = nextPipeDist x
  /\ bird (checkBounds now x) = bird x.
Proof.
  unfold checkBounds. destruct (_ && _); [|repeat split].
  destruct (endGame_fields now x) as (Hb & Hsc & _).
  rewrite endGame_pipes, Hb, Hsc. repeat split.
  unfold endGame, emit, schedule. repeat case_match; reflexivity.
Qed.

Lemma handleInput_fields (x : t) :
  pipes (handleInput x) = pipes x /\ score (handleInput x) = score x
  /\ nextPipeDist (handleInput x) = nextPipeDist x
  /\ Bird.pos_y (bird (handleInput x)) = Bird.pos_y (bird x).
Proof. unfold handleInput. destruct (_ && _); repeat split. Qed.

(** Until a human player jumps, a frame moves no pipe, spawns none and
    scores nothing; the bird hovers at 300 plus twice the sine of the
    advanced offset, and without a fresh key press the round stays on and
    not started. *)
Theorem idle_before_first_jump sin now random (e : t) :
  isPaused e = false -> state e = Playing -> gameStarted e = false -> isAI e = false ->
  pipes (update sin now random e) = pipes e
  /\ score (update sin now random e) = score e
  /\ nextPipeDist (update sin now random e) = nextPipeDist e
  /\ Bird.pos_y (bird (update sin now random e)) = (300 + sin (hoverOffset e + 0.05) * 2)%Q
  /\ (default false (keys e !! " ") && negb (prevSpace e) = false ->
      state (update sin now random e) = Playing
      /\ gameStarted (update sin now random e) = false
      /\ Bird.vel_y (bird (update sin now random e)) = Bird.vel_y (bird e)).
Proof.
  intros Hp Hs Hg Hai. rewrite update_stages, Hp, (bool_decide_eq_true_2 _ Hs), Hg, Hai.
  cbn [negb orb].
  destruct (checkBounds_fields now (handleInput (hover sin e))) as (C1 & C2 & C3 & C4).
  destruct (handleInput_fields (hover sin e)) as (I1 & I2 & I3 & I4).
  rewrite C1, C2, C3, C4, I1, I2, I3, I4.
  split; [reflexivity|]. split; [reflexivity|]. split; [reflexivity|].
  split; [reflexivity|]. intros Hk.
  assert (Hin : handleInput (hover sin e) = hover sin e).
  { unfold handleInput. change (isAI (hover sin e)) with (isAI e).
    change (keys (hover sin e)) with (keys e).
    change (prevSpace (hover sin e)) with (prevSpace e).
    rewrite Hai, <- andb_assoc, Hk. reflexivity. }
  rewrite Hin. unfold checkBounds.
  change (gameStarted (hover sin e)) with (gameStarted e).
  change (isAI (hover sin e)) with (isAI e). rewrite Hg, Hai. simpl.
  repeat split; assumption.
Qed.

Lemma idle_before_first_jump_witness :
  pipes (update flatSin 16 (1 # 2) freshRound) = pipes freshRound
  /\ state (update flatSin 16 (1 # 2) freshRound) = Playing
  /\ gameStarted (update flatSin 16 (1 # 2) freshRound) = false.
Proof.
  destruct (idle_before_first_jump flatSin 16 (1 # 2) freshRound)
    as (H1 & _ & _ & _ & H5); try reflexivity.
  destruct H5 as (H6 & H7 & _); [reflexivity|].
  split; [exact H1|]. split; [exact H6|exact H7].
Defined.

(** ** New pipes *)

(** On a canvas whose height is an integer of at least 300, a pipe
    created without a fixed centre has its gap centre at least 150 from
    the top and from the bottom of the canvas, whatever [Math.random()]
    returns, so with its gap size of 200 the gap lies at least 50 from
    both; the pipe is 40 wide and not yet passed. *)
Theorem random_gap_inside_canvas (H : Z) (x random : Q) :
  (0 <= random)%Q -> (random < 1)%Q -> (300 <= H)%Z ->
  (150 <= Pipe.gapCenter (Pipe.new (inject_Z H) x None random) <= inject_Z H - 150)%Q
  /\ (50 <= Pipe.top (Pipe.new (inject_Z H) x None random))%Q
  /\ (Pipe.bottom (Pipe.new (inject_Z H) x None random) <= inject_Z H - 50)%Q
  /\ Pipe.gapSize (Pipe.new (inject_Z H) x None random) = 200%Q
  /\ Pipe.width (Pipe.new (inject_Z H) x None random) = 40%Q
  /\ Pipe.passed (Pipe.new (inject_Z H) x None random) = false.
Proof.
  intros H0 H1 HH. unfold Pipe.top, Pipe.bottom. simpl.
  assert (Hh : (300 <= inject_Z H)%Q).
  { change 300%Q with (inject_Z 300). rewrite <- Zle_Qle. exact HH. }
  set (h := inject_Z H) in *. clearbody h.
  unfold Qdiv. change (/ 2)%Q with (1 # 2)%Q.
  split; [split; nra|]. split; [nra|]. split; [nra|]. repeat split.
Qed.

Lemma random_gap_inside_canvas_witness :
  (50 <= Pipe.top (Pipe.new (inject_Z 600) 800 None (1 # 3)))%Q
  /\ (Pipe.bottom (Pipe.new (inject_Z 600) 800 None (1 # 3)) <= inject_Z 600 - 50)%Q.
Proof.
  destruct (random_gap_inside_canvas 600 800 (1 # 3)) as (_ & H1 & H2 & _);
    [discriminate|reflexivity|lia|].
  split; [exact H1|exact H2].
Defined.

(** ** Feature preprocessing and statistics *)

Lemma clamp_clamped (x : JS.num) : clamped (JS.max (JS.Fin (-3)) (JS.min (JS.Fin 3) x)).
Proof.
  destruct x as [q| | |]; simpl; try exact I.
  - destruct (JS.Qltb q 3) eqn:E1; simpl.
    + destruct (JS.Qltb (-3) q) eqn:E2; simpl.
      * apply Qltb_true in E1, E2. split; apply Qlt_le_weak; assumption.
      * split; discriminate.
    + split; discriminate.
  - split; discriminate.
  - split; discriminate.
Qed.

(** The engine's preprocessing returns five numbers; without statistics
    they are the five raw features unchanged, with statistics each one is
    [NaN] or lies between -3 and 3; and the trainer's copy of the method
    computes the same vector. *)
Theorem preprocessFeatures_clamps (rawFeatures : list JS.num) (e : t) :
  length (preprocessFeatures rawFeatures e) = 5%nat
  /\ (featureStats e = None ->
      preprocessFeatures rawFeatures e = take 5 (rawFeatures ++ replicate 5 JS.NaN))
  /\ (featureStats e <> None -> Forall clamped (preprocessFeatures rawFeatures e))
  /\ preprocessFeatures rawFeatures e
     = MLTrainer.preprocessFeatures rawFeatures (featureStats e).
Proof.
  unfold preprocessFeatures, MLTrainer.preprocessFeatures.
  destruct (featureStats e) as [stats|].
  - split; [reflexivity|]. split; [discriminate|]. split; [|reflexivity].
    intros _. cbn [seq map imap]. repeat constructor; apply clamp_clamped.
  - split; [reflexivity|]. split; [|split; [congruence|reflexivity]].
    intros _. destruct rawFeatures as [|a [|b [|c [|d [|f l]]]]]; reflexivity.
Qed.

Lemma preprocessFeatures_clamps_witness :
  Forall clamped
    (preprocessFeatures [JS.Fin 5; JS.Fin (1 # 2); JS.NaN; JS.Fin (-7); JS.PInf]
       (set_featureStats (Some {| means := replicate 5 (JS.Fin 0);
                                  stds := replicate 5 (JS.Fin 1) |})
          (new playfield))).
Proof.
  apply (preprocessFeatures_clamps
           [JS.Fin 5; JS.Fin (1 # 2); JS.NaN; JS.Fin (-7); JS.PInf]
           (set_featureStats (Some {| means := replicate 5 (JS.Fin 0);
                                      stds := replicate 5 (JS.Fin 1) |})
              (new playfield))).
  discriminate.
Defined.

Lemma fold_imap_length {A B} (f : B -> nat -> A -> A) (rows : list B) : forall acc : list A,
  length (fold_left (fun acc row => imap (f row) acc) rows acc) = length acc.
Proof.
  induction rows as [|r rows IH]; intros acc; simpl; [reflexivity|].
  rewrite IH. apply length_imap.
Qed.

(** Whatever the rows and whatever [Math.sqrt] returns, the statistics hold
    five means and five standard deviations, and no standard deviation is
    0 or [NaN]: a zero or undefined deviation is replaced by 1, so a later
    standardisation never divides by zero; the engine's method is the
    trainer's. *)
Theorem computeStats_deviations_usable (sqrt : JS.num -> JS.num)
    (features : list (list JS.num)) :
  length (means (MLTrainer.computeStats sqrt features)) = 5%nat
  /\ length (stds (MLTrainer.computeStats sqrt features)) = 5%nat
  /\ Forall (fun s => JS.truthy s = true /\ JS.or s (JS.Fin 1) = s)
       (stds (MLTrainer.computeStats sqrt features))
  /\ computeStats sqrt features = MLTrainer.computeStats sqrt features.
Proof.
  unfold MLTrainer.computeStats. cbn [means stds].
  split; [rewrite (fold_imap_length (fun row j m => _)); reflexivity|].
  split; [rewrite length_map, (fold_imap_length (fun row j s => _)); reflexivity|].
  split; [|reflexivity].
  apply Forall_forall. intros s Hs. apply list_elem_of_fmap in Hs.
  destruct Hs as (s0 & -> & _). unfold JS.or.
  destruct (JS.truthy (sqrt s0)) eqn:E; [rewrite E; auto|].
  split; reflexivity.
Qed.

(** ** Shuffle and split *)

Lemma omap_lookup_seq {A} (l : list A) : omap (fun i => l !! i) (seq 0 (length l)) = l.
Proof.
  induction l as [|a l IH]; [reflexivity|].
  assert (Hk : forall k : list nat,
            omap (fun i => (a :: l) !! i) (S <$> k) = omap (fun i => l !! i) k).
  { induction k as [|i k IHk]; [reflexivity|].
    cbn [fmap list_fmap omap list_omap] in *. rewrite IHk. reflexivity. }
  cbn [length seq]. rewrite <- fmap_S_seq. cbn [omap list_omap].
  change (omap (fun i => (a :: l) !! i) (S <$> seq 0 (length l)))
    with (list_omap _ _ (fun i => (a :: l) !! i) (S <$> seq 0 (length l))) in Hk.
  simpl lookup at 1. f_equal. rewrite <- IH at 2. apply Hk.
Qed.

Lemma mapM_omap {A B} (f : A -> option B) (l : list A) (k : list B) :
  mapM f l = Some k -> omap f l = k.
Proof.
  intros H. apply mapM_Some_1 in H. induction H as [|x y l k Hxy _ IH]; [reflexivity|].
  change (omap f (x :: l))
    with (match f x with Some y => y :: omap f l | None => omap f l end).
  rewrite Hxy, IH. reflexivity.
Qed.

Lemma shuffle_Some {A} (indices : list nat) (rows : list A) :
  Forall (fun i => (i < length rows)%nat) indices ->
  exists k, MLTrainer.shuffle indices rows = Some k
            /\ forall j i, indices !! j = Some i -> k !! j = rows !! i.
Proof.
  intros H. induction H as [|i indices Hi _ (k & Hk & Hl)].
  - exists []. split; [reflexivity|]. intros j i Hj. discriminate.
  - destruct (lookup_lt_is_Some_2 rows i Hi) as [a Ha].
    exists (a :: k). unfold MLTrainer.shuffle in *. split.
    + rewrite mapM_Some. constructor; [exact Ha|]. apply mapM_Some. exact Hk.
    + intros [|j] i' Hj; simpl in *; [congruence|auto].
Qed.

(** The shuffle applies one index array to the features and to the
    labels, so every row keeps its label; when the array is a
    rearrangement of the positions, the shuffled rows are a rearrangement
    of the balanced rows, none lost and none repeated. *)
Theorem shuffle_keeps_rows_with_labels {A B} (indices : list nat)
    (balancedFeatures : list A) (balancedLabels : list B) :
  length balancedFeatures = length balancedLabels ->
  indices ≡ₚ seq 0 (length balancedFeatures) ->
  exists features labels,
    MLTrainer.shuffle indices balancedFeatures = Some features
    /\ MLTrainer.shuffle indices balancedLabels = Some labels
    /\ features ≡ₚ balancedFeatures /\ labels ≡ₚ balancedLabels
    /\ forall j i, indices !! j = Some i ->
         features !! j = balancedFeatures !! i /\ labels !! j = balancedLabels !! i.
Proof.
  intros Hlen Hperm.
  assert (Hin : Forall (fun i => (i < length balancedFeatures)%nat) indices).
  { apply Forall_forall. intros i Hi. rewrite Hperm in Hi.
    apply elem_of_seq in Hi. lia. }
  destruct (shuffle_Some indices balancedFeatures Hin) as (fs & Hfs & Hf).
  rewrite Hlen in Hin.
  destruct (shuffle_Some indices balancedLabels Hin) as (ls & Hls & Hl).
  exists fs, ls. split; [exact Hfs|]. split; [exact Hls|].
  split; [|split].
  - rewrite <- (mapM_omap _ _ _ Hfs), Hperm. rewrite omap_lookup_seq. reflexivity.
  - rewrite <- (mapM_omap _ _ _ Hls), Hperm, Hlen. rewrite omap_lookup_seq. reflexivity.
  - intros j i Hj. split; [apply Hf|apply Hl]; exact Hj.
Qed.

Lemma shuffle_keeps_rows_with_labels_witness :
  exists features labels,
    MLTrainer.shuffle [2; 0; 1]%nat [JS.Fin 10; JS.Fin 11; JS.Fin 12] = Some features
    /\ MLTrainer.shuffle [2; 0; 1]%nat [false; true; false] = Some labels
    /\ features ≡ₚ [JS.Fin 10; JS.Fin 11; JS.Fin 12] /\ labels ≡ₚ [false; true; false].
Proof.
  destruct (shuffle_keeps_rows_with_labels [2; 0; 1]%nat
              [JS.Fin 10; JS.Fin 11; JS.Fin 12] [false; true; false])
    as (fs & ls & H1 & H2 & H3 & H4 & _).
  - reflexivity.
  - exact (Permutation_cons_append [0; 1]%nat 2%nat).
  - exists fs, ls. auto.
Defined.

Lemma trainSize_floor (n : nat) :
  Z.of_nat (MLTrainer.trainSize n) = (4 * Z.of_nat n / 5)%Z.
Proof.
  unfold MLTrainer.trainSize, Qfloor. simpl.
  change (Z.pos (10 * 1)) with (2 * 5)%Z.
  replace (8 * Z.of_nat n)%Z with (2 * (4 * Z.of_nat n))%Z by lia.
  rewrite Z.div_mul_cancel_l by lia.
  rewrite Z2Nat.id; [reflexivity|]. apply Z.div_pos; lia.
Qed.

(** The split loses and repeats nothing: the training rows followed by
    the test rows are the shuffled rows; the training part holds the
    integer part of four fifths of them, so the test part holds at least
    a fifth, and is not empty unless there are no rows. *)
Theorem split_covers_the_rows {A} (rows : list A) :
  fst (MLTrainer.trainTestSplit (MLTrainer.trainSize (length rows)) rows)
    ++ snd (MLTrainer.trainTestSplit (MLTrainer.trainSize (length rows)) rows) = rows
  /\ length (fst (MLTrainer.trainTestSplit (MLTrainer.trainSize (length rows)) rows))
     = MLTrainer.trainSize (length rows)
  /\ (length rows
      <= 5 * length (snd (MLTrainer.trainTestSplit (MLTrainer.trainSize (length rows)) rows))
      < length rows + 5)%nat.
Proof.
  unfold MLTrainer.trainTestSplit. cbn [fst snd].
  pose proof (trainSize_floor (length rows)) as Hf.
  pose proof (Z.mul_div_le (4 * Z.of_nat (length rows)) 5 eq_refl) as H1.
  pose proof (Z.mul_succ_div_gt (4 * Z.of_nat (length rows)) 5 eq_refl) as H2.
  split; [apply take_drop|].
  rewrite length_take, length_drop. lia.
Qed.

(** ** Evaluation *)

Lemma countOne_counts preds trues c i :
  let c' := MLTrainer.countOne preds trues c i in
  (MLTrainer.tp c <= MLTrainer.tp c' /\ MLTrainer.fp c <= MLTrainer.fp c'
   /\ MLTrainer.fn c <= MLTrainer.fn c' /\ MLTrainer.tn c <= MLTrainer.tn c'
   /\ MLTrainer.tp c' + MLTrainer.fp c' + MLTrainer.fn c' + MLTrainer.tn c'
      = MLTrainer.tp c + MLTrainer.fp c + MLTrainer.fn c + MLTrainer.tn c + 1)%Z.
Proof.
  unfold MLTrainer.countOne. repeat case_match; simpl; lia.
Qed.

Lemma confusion_counts preds trues (l : list nat) : forall c,
  let c' := fold_left (MLTrainer.countOne preds trues) l c in
  (MLTrainer.tp c <= MLTrainer.tp c' /\ MLTrainer.fp c <= MLTrainer.fp c'
   /\ MLTrainer.fn c <= MLTrainer.fn c' /\ MLTrainer.tn c <= MLTrainer.tn c'
   /\ MLTrainer.tp c' + MLTrainer.fp c' + MLTrainer.fn c' + MLTrainer.tn c'
      = MLTrainer.tp c + MLTrainer.fp c + MLTrainer.fn c + MLTrainer.tn c
        + Z.of_nat (length l))%Z.
Proof.
  induction l as [|i l IH]; intros c; simpl; [lia|].
  pose proof (countOne_counts preds trues c i) as H1.
  pose proof (IH (MLTrainer.countOne preds trues c i)) as H2.
  simpl in H1, H2. lia.
Qed.

Lemma ratio_isRate (x y : Q) :
  (0 <= x)%Q -> (x <= y)%Q -> isRate (JS.or (JS.div (JS.Fin x) (JS.Fin y)) (JS.Fin 0)).
Proof.
  intros H0 H1. unfold JS.div.
  destruct (Qeq_bool y 0) eqn:Ey.
  - apply Qeq_bool_iff in Ey. assert (Hx : (x == 0)%Q) by lra.
    apply Qeq_bool_iff in Hx. rewrite Hx. simpl. split; discriminate.
  - assert (Hy : (0 < y)%Q).
    { apply Qeq_bool_neq in Ey. lra. }
    unfold JS.or, JS.truthy. destruct (Qeq_bool (x / y) 0); simpl; [split; discriminate|].
    split.
    + apply Qle_shift_div_l; [exact Hy|lra].
    + apply Qle_shift_div_r; [exact Hy|lra].
Qed.

Lemma isRate_Fin (x : JS.num) : isRate x -> exists q, x = JS.Fin q /\ (0 <= q <= 1)%Q.
Proof. destruct x; simpl; intros H; try contradiction. eauto. Qed.

(** Every test prediction is counted in exactly one of the four cells, so
    the cells add up to the number of predictions.  Precision, recall and
    F1 are always numbers between 0 and 1, also where a denominator is 0;
    the accuracy is such a number when there is a prediction, and [NaN]
    when the test set is empty. *)
Theorem metrics_are_rates (predsTest truesTest : list JS.num) :
  let c := MLTrainer.confusion predsTest truesTest in
  let m := MLTrainer.metrics c in
  (0 <= MLTrainer.tp c /\ 0 <= MLTrainer.fp c /\ 0 <= MLTrainer.fn c /\ 0 <= MLTrainer.tn c
   /\ MLTrainer.tp c + MLTrainer.fp c + MLTrainer.fn c + MLTrainer.tn c
      = Z.of_nat (length predsTest))%Z
  /\ isRate (MLTrainer.precision m) /\ isRate (MLTrainer.recall m)
  /\ isRate (MLTrainer.f1 m)
  /\ match predsTest with
     | [] => MLTrainer.accuracy m = JS.NaN
     | _ :: _ => isRate (MLTrainer.accuracy m)
     end.
Proof.
  intros c m.
  pose proof (confusion_counts predsTest truesTest (seq 0 (length predsTest))
                {| MLTrainer.tp := 0; MLTrainer.fp := 0; MLTrainer.fn := 0;
                   MLTrainer.tn := 0 |}) as Hc.
  simpl in Hc. rewrite length_seq in Hc. fold (MLTrainer.confusion predsTest truesTest) in Hc.
  fold c in Hc. destruct Hc as (Htp & Hfp & Hfn & Htn & Hsum).
  assert (Hle : forall a b, (0 <= a)%Z -> (a <= b)%Z ->
            (0 <= inject_Z a)%Q /\ (inject_Z a <= inject_Z b)%Q).
  { intros a b Ha Hab. split; [change 0%Q with (inject_Z 0)|]; rewrite <- Zle_Qle; lia. }
  assert (Hp : isRate (MLTrainer.precision m)).
  { apply ratio_isRate; apply Hle; lia. }
  assert (Hr : isRate (MLTrainer.recall m)).
  { apply ratio_isRate; apply Hle; lia. }
  split; [lia|]. split; [exact Hp|]. split; [exact Hr|]. split.
  - unfold m, MLTrainer.metrics. cbn [MLTrainer.f1].
    destruct (isRate_Fin _ Hp) as (p & Ep & Hp01).
    destruct (isRate_Fin _ Hr) as (r & Er & Hr01).
    unfold m, MLTrainer.metrics in Ep, Er. cbn [MLTrainer.precision MLTrainer.recall] in Ep, Er.
    rewrite Ep, Er. cbn [JS.mul JS.add]. apply ratio_isRate; nra.
  - destruct predsTest as [|a l] eqn:El.
    + reflexivity.
    + unfold m, MLTrainer.metrics. cbn [MLTrainer.accuracy]. unfold JS.ofZ, JS.div.
      assert (Hpos : (0 < MLTrainer.tp c + MLTrainer.tn c + MLTrainer.fp c + MLTrainer.fn c)%Z).
      { simpl length in Hsum. lia. }
      destruct (Qeq_bool _ 0) eqn:E0.
      * apply Qeq_bool_iff in E0. change 0%Q with (inject_Z 0) in E0.
        apply (proj1 (inject_Z_injective _ 0%Z)) in E0. lia.
      * destruct (Hle (MLTrainer.tp c + MLTrainer.tn c)%Z
                    (MLTrainer.tp c + MLTrainer.tn c + MLTrainer.fp c + MLTrainer.fn c)%Z)
          as [Ha Hb]; [lia|lia|].
        assert (Hy : (0 < inject_Z (MLTrainer.tp c + MLTrainer.tn c + MLTrainer.fp c
                                    + MLTrainer.fn c))%Q).
        { change 0%Q with (inject_Z 0). rewrite <- Zlt_Qlt. exact Hpos. }
        split.
        -- apply Qle_shift_div_l; [exact Hy|lra].
        -- apply Qle_shift_div_r; [exact Hy|lra].
Qed.

(** ** What only training, recording and the level switch can change *)

Lemma dataCollectionTick_isAI e : isAI (dataCollectionTick e) = isAI e.
Proof.
  unfold dataCollectionTick, makeAIPrediction, pauseRecording, emit, schedule.
  repeat case_match; reflexivity.
Qed.

Lemma dataCollectionTick_featureStats e :
  featureStats (dataCollectionTick e) = featureStats e.
Proof.
  unfold dataCollectionTick, makeAIPrediction, pauseRecording, emit, schedule.
  repeat case_match; reflexivity.
Qed.

Lemma step_isAI sin h ev e :
  isTrainingResolved ev = false -> model e = None -> isAI e = false ->
  isAI (step sin h ev e) = false.
Proof.
  intros Hev Hm Hai. destruct ev; try discriminate; simpl; try assumption;
    try reflexivity.
  - unfold onKeyDown. repeat case_match; assumption.
  - unfold onKeyUp. repeat case_match; assumption.
  - unfold onClick. repeat case_match; assumption.
  - destruct (update_keeps sin (now h) (random h) e) as (_&_&_&_&_& H' & _). congruence.
  - rewrite dataCollectionTick_isAI. exact Hai.
  - unfold runTask, predictionThen. repeat case_match; assumption.
  - unfold downloadCSV. repeat case_match; assumption.
  - unfold uploadCSV. repeat case_match; assumption.
  - unfold trainModel. repeat case_match; assumption.
  - unfold startAI. rewrite Hm. exact Hai.
  - unfold stopAI. case_match; [|reflexivity].
    destruct (endGame_keeps (now h) (set_isAI false e)) as (_&_&_&_&_& H' & _). exact H'.
  - unfold pause. repeat case_match; assumption.
  - unfold resume. repeat case_match; assumption.
Qed.

(** An engine without a model never plays by itself: as long as no
    training resolves, whatever else happens (the AI button included)
    leaves the AI flag off and the model absent. *)
Theorem AI_needs_a_trained_model sin (evs : list (Host * Event)) (e : t) :
  Forall (fun he => isTrainingResolved (snd he) = false) evs ->
  model e = None -> isAI e = false ->
  isAI (run sin evs e) = false /\ model (run sin evs e) = None.
Proof.
  revert e. induction evs as [|[h ev] evs IH]; intros e Hevs Hm Hai; [auto|].
  inversion Hevs as [|? ? Hev Hrest]; subst. simpl in Hev.
  unfold run. simpl. apply IH; [exact Hrest| |].
  - destruct (step_model sin h ev e Hev) as [H|H]; congruence.
  - apply step_isAI; assumption.
Qed.

Lemma AI_needs_a_trained_model_witness :
  isAI (run flatSin [(hostAt 0, StartAI); (hostAt 0, KeyDown " ");
                     (hostAt 16, AnimationFrame); (hostAt 100, IntervalTick)]
            (new playfield)) = false
  /\ model (run flatSin [(hostAt 0, StartAI); (hostAt 0, KeyDown " ");
                         (hostAt 16, AnimationFrame); (hostAt 100, IntervalTick)]
                (new playfield)) = None.
Proof.
  apply (AI_needs_a_trained_model flatSin
           [(hostAt 0, StartAI); (hostAt 0, KeyDown " ");
            (hostAt 16, AnimationFrame); (hostAt 100, IntervalTick)]
           (new playfield)).
  - repeat constructor.
  - reflexivity.
  - reflexivity.
Defined.

Lemma step_featureStats sin h ev e :
  fromTrainer ev = true -> featureStats e = None ->
  featureStats (step sin h ev e) = None.
Proof.
  intros Hev Hf. destruct ev; simpl; try assumption; try reflexivity.
  - unfold onKeyDown. repeat case_match; assumption.
  - unfold onKeyUp. repeat case_match; assumption.
  - unfold onClick. repeat case_match; assumption.
  - destruct (update_keeps sin (now h) (random h) e) as (_& H' & _). congruence.
  - rewrite dataCollectionTick_featureStats. exact Hf.
  - unfold runTask, predictionThen. repeat case_match; assumption.
  - unfold downloadCSV. repeat case_match; assumption.
  - unfold uploadCSV. repeat case_match; assumption.
  - unfold trainModel. repeat case_match; assumption.
  - simpl in Hev. destruct (MLTrainer.featureStats r); [discriminate|reflexivity].
  - unfold startAI. repeat case_match; assumption.
  - unfold stopAI. case_match; [|assumption].
    destruct (endGame_keeps (now h) (set_isAI false e)) as (_& H' & _).
    rewrite H'. exact Hf.
  - unfold pause. repeat case_match; assumption.
  - unfold resume. repeat case_match; assumption.
Qed.

(** The trainer resolves without feature statistics, so an engine that
    starts without them never has any, and its preprocessing hands the
    raw features to the model unchanged: inference is never
    standardised. *)
Theorem inference_is_never_standardised sin (evs : list (Host * Event)) (e : t) :
  Forall (fun he => fromTrainer (snd he) = true) evs ->
  featureStats e = None ->
  featureStats (run sin evs e) = None
  /\ preprocessFeatures (getRawFeatures (run sin evs e)) (run sin evs e)
     = getRawFeatures (run sin evs e).
Proof.
  intros Hevs Hf.
  assert (Hn : featureStats (run sin evs e) = None).
  { revert e Hf. induction evs as [|[h ev] evs IH]; intros e Hf; [exact Hf|].
    inversion Hevs as [|? ? Hev Hrest]; subst. simpl in Hev.
    unfold run. simpl. apply IH; [exact Hrest|]. apply step_featureStats; assumption. }
  split; [exact Hn|]. unfold preprocessFeatures. rewrite Hn. reflexivity.
Qed.

Lemma inference_is_never_standardised_witness :
  featureStats (run flatSin [(hostAt 0, TrainingResolved (MLTrainer.result (constantModel 1)));
                             (hostAt 0, StartAI); (hostAt 100, IntervalTick)]
                    (new playfield)) = None.
Proof.
  apply (inference_is_never_standardised flatSin
           [(hostAt 0, TrainingResolved (MLTrainer.result (constantModel 1)));
            (hostAt 0, StartAI); (hostAt 100, IntervalTick)]
           (new playfield)).
  - repeat constructor.
  - reflexivity.
Defined.

Lemma step_leavesDataset sin h ev e :
  leavesDataset ev = true -> dataset (step sin h ev e) = dataset e.
Proof.
  intros Hev. destruct ev; try discriminate; simpl; try reflexivity.
  - unfold onKeyDown. repeat case_match; reflexivity.
  - unfold onKeyUp. repeat case_match; reflexivity.
  - unfold onClick. repeat case_match; reflexivity.
  - apply update_keeps.
  - unfold runTask, predictionThen. repeat case_match; reflexivity.
  - unfold downloadCSV. repeat case_match; reflexivity.
  - unfold trainModel. repeat case_match; reflexivity.
  - unfold startAI. repeat case_match; reflexivity.
  - unfold stopAI. case_match; [|reflexivity].
    destruct (endGame_keeps (now h) (set_isAI false e)) as (_ & _ & H' & _). exact H'.
  - unfold pause. repeat case_match; reflexivity.
  - unfold resume. repeat case_match; reflexivity.
Qed.

(** The recorded rows change only at a recording tick, an import, a
    clearing, a reset or a level switch of the page: playing, pausing,
    training, exporting, AI rounds, timers and [setLevel] leave the
    dataset as it is. *)
Theorem dataset_has_few_writers sin (evs : list (Host * Event)) (e : t) :
  Forall (fun he => leavesDataset (snd he) = true) evs ->
  dataset (run sin evs e) = dataset e.
Proof.
  revert e. induction evs as [|[h ev] evs IH]; intros e Hevs; [reflexivity|].
  inversion Hevs as [|? ? Hev Hrest]; subst. simpl in Hev.
  unfold run. simpl. fold (run sin evs (step sin h ev e)).
  rewrite (IH _ Hrest). apply step_leavesDataset. exact Hev.
Qed.

Lemma dataset_has_few_writers_witness :
  dataset (run flatSin [(hostAt 0, KeyDown " "); (hostAt 16, AnimationFrame);
                        (hostAt 20, StartRecording); (hostAt 30, TrainModel);
                        (hostAt 40, SetLevel Overfitting); (hostAt 50, StopAI)]
               (withRows 3 Underfitting))
  = dataset (withRows 3 Underfitting).
Proof.
  apply (dataset_has_few_writers flatSin
           [(hostAt 0, KeyDown " "); (hostAt 16, AnimationFrame);
            (hostAt 20, StartRecording); (hostAt 30, TrainModel);
            (hostAt 40, SetLevel Overfitting); (hostAt 50, StopAI)]
           (withRows 3 Underfitting)).
  repeat constructor.
Defined.

(** ** Starting over after a crash *)

(** After a crash the space key and a click start a new round only once
    the clock has passed the time of death by more than the delay; until
    then they leave the dead round, its score and its pipes in place.  In
    an AI round they never start one. *)
Theorem restart_waits_for_the_delay (now : Z) (random : Q) (e : t) :
  isPaused e = false -> state e = Dead ->
  ((now - gameOverTime e <= gameOverDelay e)%Z \/ isAI e = true ->
     state (onKeyDown " " now random e) = Dead
     /\ score (onKeyDown " " now random e) = score e
     /\ pipes (onKeyDown " " now random e) = pipes e
     /\ onClick now random e = e)
  /\ ((gameOverDelay e < now - gameOverTime e)%Z -> isAI e = false ->
       state (onKeyDown " " now random e) = Playing
       /\ score (onKeyDown " " now random e) = 0%Z
       /\ gameStarted (onKeyDown " " now random e) = false
       /\ onClick now random e = startGame random e).
Proof.
  intros Hp Hs. unfold onKeyDown, onClick, canStart. rewrite Hp. simpl.
  rewrite Hs. rewrite (bool_decide_eq_false_2 (Dead = Menu)) by discriminate.
  rewrite (bool_decide_eq_true_2 (Dead = Dead)) by reflexivity.
  rewrite (bool_decide_eq_false_2 (Dead = Playing)) by discriminate. simpl.
  split.
  - intros [Hd|Hai].
    + apply Z.ltb_ge in Hd. rewrite Hd. simpl. rewrite Hs. repeat split.
    + rewrite Hai, andb_false_r. simpl. rewrite Hs. repeat split.
  - intros Hd Hai. apply Z.ltb_lt in Hd. rewrite Hd, Hai. simpl.
    unfold startGame. repeat split.
Qed.

Lemma restart_waits_for_the_delay_witness :
  state (onKeyDown " " 7100 (1 # 2) (stopAI 7000 aiStartsOverfitting)) = Dead
  /\ state (onKeyDown " " 9000 (1 # 2) (stopAI 7000 aiStartsOverfitting)) = Playing.
Proof.
  destruct (restart_waits_for_the_delay 7100 (1 # 2) (stopAI 7000 aiStartsOverfitting))
    as [H1 _]; [reflexivity|reflexivity|].
  destruct (restart_waits_for_the_delay 9000 (1 # 2) (stopAI 7000 aiStartsOverfitting))
    as [_ H2]; [reflexivity|reflexivity|].
  split.
  - apply H1. left. vm_compute. discriminate.
  - apply H2; reflexivity.
Defined.

Lemma delete_last {A} (l : list A) (x : A) : delete (length l) (l ++ [x]) = l.
Proof. induction l as [|a l IH]; simpl; [reflexivity|]. f_equal. exact IH. Qed.

(** When an AI round ends, a timer of one second is queued; when it
    fires, a new AI round starts with score 0 and the high score kept.
    [stopAI] does not cancel a timer already queued: if the player stops
    the AI after the crash and the timer fires, a round starts all the
    same, now for the player. *)
Theorem AI_round_restarts_itself (died : Z) (h : Host) (e : t) :
  isAI e = true ->
  tasks (endGame died e) = tasks e ++ [RestartTimer 1000]
  /\ (let r := runTask (length (tasks e)) h (endGame died e) in
      state r = Playing /\ score r = 0%Z /\ isAI r = true /\ tasks r = tasks e
      /\ highScore r = Z.max (highScore e) (score e))
  /\ (let r := runTask (length (tasks e)) h (stopAI (now h) (endGame died e)) in
      state r = Playing /\ isAI r = false /\ tasks r = tasks e).
Proof.
  intros Hai.
  pose proof (endGame_restart_timer died e) as Ht. rewrite Hai in Ht.
  destruct (endGame_fields died e) as (_ & _ & Hh & _).
  destruct (endGame_keeps died e) as (_&_&_&_&_& Hk & _).
  split; [exact Ht|]. split.
  - unfold runTask. rewrite Ht, lookup_app_r, Nat.sub_diag by lia. simpl.
    rewrite delete_last. repeat split; assumption || congruence.
  - unfold stopAI. rewrite bool_decide_eq_false_2
      by (change (state (set_isAI false (endGame died e))) with (state (endGame died e));
          rewrite endGame_state; discriminate).
    unfold runTask. change (tasks (set_isAI false (endGame died e))) with (tasks (endGame died e)).
    rewrite Ht, lookup_app_r, Nat.sub_diag by lia. simpl.
    rewrite delete_last. repeat split.
Qed.

Lemma AI_round_restarts_itself_witness :
  tasks (endGame 7000 aiStartsOverfitting) = tasks aiStartsOverfitting ++ [RestartTimer 1000]
  /\ state (runTask (length (tasks aiStartsOverfitting)) (hostAt 8000)
              (endGame 7000 aiStartsOverfitting)) = Playing.
Proof.
  destruct (AI_round_restarts_itself 7000 (hostAt 8000) aiStartsOverfitting)
    as (H1 & (H2 & _) & _); [reflexivity|].
  split; [exact H1|exact H2].
Defined.

(** ** The trainer's input *)

Lemma length_ofLines (lines : list string) :
  (length (GameData.ofLines lines) <= length lines)%nat.
Proof.
  unfold GameData.ofLines. induction lines as [|l lines IH]; [reflexivity|].
  change (omap GameData.ofLine (l :: lines))
    with (match GameData.ofLine l with
          | Some d => d :: omap GameData.ofLine lines
          | None => omap GameData.ofLine lines
          end).
  destruct (GameData.ofLine l); simpl; lia.
Qed.

(** The rows the trainer works on start with the recorded rows, in
    order; at most 500 rows are added, and none outside the finetuning
    level or when the fetch fails.  The first line of the fetched text is
    never read as a row. *)
Theorem finalDataset_extends (dataset : list GameData.t) (currentLevel : string)
    (fetched : option string) :
  exists additionalData,
    MLTrainer.finalDataset dataset currentLevel fetched = dataset ++ additionalData
    /\ (length additionalData <= 500)%nat
    /\ (currentLevel <> "finetuning" \/ fetched = None -> additionalData = [])
    /\ forall csvText, fetched = Some csvText -> currentLevel = "finetuning" ->
         additionalData
         = GameData.ofLines (take 500 (drop 1 (JS.split "010" csvText))).
Proof.
  unfold MLTrainer.finalDataset.
  destruct (String.eqb currentLevel "finetuning") eqn:El.
  - apply String.eqb_eq in El. destruct fetched as [csvText|].
    + eexists. split; [reflexivity|].
      assert (Ht : take (Nat.min 501 (length (JS.split "010" csvText)) - 1)
                     (drop 1 (JS.split "010" csvText))
                   = take 500 (drop 1 (JS.split "010" csvText))).
      { destruct (Nat.le_gt_cases 501 (length (JS.split "010" csvText))) as [H|H].
        - rewrite Nat.min_l by exact H. reflexivity.
        - rewrite Nat.min_r by lia.
          rewrite (take_ge _ 500) by (rewrite length_drop; lia).
          apply take_ge. rewrite length_drop. lia. }
      rewrite Ht. split; [|split].
      * etransitivity; [apply length_ofLines|]. rewrite length_take. lia.
      * intros [H|H]; [contradiction|discriminate].
      * intros c Hc _. injection Hc as ->. reflexivity.
    + exists []. rewrite app_nil_r.
      split; [reflexivity|]. split; [simpl; lia|]. split; [reflexivity|discriminate].
  - exists []. rewrite app_nil_r.
    split; [reflexivity|]. split; [simpl; lia|]. split; [reflexivity|].
    intros c _ Hl. subst. discriminate El.
Qed.

Lemma finalDataset_extends_witness :
  exists additionalData,
    MLTrainer.finalDataset thirteenRows "underfitting" (Some mixedFile)
    = thirteenRows ++ additionalData
    /\ additionalData = [].
Proof.
  destruct (finalDataset_extends thirteenRows "underfitting" (Some mixedFile))
    as (extra & H1 & _ & H3 & _).
  exists extra. split; [exact H1|]. apply H3. left. discriminate.
Defined.

(** The three size checks are consistent on every level: when the
    panel, showing the engine's level, lets a training through, the
    engine's own check lets it through, the dataset it hands over is the
    recorded one, a running recording is paused, and the trainer's check
    of 50 rows cannot fail. *)
Theorem training_gates_compose (p : ControlPanel.t) :
  ControlPanel.currentLevel p = currentLevel (ControlPanel.gameEngine p) ->
  (ControlPanel.minRequired (ControlPanel.currentLevel p)
   <= length (dataset (ControlPanel.gameEngine p)))%nat ->
  snd (ControlPanel.handleTrainModel p) = true
  /\ dataset (ControlPanel.gameEngine (fst (ControlPanel.handleTrainModel p)))
     = dataset (ControlPanel.gameEngine p)
  /\ ControlPanel.recordingState (fst (ControlPanel.handleTrainModel p))
     <> ControlPanel.Recording
  /\ forall fuel canvasHeight canvasWidth fetched,
       MLTrainer.prepare fuel (dataset (ControlPanel.gameEngine p)) canvasHeight canvasWidth
         (levelName (currentLevel (ControlPanel.gameEngine p))) fetched
       <> Some (inl MLTrainer.NeedAtLeast50).
Proof.
  intros Hl Hn. unfold ControlPanel.handleTrainModel.
  assert (H50 : (50 <= length (dataset (ControlPanel.gameEngine p)))%nat).
  { destruct (ControlPanel.currentLevel p); simpl in Hn; lia. }
  assert (He : (minRequired (currentLevel (ControlPanel.gameEngine p))
                <= length (dataset (ControlPanel.gameEngine p)))%nat).
  { rewrite <- Hl. destruct (ControlPanel.currentLevel p); simpl in *; lia. }
  apply Nat.ltb_ge in Hn. rewrite Hn.
  assert (Ht : forall e, dataset e = dataset (ControlPanel.gameEngine p) ->
                 currentLevel e = currentLevel (ControlPanel.gameEngine p) ->
                 snd (trainModel e) = true /\ dataset (fst (trainModel e)) = dataset e).
  { intros e Hd Hc. unfold trainModel. rewrite Hd, Hc.
    apply Nat.ltb_ge in He. rewrite He. split; [reflexivity|exact Hd]. }
  split; [|split; [|split]].
  - destruct (ControlPanel.recordingState p); cbn [ControlPanel.gameEngine];
      destruct (trainModel _) eqn:E;
      match type of E with trainModel ?x = _ =>
        destruct (Ht x eq_refl eq_refl) as [H1 _]; rewrite E in H1; exact H1 end.
  - destruct (ControlPanel.recordingState p); cbn [ControlPanel.gameEngine];
      destruct (trainModel _) eqn:E;
      match type of E with trainModel ?x = _ =>
        destruct (Ht x eq_refl eq_refl) as [_ H1]; rewrite E in H1; exact H1 end.
  - destruct (ControlPanel.recordingState p) eqn:Er;
      cbn [ControlPanel.gameEngine ControlPanel.recordingState];
      destruct (trainModel _); cbn [fst ControlPanel.recordingState];
      rewrite ?Er; discriminate.
  - intros fuel H W fetched. unfold MLTrainer.prepare.
    apply Nat.ltb_ge in H50. rewrite H50. unfold MLTrainer.balance.
    repeat case_match; discriminate.
Qed.

Lemma training_gates_compose_witness :
  snd (ControlPanel.handleTrainModel
         {| ControlPanel.recordingState := ControlPanel.Recording;
            ControlPanel.currentLevel := Underfitting;
            ControlPanel.gameEngine := withRows 50 Underfitting |}) = true.
Proof.
  apply (training_gates_compose
           {| ControlPanel.recordingState := ControlPanel.Recording;
              ControlPanel.currentLevel := Underfitting;
              ControlPanel.gameEngine := withRows 50 Underfitting |}).
  - reflexivity.
  - vm_compute. reflexivity.
Defined.

(** ** The level switch of the page *)

(** The coins are a multiple of five between 0 and 45.  A switch to a
    level that costs more than the player's coins leaves the engine
    untouched; any other switch leaves it in the new level with no rows,
    no model, no AI and no recording, in the menu.  The finetuning level
    costs nothing. *)
Theorem level_switch_needs_coins (levelProgress : Page.LevelProgress) (coins : Z)
    (level : Level) (e : t) :
  (0 <= Page.totalCoins levelProgress <= 45)%Z
  /\ (Page.totalCoins levelProgress mod 5 = 0)%Z
  /\ ((coins < Page.requiredCoins level)%Z -> Page.handleLevelChange coins level e = e)
  /\ ((Page.requiredCoins level <= coins)%Z ->
       currentLevel (Page.handleLevelChange coins level e) = level
       /\ dataset (Page.handleLevelChange coins level e) = []
       /\ model (Page.handleLevelChange coins level e) = None
       /\ isAI (Page.handleLevelChange coins level e) = false
       /\ isRecording (Page.handleLevelChange coins level e) = false
       /\ state (Page.handleLevelChange coins level e) = Menu)
  /\ Page.requiredCoins Finetuning = 0%Z.
Proof.
  split; [|split; [|split; [|split]]].
  - unfold Page.totalCoins. simpl.
    destruct (levelProgress Finetuning) as [[] [] []],
             (levelProgress Underfitting) as [[] [] []],
             (levelProgress Overfitting) as [[] [] []]; simpl; lia.
  - unfold Page.totalCoins. simpl.
    destruct (levelProgress Finetuning) as [[] [] []],
             (levelProgress Underfitting) as [[] [] []],
             (levelProgress Overfitting) as [[] [] []]; reflexivity.
  - intros H. unfold Page.handleLevelChange. apply Z.ltb_lt in H. rewrite H. reflexivity.
  - intros H. unfold Page.handleLevelChange. apply Z.ltb_ge in H. rewrite H.
    repeat split.
  - reflexivity.
Qed.

Lemma level_switch_needs_coins_witness :
  Page.handleLevelChange 10 Overfitting trainedEngine = trainedEngine
  /\ model (Page.handleLevelChange 30 Overfitting trainedEngine) = None.
Proof.
  destruct (level_switch_needs_coins (fun _ => noneAchieved) 10 Overfitting trainedEngine)
    as (_ & _ & H1 & _).
  destruct (level_switch_needs_coins (fun _ => allAchieved) 30 Overfitting trainedEngine)
    as (_ & _ & _ & H2 & _).
  split; [apply H1; reflexivity|]. apply H2. discriminate.
Defined.

(** ** Labels, features and the recording buttons *)

(** Whatever happens to the engine, the labels it holds stay integers (0
    or 1 from recording, what [parseInt] reads from a file), [NaN] or an
    infinity (what [parseInt] reads from letters or from more than 308
    digits): no sequence of events puts a fractional label in the
    dataset. *)
Theorem labels_stay_integers sin (evs : list (Host * Event)) (e : t) :
  Forall (fun r => isLabel (GameData.pressed r) = true) (dataset e) ->
  Forall (fun r => isLabel (GameData.pressed r) = true) (dataset (run sin evs e)).
Proof.
  revert e. induction evs as [|[h ev] evs IH]; intros e H; [exact H|].
  unfold run. simpl. apply IH. apply step_labels. exact H.
Qed.

Lemma labels_stay_integers_witness :
  Forall (fun r => isLabel (GameData.pressed r) = true)
         (dataset (run flatSin [(hostAt 0, UploadCSV mixedFile); (hostAt 0, KeyDown " ");
                                (hostAt 5, StartRecording); (hostAt 16, AnimationFrame);
                                (hostAt 100, IntervalTick); (hostAt 200, IntervalTick)]
                       (new playfield))).
Proof.
  apply (labels_stay_integers flatSin
           [(hostAt 0, UploadCSV mixedFile); (hostAt 0, KeyDown " ");
            (hostAt 5, StartRecording); (hostAt 16, AnimationFrame);
            (hostAt 100, IntervalTick); (hostAt 200, IntervalTick)]
           (new playfield)).
  simpl. constructor.
Defined.

Lemma features_agree_with_two_pipes_witness :
  recordedFeatures twoPipes = getRawFeatures twoPipes.
Proof.
  apply (features_agree_with_two_pipes twoPipes); vm_compute; eexists; reflexivity.
Defined.

(** The recording buttons and the train button keep the panel and the
    engine in agreement about whether a recording runs, and never touch
    the recorded rows.  Starting from idle drops the buffered row, so the
    first row of a new recording is not labelled with an old state;
    resuming keeps it. *)
Theorem panel_tracks_engine_recording (p : ControlPanel.t) :
  inSync p ->
  inSync (ControlPanel.handleStartRecording p)
  /\ inSync (ControlPanel.handlePauseRecording p)
  /\ inSync (fst (ControlPanel.handleTrainModel p))
  /\ dataset (ControlPanel.gameEngine (ControlPanel.handleStartRecording p))
     = dataset (ControlPanel.gameEngine p)
  /\ dataset (ControlPanel.gameEngine (ControlPanel.handlePauseRecording p))
     = dataset (ControlPanel.gameEngine p)
  /\ match ControlPanel.recordingState p with
     | ControlPanel.Idle =>
         dataBuffer (ControlPanel.gameEngine (ControlPanel.handleStartRecording p)) = None
     | _ =>
         dataBuffer (ControlPanel.gameEngine (ControlPanel.handleStartRecording p))
         = dataBuffer (ControlPanel.gameEngine p)
     end.
Proof.
  unfold inSync, ControlPanel.handleStartRecording, ControlPanel.handlePauseRecording,
    ControlPanel.handleTrainModel.
  intros [H1 H2].
  split; [|split; [|split; [|split; [|split]]]].
  - destruct (ControlPanel.recordingState p) eqn:E; simpl; rewrite ?E; tauto.
  - destruct (ControlPanel.recordingState p) eqn:E; simpl; rewrite ?E;
      try tauto; split; discriminate.
  - destruct (_ <? _)%nat; [simpl; tauto|].
    assert (Ht : forall e, isRecording (fst (trainModel e)) = isRecording e)
      by (intros e; unfold trainModel; case_match; reflexivity).
    destruct (ControlPanel.recordingState p) eqn:E; cbn [ControlPanel.gameEngine];
      match goal with |- context [trainModel ?x] =>
        pose proof (Ht x) as Hx; destruct (trainModel x) end;
      simpl in *; rewrite ?E, Hx; try tauto; split; discriminate.
  - destruct (ControlPanel.recordingState p); reflexivity.
  - destruct (ControlPanel.recordingState p); reflexivity.
  - destruct (ControlPanel.recordingState p); reflexivity.
Qed.

Lemma panel_tracks_engine_recording_witness :
  inSync (ControlPanel.handlePauseRecording (ControlPanel.handleStartRecording freshPanel)).
Proof.
  apply (panel_tracks_engine_recording (ControlPanel.handleStartRecording freshPanel)).
  apply (panel_tracks_engine_recording freshPanel).
  split; discriminate.
Defined.

(** ** Pipes that left the playfield *)

Lemma movePipes_inSight now todo : forall moved e r,
  movePipes now moved todo e = inl r \/ movePipes now moved todo e = inr r ->
  (0 <= pipeSpeed e)%Q ->
  Forall (inSight (pipeSpeed e)) moved ->
  Forall (fun p => (0 < Pipe.x p + Pipe.width p)%Q) todo ->
  Forall (inSight (pipeSpeed e)) (pipes r).
Proof.
  induction todo as [|pipe rest IH]; intros moved e r H Hv Hm Ht; simpl in H.
  - destruct H as [H|H]; [discriminate|]. injection H as <-. exact Hm.
  - inversion Ht as [|? ? Hp Hrest]; subst.
    assert (Hp1 : inSight (pipeSpeed e) (Pipe.set_x (Pipe.x pipe - pipeSpeed e) pipe)).
    { unfold inSight. simpl. lra. }
    destruct (collides _ _).
    + destruct H as [H|H]; [|discriminate]. injection H as <-.
      rewrite endGame_pipes. simpl. apply Forall_app. split; [exact Hm|].
      constructor; [exact Hp1|].
      eapply Forall_impl; [exact Hrest|]. intros q Hq. unfold inSight. simpl in Hq. lra.
    + destruct (_ && _).
      * apply IH in H; [exact H|exact Hv| |exact Hrest].
        apply Forall_app. split; [exact Hm|]. constructor; [|constructor]. exact Hp1.
      * apply IH in H; [exact H|exact Hv| |exact Hrest].
        apply Forall_app. split; [exact Hm|]. constructor; [|constructor]. exact Hp1.
Qed.

(** A frame of a running round drops the pipes that have left the
    playfield on the left: every pipe the engine still holds afterwards
    has its right edge less than one frame's travel past the border, so
    the list of pipes does not keep pipes the bird has long passed. *)
Theorem offscreen_pipes_are_dropped sin now random (e : t) :
  isPaused e = false -> state e = Playing -> gameStarted e || isAI e = true ->
  (0 <= pipeSpeed e)%Q ->
  Forall (inSight (pipeSpeed e)) (pipes (update sin now random e)).
Proof.
  intros Hp Hs Hg Hv.
  rewrite update_stages, Hp, (bool_decide_eq_true_2 _ Hs), Hg. cbn [negb orb].
  assert (Hspeed : pipeSpeed (physics random e) = pipeSpeed e)
    by (unfold physics; repeat case_match; reflexivity).
  assert (Hon : Forall (fun p => (0 < Pipe.x p + Pipe.width p)%Q)
                  (onScreen (pipes (physics random e)))).
  { apply Forall_forall. intros q Hq. unfold onScreen in Hq.
    apply list_elem_of_filter in Hq. destruct Hq as [Hq _]. apply Qltb_true. exact Hq. }
  destruct (movePipes now [] (onScreen (pipes (physics random e))) (physics random e))
    as [r|r] eqn:E.
  - rewrite <- Hspeed.
    eapply movePipes_inSight; [left; exact E| |constructor|exact Hon].
    rewrite Hspeed. exact Hv.
  - destruct (finish_fields now r) as (_ & Hpipes & _). rewrite Hpipes, <- Hspeed.
    eapply movePipes_inSight; [right; exact E| |constructor|exact Hon].
    rewrite Hspeed. exact Hv.
Qed.

Lemma offscreen_pipes_are_dropped_witness :
  Forall (inSight (pipeSpeed afterFirstJump))
         (pipes (update flatSin 600 (1 # 2) afterFirstJump)).
Proof.
  apply (offscreen_pipes_are_dropped flatSin 600 (1 # 2) afterFirstJump);
    try reflexivity.
  vm_compute. discriminate.
Defined.

(** ** Class balancing in binary64 *)

Lemma nearestEven_ge (K : Z) (y : Q) : (inject_Z K <= y)%Q -> (K <= JS.nearestEven y)%Z.
Proof.
  intros H. unfold JS.nearestEven.
  assert (Hf : (K <= Qfloor y)%Z).
  { rewrite <- (Qfloor_Z K). apply Qfloor_resp_le. exact H. }
  repeat case_match; lia.
Qed.

Lemma nearestEven_le (K : Z) (y : Q) : (y <= inject_Z K)%Q -> (JS.nearestEven y <= K)%Z.
Proof.
  intros H. unfold JS.nearestEven.
  pose proof (Qfloor_le y) as Hlo.
  assert (Hf : (Qfloor y <= K)%Z).
  { rewrite <- (Qfloor_Z K). apply Qfloor_resp_le. exact H. }
  destruct (JS.Qltb (y - inject_Z (Qfloor y)) (1 # 2)) eqn:E1; [exact Hf|].
  assert (Hlt : (Qfloor y < K)%Z).
  { unfold JS.Qltb in E1. apply negb_false_iff, Qle_bool_iff in E1.
    rewrite Zlt_Qlt. lra. }
  repeat case_match; lia.
Qed.

Lemma Qabs_nonneg_eq (x : Q) : (0 <= x)%Q -> Qabs x = x.
Proof.
  destruct x as [n d]. unfold Qle. simpl. rewrite Z.mul_1_r. intros H.
  rewrite Z.abs_eq by exact H. reflexivity.
Qed.

Lemma Qltb_nonneg (x : Q) : (0 <= x)%Q -> JS.Qltb x 0 = false.
Proof. intros H. unfold JS.Qltb. apply negb_false_iff, Qle_bool_iff. exact H. Qed.

(** Rounding does not cross an integer below [2^53]. *)
Lemma round64_between (x : Q) (lo hi : Z) :
  (0 < x)%Q -> (inject_Z lo <= x)%Q -> (x <= inject_Z hi)%Q -> (hi < 2 ^ 53)%Z ->
  exists q, JS.round64 x = JS.Fin q /\ (inject_Z lo <= q)%Q /\ (q <= inject_Z hi)%Q.
Proof.
  intros Hx Hlo Hhi Hbig. unfold JS.round64.
  destruct (Qeq_bool x 0) eqn:E0.
  { apply Qeq_bool_iff in E0. rewrite E0 in Hx. discriminate Hx. }
  rewrite (Qabs_nonneg_eq x) by lra. rewrite (Qltb_nonneg x) by lra.
  assert (HL : (JS.ilog2 x < 53)%Z).
  { apply ilog2_below; [exact Hx|]. rewrite (pow2_nonneg_exp 53) by lia.
    eapply Qle_lt_trans; [exact Hhi|]. rewrite <- Zlt_Qlt. exact Hbig. }
  set (e := Z.max (JS.ilog2 x - 52) (-1074)).
  assert (He : (e <= 0)%Z) by lia. clearbody e.
  pose proof (pow2_pos e) as Hp.
  assert (Hinv : (JS.pow2 e * inject_Z (2 ^ (- e)) == 1)%Q).
  { rewrite <- (pow2_nonneg_exp (- e)) by lia. rewrite <- pow2_add.
    replace (e + - e)%Z with 0%Z by lia. reflexivity. }
  assert (Hi : (/ JS.pow2 e == inject_Z (2 ^ (- e)))%Q).
  { apply (Qmult_inj_l _ _ (JS.pow2 e)); [lra|].
    rewrite Qmult_inv_r by lra. symmetry. exact Hinv. }
  assert (Hs : (0 < inject_Z (2 ^ (- e)))%Q).
  { rewrite <- Hi. apply Qinv_lt_0_compat. exact Hp. }
  assert (Hm1 : (lo * 2 ^ (- e) <= JS.nearestEven (x / JS.pow2 e))%Z).
  { apply nearestEven_ge. rewrite inject_Z_mult. unfold Qdiv. rewrite Hi.
    apply Qmult_le_compat_r; [exact Hlo|lra]. }
  assert (Hm2 : (JS.nearestEven (x / JS.pow2 e) <= hi * 2 ^ (- e))%Z).
  { apply nearestEven_le. rewrite inject_Z_mult. unfold Qdiv. rewrite Hi.
    apply Qmult_le_compat_r; [exact Hhi|lra]. }
  set (m := JS.nearestEven (x / JS.pow2 e)) in *. clearbody m.
  rewrite Zle_Qle, inject_Z_mult in Hm1, Hm2.
  set (s := inject_Z (2 ^ (- e))) in *. clearbody s.
  set (p := JS.pow2 e) in *. clearbody p.
  assert (Hr1 : (inject_Z lo <= inject_Z m * p)%Q).
  { assert (H : (inject_Z lo * s * p <= inject_Z m * p)%Q)
      by (apply Qmult_le_compat_r; [exact Hm1|lra]).
    assert (Heq : (inject_Z lo * s * p == inject_Z lo * (p * s))%Q) by ring.
    rewrite Heq, Hinv, Qmult_1_r in H. exact H. }
  assert (Hr2 : (inject_Z m * p <= inject_Z hi)%Q).
  { assert (H : (inject_Z m * p <= inject_Z hi * s * p)%Q)
      by (apply Qmult_le_compat_r; [exact Hm2|lra]).
    assert (Heq : (inject_Z hi * s * p == inject_Z hi * (p * s))%Q) by ring.
    rewrite Heq, Hinv, Qmult_1_r in H. exact H. }
  destruct (Qle_bool (JS.pow2 1024) (inject_Z m * p)) eqn:Eo.
  { apply Qle_bool_iff in Eo. exfalso.
    assert (H53 : (inject_Z hi < JS.pow2 1024)%Q).
    { apply Qlt_le_trans with (inject_Z (2 ^ 53)); [rewrite <- Zlt_Qlt; exact Hbig|].
      apply Qle_bool_iff. reflexivity. }
    lra. }
  eexists. split; [reflexivity|]. rewrite Qred_correct. split; assumption.
Qed.

Lemma div_ofZ (a b : Z) :
  b <> 0%Z -> JS.div (JS.ofZ a) (JS.ofZ b) = JS.Fin (inject_Z a / inject_Z b).
Proof.
  intros Hb. unfold JS.div, JS.ofZ.
  destruct (Qeq_bool (inject_Z b) 0) eqn:E; [|reflexivity].
  apply Qeq_bool_iff in E. exfalso. apply Hb.
  unfold Qeq, inject_Z in E. simpl in E. lia.
Qed.

Lemma Qfloor_in (q : Q) (k : Z) :
  (inject_Z k <= q)%Q -> (q < inject_Z (k + 1))%Q -> Qfloor q = k.
Proof.
  intros Hlo Hhi.
  assert (H1 : (k <= Qfloor q)%Z).
  { rewrite <- (Qfloor_Z k). apply Qfloor_resp_le. exact Hlo. }
  assert (H2 : (Qfloor q < k + 1)%Z).
  { rewrite Zlt_Qlt. eapply Qle_lt_trans; [apply Qfloor_le|exact Hhi]. }
  lia.
Qed.

Lemma halfUlp_pow2 : (JS.pow2 (-53) == halfUlp)%Q.
Proof. reflexivity. Qed.

(** The stride, [floor(count0 / sampleSize)] in binary64, is the integer
    quotient. *)
Lemma step_rounded (n0 S : Z) :
  (1 <= S)%Z -> (S <= n0)%Z -> (n0 < 2 ^ 26)%Z ->
  JS.floor (JS.fl (JS.div (JS.ofZ n0) (JS.ofZ S))) = JS.ofZ (n0 / S).
Proof.
  intros HS HSn Hn. rewrite div_ofZ by lia. unfold JS.fl.
  pose proof (Z.div_mod n0 S ltac:(lia)) as Hdm.
  pose proof (Z.mod_pos_bound n0 S ltac:(lia)) as Hmod.
  set (k := (n0 / S)%Z) in *. set (r := (n0 mod S)%Z) in *.
  assert (Hk1 : (1 <= k)%Z) by (subst k; apply Z.div_le_lower_bound; lia).
  assert (HSq : (1 <= inject_Z S)%Q) by (change 1%Q with (inject_Z 1); rewrite <- Zle_Qle; lia).
  assert (HSq' : (inject_Z S < inject_Z (2 ^ 26))%Q) by (rewrite <- Zlt_Qlt; lia).
  assert (Hnq : (inject_Z n0 < inject_Z (2 ^ 26))%Q) by (rewrite <- Zlt_Qlt; lia).
  assert (Hx : (inject_Z n0 / inject_Z S * inject_Z S == inject_Z n0)%Q)
    by (field; lra).
  assert (Hn0 : (inject_Z n0 == inject_Z k * inject_Z S + inject_Z r)%Q).
  { rewrite <- inject_Z_mult, <- inject_Z_plus. apply inject_Z_injective. lia. }
  assert (Hr : (0 <= inject_Z r)%Q /\ (inject_Z r <= inject_Z S - 1)%Q).
  { split; [change 0%Q with (inject_Z 0); rewrite <- Zle_Qle; lia|].
    unfold Qle, Qminus, Qplus, Qopp, inject_Z. cbn [Qnum Qden]. lia. }
  destruct Hr as [Hr0 Hr1].
  assert (Hkq : (1 <= inject_Z k)%Q) by (change 1%Q with (inject_Z 1); rewrite <- Zle_Qle; lia).
  set (x := (inject_Z n0 / inject_Z S)%Q) in *.
  assert (Hxk : (inject_Z k <= x)%Q).
  { apply Qmult_le_r with (inject_Z S); [lra|]. rewrite Hx, Hn0. lra. }
  assert (Hxn : (x <= inject_Z n0)%Q).
  { apply Qmult_le_r with (inject_Z S); [lra|]. rewrite Hx.
    assert (0 <= inject_Z n0)%Q by (change 0%Q with (inject_Z 0); rewrite <- Zle_Qle; lia). nra. }
  assert (Hxpos : (0 < x)%Q) by lra.
  destruct (round64_between x k n0 Hxpos Hxk Hxn ltac:(lia)) as (q & Hq & Hqlo & Hqhi).
  destruct (round64_close x) as (q' & Hq' & Herr & _).
  { rewrite Qabs_pos by lra. apply Qle_trans with 1%Q; [apply Qle_bool_iff; reflexivity|lra]. }
  { rewrite Qabs_pos by lra.
    apply Qle_trans with (inject_Z (2 ^ 26)); [lra|apply Qle_bool_iff; reflexivity]. }
  rewrite Hq in Hq'. injection Hq' as <-.
  rewrite Hq. unfold JS.floor. f_equal. apply Qfloor_in; [exact Hqlo|].
  assert (Hax : (Qabs x == x)%Q) by (apply Qabs_pos; lra).
  assert (Herr' : (Qabs (q - x) <= x * halfUlp)%Q).
  { eapply Qle_trans; [exact Herr|]. rewrite Hax, halfUlp_pow2. apply Qle_refl. }
  apply Qabs_Qle_condition in Herr'. destruct Herr' as [_ Hup].
  rewrite inject_Z_plus. change (inject_Z 1) with 1%Q.
  apply Qmult_lt_r with (inject_Z S); [lra|].
  assert (Hu : (halfUlp * inject_Z (2 ^ 26) <= 1 # 100)%Q) by (apply Qle_bool_iff; reflexivity).
  assert (Hu0 : (0 < halfUlp)%Q) by reflexivity.
  set (u := halfUlp) in *. clearbody u.
  set (c := inject_Z (2 ^ 26)) in *. clearbody c.
  set (sq := inject_Z S) in *. set (kq := inject_Z k) in *. set (rq := inject_Z r) in *.
  set (nq := inject_Z n0) in *. clearbody sq kq rq nq x.
  assert (Hqs : (q * sq <= nq + nq * u)%Q).
  { assert (H : ((q - x) * sq <= x * u * sq)%Q) by (apply Qmult_le_compat_r; lra).
    assert (Heq : (x * u * sq == nq * u)%Q) by (rewrite <- Hx; ring).
    rewrite Heq in H. assert (Heq2 : ((q - x) * sq == q * sq - nq)%Q) by (rewrite <- Hx; ring).
    rewrite Heq2 in H. lra. }
  assert (Hnu : (nq * u < 1)%Q).
  { assert (nq * u <= c * u)%Q by (apply Qmult_le_compat_r; lra). lra. }
  lra.
Qed.

Lemma round64_zero (q : Q) : (q == 0)%Q -> JS.round64 q = JS.Fin 0.
Proof.
  intros H. unfold JS.round64.
  assert (E : Qeq_bool q 0 = true) by (apply Qeq_bool_iff; exact H).
  rewrite E. reflexivity.
Qed.

Lemma min_two (r : Q) :
  JS.min (JS.Fin 2) (JS.Fin r) = JS.Fin (if JS.Qltb r 2 then r else 2%Q).
Proof. unfold JS.min, JS.ltb. destruct (JS.Qltb r 2); reflexivity. Qed.

Lemma Qltb_lt a b : (a < b)%Q -> JS.Qltb a b = true.
Proof.
  intros H. unfold JS.Qltb. destruct (Qle_bool b a) eqn:E; [|reflexivity].
  apply Qle_bool_iff in E. lra.
Qed.

Lemma Qltb_ge a b : (b <= a)%Q -> JS.Qltb a b = false.
Proof.
  intros H. unfold JS.Qltb. apply Qle_bool_iff in H. rewrite H. reflexivity.
Qed.

(** The sample size in binary64: [min(2 count1, count0)], or one less when
    the quotient and the product round down below the integer. *)
Lemma sampleSize_rounded (n0 n1 : Z) :
  (0 <= n0 < 2 ^ 26)%Z -> (1 <= n1 < 2 ^ 26)%Z ->
  exists S : Z,
    JS.floor (JS.fl (JS.mul (JS.ofZ n1)
                (JS.min (JS.Fin 2) (JS.fl (JS.div (JS.ofZ n0) (JS.ofZ n1))))))
    = JS.ofZ S
    /\ (0 <= S)%Z /\ (Z.min (2 * n1) n0 - 1 <= S <= Z.min (2 * n1) n0)%Z
    /\ (2 * n1 <= n0 -> S = 2 * n1)%Z.
Proof.
  intros Hn0 Hn1. rewrite div_ofZ by lia. cbn [JS.fl].
  assert (Hn1q : (1 <= inject_Z n1)%Q) by (change 1%Q with (inject_Z 1); rewrite <- Zle_Qle; lia).
  assert (Hn1q' : (inject_Z n1 <= inject_Z (2 ^ 26))%Q) by (rewrite <- Zle_Qle; lia).
  assert (Hn0q : (0 <= inject_Z n0)%Q) by (change 0%Q with (inject_Z 0); rewrite <- Zle_Qle; lia).
  assert (Hn0q' : (inject_Z n0 <= inject_Z (2 ^ 26))%Q) by (rewrite <- Zle_Qle; lia).
  assert (Hx : (inject_Z n0 / inject_Z n1 * inject_Z n1 == inject_Z n0)%Q) by (field; lra).
  set (x := (inject_Z n0 / inject_Z n1)%Q) in *.
  destruct (Z.eq_dec n0 0%Z) as [Hz|Hnz].
  - exists 0%Z. rewrite (round64_zero x).
    + rewrite min_two. change (JS.Qltb 0 2) with true. cbn [JS.mul JS.ofZ JS.fl].
      rewrite (round64_zero (inject_Z n1 * 0)) by ring.
      split; [reflexivity|]. lia.
    + subst x n0. unfold Qdiv. change (inject_Z 0) with 0%Q. ring.
  - assert (Hn0q1 : (1 <= inject_Z n0)%Q)
      by (change 1%Q with (inject_Z 1); rewrite <- Zle_Qle; lia).
    assert (Hxpos : (0 < x)%Q).
    { apply Qmult_lt_r with (inject_Z n1); [lra|]. rewrite Hx. lra. }
    assert (Hxn : (x <= inject_Z n0)%Q).
    { apply Qmult_le_r with (inject_Z n1); [lra|]. rewrite Hx. nra. }
    destruct (Z_le_gt_dec (2 * n1) n0) as [Hge|Hlt].
    + assert (Hx2 : (inject_Z 2 <= x)%Q).
      { apply Qmult_le_r with (inject_Z n1); [lra|].
        rewrite Hx, <- inject_Z_mult, <- Zle_Qle. exact Hge. }
      destruct (round64_between x 2 n0 Hxpos Hx2 Hxn ltac:(lia)) as (q & Hq & Hqlo & _).
      rewrite Hq, min_two, (Qltb_ge q 2) by exact Hqlo.
      cbn [JS.mul JS.ofZ JS.fl].
      assert (Hp : (inject_Z n1 * 2 == inject_Z (2 * n1))%Q)
        by (rewrite inject_Z_mult; change (inject_Z 2) with 2%Q; ring).
      destruct (round64_between (inject_Z n1 * 2) (2 * n1) (2 * n1)) as (p & Hpr & Hplo & Hphi);
        [lra|rewrite Hp; apply Qle_refl|rewrite Hp; apply Qle_refl|lia|].
      rewrite Hpr. exists (2 * n1)%Z. split; [|lia].
      unfold JS.floor. f_equal. apply Qfloor_in; [exact Hplo|].
      eapply Qle_lt_trans; [exact Hphi|]. rewrite <- Zlt_Qlt. lia.
    + assert (Hn01 : (inject_Z n0 <= 2 * inject_Z n1 - 1)%Q).
      { unfold Qle, Qminus, Qplus, Qopp, Qmult, inject_Z. cbn [Qnum Qden]. lia. }
      assert (Hu : (halfUlp * inject_Z (2 ^ 26) <= 1 # 100)%Q)
        by (apply Qle_bool_iff; reflexivity).
      assert (Hu0 : (0 < halfUlp)%Q) by reflexivity.
      assert (Hxlo : (1 <= x * inject_Z (2 ^ 26))%Q).
      { apply Qmult_le_r with (inject_Z n1); [lra|].
        assert (Heq : (x * inject_Z (2 ^ 26) * inject_Z n1
                       == inject_Z n0 * inject_Z (2 ^ 26))%Q) by (rewrite <- Hx; ring).
        rewrite Heq. nra. }
      destruct (round64_close x) as (q & Hq & Herr & Hsign & _).
      { rewrite Qabs_pos by lra.
        apply Qle_trans with (1 / inject_Z (2 ^ 26))%Q; [apply Qle_bool_iff; reflexivity|].
        apply Qle_shift_div_r; [reflexivity|]. lra. }
      { rewrite Qabs_pos by lra.
        apply Qle_trans with (inject_Z (2 ^ 26)); [lra|apply Qle_bool_iff; reflexivity]. }
      assert (Hax : (Qabs x == x)%Q) by (apply Qabs_pos; lra).
      assert (Herr' : (Qabs (q - x) <= x * halfUlp)%Q).
      { eapply Qle_trans; [exact Herr|]. rewrite Hax, halfUlp_pow2. apply Qle_refl. }
      apply Qabs_Qle_condition in Herr'. destruct Herr' as [Hdn Hup].
      set (u := halfUlp) in *. set (c := inject_Z (2 ^ 26)) in *.
      set (a := inject_Z n0) in *. set (b := inject_Z n1) in *.
      assert (Hxu : (x * u <= a * u)%Q) by (apply Qmult_le_compat_r; lra).
      assert (Hau : (a * u <= 1 # 100)%Q).
      { apply Qle_trans with (c * u)%Q; [apply Qmult_le_compat_r; lra|lra]. }
      (* q * b is within a * u of a *)
      assert (Hqb : (a - a * u <= q * b)%Q /\ (q * b <= a + a * u)%Q).
      { assert (H1 : ((q - x) * b <= x * u * b)%Q) by (apply Qmult_le_compat_r; lra).
        assert (H2 : (- (x * u) * b <= (q - x) * b)%Q) by (apply Qmult_le_compat_r; lra).
        assert (E1 : (x * u * b == a * u)%Q) by (rewrite <- Hx; ring).
        assert (E2 : ((q - x) * b == q * b - a)%Q) by (rewrite <- Hx; ring).
        assert (E3 : (- (x * u) * b == - (a * u))%Q) by (rewrite <- Hx; ring).
        rewrite E1, E2 in H1. rewrite E3, E2 in H2. split; lra. }
      destruct Hqb as [Hqb1 Hqb2].
      assert (Hq2 : (q < 2)%Q).
      { apply Qmult_lt_r with b; [lra|]. lra. }
      rewrite Hq, min_two, (Qltb_lt q 2) by exact Hq2.
      cbn [JS.mul JS.ofZ JS.fl]. fold b.
      set (y := (b * q)%Q).
      assert (Hy : (a - a * u <= y)%Q /\ (y <= a + a * u)%Q)
        by (subst y; split; lra).
      destruct Hy as [Hy1 Hy2].
      destruct (round64_close y) as (p & Hp & Hperr & _).
      { rewrite Qabs_pos by lra.
        apply Qle_trans with (1 # 2)%Q; [apply Qle_bool_iff; reflexivity|lra]. }
      { rewrite Qabs_pos by lra.
        apply Qle_trans with (inject_Z (2 ^ 27)); [|apply Qle_bool_iff; reflexivity].
        assert (c + 1 <= inject_Z (2 ^ 27))%Q by (apply Qle_bool_iff; reflexivity). lra. }
      assert (Hay : (Qabs y == y)%Q) by (apply Qabs_pos; lra).
      assert (Hperr' : (Qabs (p - y) <= y * u)%Q).
      { eapply Qle_trans; [exact Hperr|]. rewrite Hay, halfUlp_pow2. apply Qle_refl. }
      apply Qabs_Qle_condition in Hperr'. destruct Hperr' as [Hpdn Hpup].
      assert (Hyu : (y * u <= 1 # 50)%Q).
      { assert (y * u <= (a + a * u) * u)%Q by (apply Qmult_le_compat_r; lra).
        assert (a * u * u <= (1 # 100) * u)%Q by (apply Qmult_le_compat_r; lra).
        assert (u <= 1)%Q by (subst u; apply Qle_bool_iff; reflexivity).
        lra. }
      rewrite Hp. unfold JS.floor.
      assert (Hplo : (inject_Z (n0 - 1) <= p)%Q).
      { assert (E : (inject_Z (n0 - 1) == a - 1)%Q).
        { subst a. unfold Qeq, Qminus, Qplus, Qopp, inject_Z. cbn [Qnum Qden]. lia. }
        rewrite E. lra. }
      assert (Hphi : (p < inject_Z (n0 + 1))%Q).
      { rewrite inject_Z_plus. fold a. change (inject_Z 1) with 1%Q. lra. }
      exists (Qfloor p).
      assert (H1 : (n0 - 1 <= Qfloor p)%Z).
      { rewrite <- (Qfloor_Z (n0 - 1)). apply Qfloor_resp_le. exact Hplo. }
      assert (H2 : (Qfloor p < n0 + 1)%Z).
      { rewrite Zlt_Qlt. eapply Qle_lt_trans; [apply Qfloor_le|exact Hphi]. }
      split; [reflexivity|]. lia.
Qed.

Lemma round64_exact (q : Q) (n : Z) :
  (q == inject_Z n)%Q -> (0 < n < 2 ^ 53)%Z ->
  exists q', JS.round64 q = JS.Fin q' /\ (q' == inject_Z n)%Q.
Proof.
  intros Hq Hn.
  destruct (round64_between q n n) as (q' & Hr & Hlo & Hhi).
  - rewrite Hq. change 0%Q with (inject_Z 0). rewrite <- Zlt_Qlt. lia.
  - rewrite Hq. apply Qle_refl.
  - rewrite Hq. apply Qle_refl.
  - lia.
  - exists q'. split; [exact Hr|]. apply Qle_antisym; assumption.
Qed.

Lemma sampleLoop_stride class0 (ss st : Z) : forall fuel q (i : nat) acc,
  (1 <= st < 2 ^ 26)%Z -> (Z.of_nat (length class0) < 2 ^ 26)%Z ->
  q == inject_Z (Z.of_nat i) -> length class0 <= fuel + i ->
  MLTrainer.sampleLoop fuel class0 (JS.ofZ ss) (JS.ofZ st) (JS.Fin q) acc
  = Some (acc ++ take (Z.to_nat ss - length acc) (strideFrom fuel (Z.to_nat st) i class0)).
Proof.
  induction fuel as [|fuel IH]; intros q i acc Hst Hlen Hq Hfuel.
  - cbn [MLTrainer.sampleLoop strideFrom]. rewrite (ltb_inject _ _ _ Hq).
    rewrite (proj2 (Z.ltb_ge _ _)) by lia.
    rewrite take_nil, app_nil_r. reflexivity.
  - cbn [MLTrainer.sampleLoop]. rewrite (ltb_inject _ _ _ Hq), ltb_ofZ.
    destruct (Z.ltb_spec (Z.of_nat i) (Z.of_nat (length class0))) as [Hlt|Hge].
    + rewrite (index_inject _ _ Hq). cbn [mbind option_bind].
      destruct (class0 !! i) as [d|] eqn:E; [|apply lookup_ge_None in E; lia].
      assert (Hnext : q + inject_Z st == inject_Z (Z.of_nat (i + Z.to_nat st))).
      { rewrite Hq, <- inject_Z_plus. f_equiv. lia. }
      change (JS.fl (JS.add (JS.Fin q) (JS.ofZ st))) with (JS.round64 (q + inject_Z st)).
      destruct (round64_exact _ _ Hnext) as (q' & Hr & Hq'); [lia|].
      rewrite Hr.
      rewrite (IH _ (i + Z.to_nat st) _ Hst Hlen Hq') by lia.
      cbn [strideFrom]. rewrite E.
      destruct (Z.ltb_spec (Z.of_nat (length acc)) ss) as [Hroom|Hfull].
      * rewrite length_app. simpl length.
        replace (Z.to_nat ss - length acc) with (S (Z.to_nat ss - (length acc + 1))) by lia.
        simpl. rewrite <- app_assoc. reflexivity.
      * replace (Z.to_nat ss - length acc) with 0%nat by lia. rewrite !take_0. reflexivity.
    + cbn [strideFrom]. rewrite (proj2 (lookup_ge_None class0 i)) by lia.
      rewrite take_nil, app_nil_r. reflexivity.
Qed.

(** The sampling of the negative class, in binary64. *)
Lemma sampling_rounded (class0 : list GameData.t) (n1 fuel : nat) :
  0 < n1 -> length class0 <= fuel ->
  (Z.of_nat (length class0) < 2 ^ 26)%Z -> (Z.of_nat n1 < 2 ^ 26)%Z ->
  let n0 := JS.ofZ (Z.of_nat (length class0)) in
  let sampleSize :=
    JS.floor (JS.fl (JS.mul (JS.ofZ (Z.of_nat n1))
                (JS.min (JS.Fin 2) (JS.fl (JS.div n0 (JS.ofZ (Z.of_nat n1))))))) in
  exists sampled,
    MLTrainer.sampleLoop fuel class0 sampleSize
      (JS.floor (JS.fl (JS.div n0 sampleSize))) (JS.Fin 0) []
    = Some sampled
    /\ Nat.min (2 * n1) (length class0) - 1 <= length sampled
    /\ length sampled <= Nat.min (2 * n1) (length class0)
    /\ (2 * n1 <= length class0 -> length sampled = 2 * n1)
    /\ forall k, k < length sampled ->
                 sampled !! k = class0 !! (k * (length class0 / length sampled)).
Proof.
  intros Hn1 Hfuel Hb0 Hb1 n0 sampleSize.
  destruct (sampleSize_rounded (Z.of_nat (length class0)) (Z.of_nat n1))
    as (ss & Hss & Hss0 & Hssb & Hss2); [lia|lia|].
  fold n0 in Hss. fold sampleSize in Hss. rewrite Hss. clear Hss sampleSize. subst n0.
  destruct (Z.eq_dec ss 0%Z) as [Hz|Hnz].
  - subst ss. exists []. split.
    + destruct class0 as [|d class0].
      * destruct fuel; reflexivity.
      * destruct fuel as [|fuel]; [simpl in Hfuel; lia|].
        assert (Hstep : JS.floor (JS.fl (JS.div (JS.ofZ (Z.of_nat (length (d :: class0))))
                                                 (JS.ofZ 0))) = JS.PInf).
        { unfold JS.div, JS.ofZ. change (Qeq_bool (inject_Z 0) 0) with true. cbv iota.
          assert (Hp : (0 < inject_Z (Z.of_nat (length (d :: class0))))%Q).
          { change 0%Q with (inject_Z 0). rewrite <- Zlt_Qlt. simpl length. lia. }
          destruct (Qeq_bool _ 0) eqn:E.
          - apply Qeq_bool_iff in E. rewrite E in Hp. exfalso. apply (Qlt_irrefl 0 Hp).
          - rewrite (Qltb_lt _ _ Hp). reflexivity. }
        rewrite Hstep. cbn [MLTrainer.sampleLoop].
        rewrite (ltb_inject 0 0%Z) by reflexivity.
        rewrite (proj2 (Z.ltb_lt _ _)) by (simpl length; lia).
        rewrite ltb_ofZ. change (0 <? 0)%Z with false. cbv iota.
        change (JS.fl (JS.add (JS.Fin 0) JS.PInf)) with JS.PInf.
        destruct fuel; reflexivity.
    + simpl length. split; [lia|]. split; [lia|]. split; [lia|]. intros k Hk. lia.
  - assert (Hss1 : (1 <= ss)%Z) by lia.
    assert (Hssle : (ss <= Z.of_nat (length class0))%Z) by lia.
    rewrite step_rounded by lia.
    set (st := (Z.of_nat (length class0) / ss)%Z).
    assert (Hst : (1 <= st)%Z) by (subst st; apply Z.div_le_lower_bound; lia).
    assert (Hmul : (ss * st <= Z.of_nat (length class0))%Z)
      by (subst st; apply Z.mul_div_le; lia).
    assert (Hst' : (st < 2 ^ 26)%Z) by nia.
    rewrite (sampleLoop_stride class0 ss st fuel 0%Q 0%nat []) by (try reflexivity; lia).
    eexists. split; [reflexivity|]. simpl app. rewrite Nat.sub_0_r.
    assert (Hlook : forall k, k < Z.to_nat ss ->
              strideFrom fuel (Z.to_nat st) 0 class0 !! k = class0 !! (k * Z.to_nat st)).
    { intros k Hk. rewrite strideFrom_lookup; [reflexivity| lia |]. simpl. nia. }
    assert (Hlen : Z.to_nat ss <= length (strideFrom fuel (Z.to_nat st) 0 class0)).
    { destruct (Z.to_nat ss) as [|k] eqn:Ek; [lia|].
      assert (Hs : is_Some (strideFrom fuel (Z.to_nat st) 0 class0 !! k)).
      { rewrite Hlook by lia. apply lookup_lt_is_Some. nia. }
      apply lookup_lt_is_Some in Hs. lia. }
    rewrite length_take, (Nat.min_l _ _ Hlen).
    split; [lia|]. split; [lia|]. split; [lia|].
    intros k Hk. rewrite lookup_take_lt by lia. rewrite Hlook by lia.
    f_equal. f_equal. subst st.
    rewrite Z2Nat.inj_div by lia. rewrite Nat2Z.id. reflexivity.
Qed.

Lemma map_const_replicate {A B} (b : B) (l : list A) :
  map (fun _ => b) l = replicate (length l) b.
Proof. induction l as [|a l IH]; simpl; [reflexivity|]. f_equal. exact IH. Qed.

(** Balancing in binary64 (fewer than 2^26 rows, one iteration of fuel per
    negative row, a positive row present): every positive row is kept, once
    and in order; the negative rows kept are [min(2 count1, count0)] or one
    fewer, and exactly [2 count1] when [count0 >= 2 count1]; they are the
    rows at the multiples of [floor(count0 / kept)]; so they are at most
    twice the positive rows. *)
Theorem balancing_in_binary64 (rows : list GameData.t) (canvasHeight canvasWidth : Q)
    (fuel : nat) :
  length (negatives rows) <= fuel ->
  0 < length (positives rows) ->
  (Z.of_nat (length rows) < 2 ^ 26)%Z ->
  exists b,
    MLTrainer.balance fuel rows canvasHeight canvasWidth = Some (inr b)
    /\ MLTrainer.class1 b = positives rows
    /\ Nat.min (2 * length (positives rows)) (length (negatives rows)) - 1
       <= length (MLTrainer.sampledClass0 b)
    /\ length (MLTrainer.sampledClass0 b)
       <= Nat.min (2 * length (positives rows)) (length (negatives rows))
    /\ (2 * length (positives rows) <= length (negatives rows) ->
        length (MLTrainer.sampledClass0 b) = 2 * length (positives rows))
    /\ (forall k, k < length (MLTrainer.sampledClass0 b) ->
          MLTrainer.sampledClass0 b !! k
          = negatives rows
              !! (k * (length (negatives rows) / length (MLTrainer.sampledClass0 b))))
    /\ MLTrainer.balancedFeatures b
       = map (MLTrainer.features canvasHeight canvasWidth)
             (MLTrainer.sampledClass0 b ++ positives rows)
    /\ MLTrainer.balancedLabels b
       = replicate (length (MLTrainer.sampledClass0 b)) [JS.Fin 0]
         ++ replicate (length (positives rows)) [JS.Fin 1].
Proof.
  intros Hfuel Hpos Hsize. unfold MLTrainer.balance.
  fold (negatives rows). fold (positives rows).
  rewrite (proj2 (Nat.ltb_lt _ _) Hpos).
  assert (H0 : length (negatives rows) <= length rows) by apply length_filter.
  assert (H1 : length (positives rows) <= length rows) by apply length_filter.
  destruct (sampling_rounded (negatives rows) (length (positives rows)) fuel Hpos Hfuel)
    as (sampled & Hloop & Hlo & Hhi & Htwice & Hstride); [lia|lia|].
  cbv zeta in Hloop. rewrite Hloop.
  eexists. split; [reflexivity|]. cbn [MLTrainer.class1 MLTrainer.sampledClass0
    MLTrainer.balancedFeatures MLTrainer.balancedLabels].
  split; [reflexivity|]. split; [exact Hlo|]. split; [exact Hhi|].
  split; [exact Htwice|]. split; [exact Hstride|].
  split; [rewrite map_app; reflexivity|].
  rewrite !map_const_replicate. reflexivity.
Qed.

Lemma balancing_in_binary64_witness :
  exists b,
    MLTrainer.balance 11 thirteenRows 600 400 = Some (inr b)
    /\ map GameData.y (MLTrainer.sampledClass0 b) = map JS.ofZ [0; 2; 5; 7]%Z
    /\ map GameData.y (MLTrainer.class1 b) = map JS.ofZ [3; 9]%Z.
Proof.
  destruct (balancing_in_binary64 thirteenRows 600 400 11) as (b & Hb & _).
  - vm_compute. lia.
  - vm_compute. lia.
  - vm_compute. reflexivity.
  - exists b. split; [exact Hb|].
    vm_compute in Hb. injection Hb as <-. split; reflexivity.
Defined.
